(** * Task aggregate, task controller and notification sweep

    A shallow embedding of the backend of the to-do list application:
    the Mongoose [Task] model (schema validation, the [pre("save")] hook,
    the subtask methods and the static queries), the Express task
    controller and the hourly notification job, followed by the
    properties of the specification that concern them.

    Conventions.
    - A MongoDB collection is the list of its documents in insertion
      (natural) order.  [_id] is unique in a collection; this is the
      predicate [unique_ids], assumed where a property needs it.
    - An [ObjectId] is a natural number.  The identifiers Mongoose draws
      for new documents and subdocuments are arguments of the operations
      that create them.
    - A [Date] is its number of milliseconds since the epoch; the clock
      ([new Date()]) is the argument [now].
    - A string is the sequence of its characters, of code below 256,
      and its length their number.
    - The timestamps plugin ([timestamps: true]) keeps [updatedAt] on a
      task and [createdAt] and [updatedAt] on a subtask.  No modelled
      code reads them and the records leave them out: an equality of
      documents or collections below is an equality of all the other
      fields.
    - The mail transport and the availability of the database during the
      sweep are oracles indexed by the position of the task in the run.
      In the request handlers the database is taken to be available. *)

From Stdlib Require Import List ZArith Bool Arith Lia String Ascii.
From Stdlib Require Import Permutation.
Import ListNotations.

Definition ObjectId := nat.

(** A date is its time value in milliseconds.  A JavaScript [Date]
    holds the time values of [in_date_range] only; a request whose date
    is outside of it is refused when the value is cast, which the
    handlers below do not show: statements about an accepted date
    assume the range. *)
Definition Date := Z.

Definition in_date_range (v : Date) : Prop :=
  (-8640000000000000 <= v <= 8640000000000000)%Z.

(** JavaScript truthiness of a string. *)
Definition truthy (s : string) : bool := negb (String.length s =? 0).

(** [String.prototype.trim]: the white space and line terminators
    among the characters of code below 256, which are the tab to the
    carriage return (9 to 13), the space (32) and the no-break space
    (160). *)
Definition is_space (c : ascii) : bool :=
  match nat_of_ascii c with
  | 9 | 10 | 11 | 12 | 13 | 32 | 160 => true
  | _ => false
  end.

Fixpoint trimStart (s : string) : string :=
  match s with
  | EmptyString => EmptyString
  | String c rest => if is_space c then trimStart rest else s
  end.

Fixpoint trimEnd (s : string) : string :=
  match s with
  | EmptyString => EmptyString
  | String c rest =>
      match trimEnd rest with
      | EmptyString => if is_space c then EmptyString else String c EmptyString
      | kept => String c kept
      end
  end.

Definition trim (s : string) : string := trimEnd (trimStart s).

(** [Array.prototype.join] of messages. *)
Fixpoint join (sep : string) (l : list string) : string :=
  match l with
  | [] => EmptyString
  | [x] => x
  | x :: rest => (x ++ sep ++ join sep rest)%string
  end.

(** The value of [a && b && c] when the first operand is an object or
    absent and the others are booleans: the absent operand itself
    ([undefined] or [null], both falsy) or the boolean. *)
Inductive JsValue :=
| JsAbsent
| JsBool (b : bool).

Definition js_truthy (v : JsValue) : bool :=
  match v with
  | JsAbsent => false
  | JsBool b => b
  end.

(** A JavaScript number as [Math.ceil(a / b)] can produce it from
    non-negative integers. *)
Inductive JsNumber :=
| Fin (n : nat)
| Infinity
| NaN.

(** [a < x] for an integer [a]. *)
Definition js_lt_nat (a : nat) (x : JsNumber) : bool :=
  match x with
  | Fin n => a <? n
  | Infinity => true
  | NaN => false
  end.

(** [Math.ceil(a / b)]. *)
Definition ceil_div (a b : nat) : JsNumber :=
  match b with
  | 0 => match a with 0 => NaN | _ => Infinity end
  | _ => Fin ((a + b - 1) / b)
  end.

(** The part of a user document the task code reads. *)
Record User := mkUser {
  u_id : ObjectId;
  email : string
}.

(** ** models/Task.js *)
Module Task.

(** [subtaskSchema] *)
Record Subtask := mkSubtask {
  sub_id : ObjectId;
  sub_title : string;
  sub_is_completed : bool
}.

(** [taskSchema].  [title] of a document built without one is the empty
    string: the [required] validator rejects both.  [updatedAt] is left
    out, as are the timestamps of a subtask. *)
Record t := mkTask {
  _id : ObjectId;
  user_id : ObjectId;
  title : string;
  description : option string;
  is_completed : bool;
  priority : string;
  due_date : option Date;
  subtasks : list Subtask;
  notification_sent : bool;
  createdAt : Date
}.

(** Assignments to a path of a document.  The [trim: true] setters run
    on assignment. *)
Definition set_title (v : string) (d : t) : t :=
  mkTask (_id d) (user_id d) (trim v) (description d) (is_completed d)
         (priority d) (due_date d) (subtasks d) (notification_sent d)
         (createdAt d).

Definition set_description (v : string) (d : t) : t :=
  mkTask (_id d) (user_id d) (title d) (Some (trim v)) (is_completed d)
         (priority d) (due_date d) (subtasks d) (notification_sent d)
         (createdAt d).

Definition set_is_completed (v : bool) (d : t) : t :=
  mkTask (_id d) (user_id d) (title d) (description d) v
         (priority d) (due_date d) (subtasks d) (notification_sent d)
         (createdAt d).

Definition set_priority (v : string) (d : t) : t :=
  mkTask (_id d) (user_id d) (title d) (description d) (is_completed d)
         v (due_date d) (subtasks d) (notification_sent d)
         (createdAt d).

Definition set_due_date (v : option Date) (d : t) : t :=
  mkTask (_id d) (user_id d) (title d) (description d) (is_completed d)
         (priority d) v (subtasks d) (notification_sent d)
         (createdAt d).

Definition set_subtasks (v : list Subtask) (d : t) : t :=
  mkTask (_id d) (user_id d) (title d) (description d) (is_completed d)
         (priority d) (due_date d) v (notification_sent d)
         (createdAt d).

Definition set_notification_sent (v : bool) (d : t) : t :=
  mkTask (_id d) (user_id d) (title d) (description d) (is_completed d)
         (priority d) (due_date d) (subtasks d) v
         (createdAt d).

Definition set_sub_title (v : string) (s : Subtask) : Subtask :=
  mkSubtask (sub_id s) (trim v) (sub_is_completed s).

Definition set_sub_is_completed (v : bool) (s : Subtask) : Subtask :=
  mkSubtask (sub_id s) (sub_title s) v.

(** *** Schema validation *)

Definition subtask_errors (s : Subtask) : list string :=
  if String.length (sub_title s) =? 0
  then ["Subtask title is required"%string]
  else if 200 <? String.length (sub_title s)
       then ["Subtask title cannot exceed 200 characters"%string]
       else [].

Definition title_errors (d : t) : list string :=
  if String.length (title d) =? 0
  then ["Task title is required"%string]
  else if 200 <? String.length (title d)
       then ["Task title cannot exceed 200 characters"%string]
       else [].

Definition description_errors (d : t) : list string :=
  match description d with
  | Some s =>
      if 1000 <? String.length s
      then ["Task description cannot exceed 1000 characters"%string]
      else []
  | None => []
  end.

Definition priority_enum : list string :=
  ["Low"%string; "Medium"%string; "High"%string].

Definition priority_errors (d : t) : list string :=
  if existsb (String.eqb (priority d)) priority_enum
  then []
  else ["Priority must be Low, Medium, or High"%string].

(** The [due_date] validator:
    [if (this.isNew && value && value < new Date()) return false].
    [isNew] is [Some now] for a new document, [now] being the clock the
    validator reads, and [None] for a loaded one. *)
Definition due_date_valid (isNew : option Date) (d : t) : bool :=
  match isNew, due_date d with
  | Some now, Some v => negb (v <? now)%Z
  | _, _ => true
  end.

Definition due_date_errors (isNew : option Date) (d : t) : list string :=
  if due_date_valid isNew d then []
  else ["Due date cannot be in the past"%string].

(** Every path of the document is validated on [save]; the messages
    come in schema order. *)
Definition validate (isNew : option Date) (d : t) : list string :=
  title_errors d ++ description_errors d ++ priority_errors d
    ++ due_date_errors isNew d
    ++ flat_map subtask_errors (subtasks d).

(** *** Virtuals *)

(** [this.due_date && this.due_date < new Date() && !this.is_completed] *)
Definition isOverdue (d : t) (now : Date) : JsValue :=
  match due_date d with
  | None => JsAbsent
  | Some v => JsBool ((v <? now)%Z && negb (is_completed d))
  end.

Definition completedSubtasksCount (d : t) : nat :=
  List.length (filter sub_is_completed (subtasks d)).

Definition totalSubtasksCount (d : t) : nat :=
  List.length (subtasks d).

(** *** The [pre("save")] hook *)
Definition pre_save (d : t) : t :=
  if 0 <? List.length (subtasks d) then
    let completedSubtasks :=
      List.length (filter sub_is_completed (subtasks d)) in
    if completedSubtasks =? List.length (subtasks d)
    then set_is_completed true d
    else d
  else d.

(** *** The collection *)

Definition Collection := list t.

(** The update of the document with the [_id] of [d]. *)
Fixpoint write (d : t) (c : Collection) : Collection :=
  match c with
  | [] => []
  | x :: rest =>
      if _id x =? _id d then d :: rest else x :: write d rest
  end.

(** What [save] and the instance methods throw: a Mongoose
    [ValidationError] with its messages, or a plain [Error]. *)
Inductive Error :=
| ValidationError (errs : list string)
| PlainError (msg : string).

(** Outcome of [save] and of the instance methods that end in it. *)
Inductive SaveResult :=
| Saved (d : t)
| Threw (e : Error).

(** [doc.save()] on a loaded document: validation runs first, then the
    hook, then the write. *)
Definition save (d : t) (c : Collection) : Collection * SaveResult :=
  match validate None d with
  | [] => (write (pre_save d) c, Saved (pre_save d))
  | errs => (c, Threw (ValidationError errs))
  end.

(** Subtask data of a creation request. *)
Record SubtaskData := mkSubtaskData {
  data_title : string;
  data_is_completed : option bool
}.

Fixpoint cast_subtasks (oid : nat -> ObjectId) (i : nat)
         (l : list SubtaskData) : list Subtask :=
  match l with
  | [] => []
  | s :: rest =>
      mkSubtask (oid i) (trim (data_title s))
                (match data_is_completed s with
                 | Some b => b
                 | None => false
                 end)
      :: cast_subtasks oid (S i) rest
  end.

(** [Task.create(fields)]: the document is built with the schema
    defaults, validated as new, passed through the hook and inserted.
    [oid 0] is the [_id] of the task and [oid (S i)] that of its
    [i]-th subtask. *)
Definition create (now : Date) (oid : nat -> ObjectId)
           (owner : ObjectId) (ttitle : string)
           (tdescription : option string) (tpriority : string)
           (tdue_date : option Date) (tsubtasks : list SubtaskData)
           (c : Collection) : Collection * SaveResult :=
  let d := mkTask (oid 0) owner (trim ttitle)
                  (option_map trim tdescription) false tpriority
                  tdue_date (cast_subtasks oid 1 tsubtasks) false now in
  match validate (Some now) d with
  | [] => (c ++ [pre_save d], Saved (pre_save d))
  | errs => (c, Threw (ValidationError errs))
  end.

(** *** Subdocument array operations *)

(** [subtasks.id(subtaskId)] *)
Definition subtask_by_id (sid : ObjectId) (d : t) : option Subtask :=
  find (fun s => sub_id s =? sid) (subtasks d).

(** Assignment through the subdocument returned by [subtasks.id]: the
    first subtask with that id is the one modified. *)
Fixpoint modify_first (sid : ObjectId) (f : Subtask -> Subtask)
         (l : list Subtask) : list Subtask :=
  match l with
  | [] => []
  | s :: rest =>
      if sub_id s =? sid then f s :: rest
      else s :: modify_first sid f rest
  end.

(** [subtasks.push(subtaskData)]: the data is cast to a subdocument
    with a new [_id]. *)
Definition push_subtask (oid : ObjectId) (stitle : string)
           (completed : bool) (d : t) : t :=
  set_subtasks
    (subtasks d ++ [mkSubtask oid (trim stitle) completed]) d.

(** [subtasks.pull(subtaskId)] *)
Definition pull_subtask (sid : ObjectId) (d : t) : t :=
  set_subtasks (filter (fun s => negb (sub_id s =? sid)) (subtasks d)) d.

(** Fields of a subtask update ([updateData]). *)
Record SubtaskUpdate := mkSubtaskUpdate {
  upd_title : option string;
  upd_is_completed : option bool
}.

Definition apply_update (u : SubtaskUpdate) (s : Subtask) : Subtask :=
  let s1 := match upd_title u with
            | Some v => set_sub_title v s
            | None => s
            end in
  match upd_is_completed u with
  | Some b => set_sub_is_completed b s1
  | None => s1
  end.

(** [taskSchema.methods.addSubtask] *)
Definition addSubtask (oid : ObjectId) (stitle : string)
           (completed : bool) (d : t) (c : Collection)
  : Collection * SaveResult :=
  save (push_subtask oid stitle completed d) c.

(** [taskSchema.methods.updateSubtask] *)
Definition updateSubtask (sid : ObjectId) (u : SubtaskUpdate) (d : t)
           (c : Collection) : Collection * SaveResult :=
  match subtask_by_id sid d with
  | None => (c, Threw (PlainError "Subtask not found"))
  | Some _ =>
      save (set_subtasks (modify_first sid (apply_update u) (subtasks d))
                         d) c
  end.

(** [taskSchema.methods.removeSubtask] *)
Definition removeSubtask (sid : ObjectId) (d : t) (c : Collection)
  : Collection * SaveResult :=
  save (pull_subtask sid d) c.

(** *** Queries *)

(** [Task.findOne({ _id: id, user_id: owner })] *)
Definition findOne (id owner : ObjectId) (c : Collection) : option t :=
  find (fun d => (_id d =? id) && (user_id d =? owner)) c.

(** [Task.countDocuments({ user_id: owner })] *)
Definition countDocuments (owner : ObjectId) (c : Collection) : nat :=
  List.length (filter (fun d => user_id d =? owner) c).

(** [Task.findByIdAndDelete(id)] *)
Fixpoint findByIdAndDelete (id : ObjectId) (c : Collection) : Collection :=
  match c with
  | [] => []
  | x :: rest =>
      if _id x =? id then rest else x :: findByIdAndDelete id rest
  end.

(** The [filters] object of [findByUserWithFilters].  The numbers are
    the integers [parseInt] returned and the dates are the instants the
    ISO strings denote; the route admits no others. *)
Record Filters := mkFilters {
  page : nat;
  limit : nat;
  sort_by : option string;
  sort_order : string;
  f_priority : option string;
  f_is_completed : option bool;
  due_date_from : option Date;
  due_date_to : option Date;
  search : option string
}.

Definition truthy_opt (o : option string) : bool :=
  match o with
  | Some s => truthy s
  | None => false
  end.

(** A stable sort: MongoDB orders by the key, documents with equal
    keys keep their natural order here. *)
Fixpoint insert_sorted (le : t -> t -> bool) (x : t) (l : list t)
  : list t :=
  match l with
  | [] => [x]
  | y :: rest =>
      if le x y then x :: l else y :: insert_sorted le x rest
  end.

Definition sort (le : t -> t -> bool) (l : list t) : list t :=
  fold_right (insert_sorted le) [] l.

(** BSON order on an optional date: a missing value sorts first. *)
Definition date_le (a b : option Date) : bool :=
  match a, b with
  | None, _ => true
  | Some _, None => false
  | Some x, Some y => (x <=? y)%Z
  end.

(** A sort specification [{ key: 1 }] or [{ key: -1 }]. *)
Definition directed (le : t -> t -> bool) (descending : bool)
  : t -> t -> bool :=
  if descending then fun a b => le b a else le.

Definition by_due_date (a b : t) : bool :=
  date_le (due_date a) (due_date b).

Definition by_priority (a b : t) : bool :=
  String.leb (priority a) (priority b).

Definition by_createdAt (a b : t) : bool :=
  (createdAt a <=? createdAt b)%Z.

Section Search.

(** [regex_test pattern subject]: the case-insensitive [$regex]
    match of the database. *)
Variable regex_test : string -> string -> bool.

(** The query document built from the filters. *)
Definition matches (owner : ObjectId) (f : Filters) (d : t) : bool :=
  (user_id d =? owner)
  && match f_is_completed f with
     | Some b => Bool.eqb (is_completed d) b
     | None => true
     end
  && (if truthy_opt (f_priority f)
      then match f_priority f with
           | Some p => String.eqb (priority d) p
           | None => true
           end
      else true)
  && match due_date_from f with
     | Some lo =>
         match due_date d with
         | Some v => (lo <=? v)%Z
         | None => false
         end
     | None => true
     end
  && match due_date_to f with
     | Some hi =>
         match due_date d with
         | Some v => (v <=? hi)%Z
         | None => false
         end
     | None => true
     end
  && (if truthy_opt (search f)
      then match search f with
           | Some pat =>
               regex_test pat (title d)
               || match description d with
                  | Some s => regex_test pat s
                  | None => false
                  end
           | None => true
           end
      else true).

Definition sort_spec (f : Filters) : t -> t -> bool :=
  let descending := String.eqb (sort_order f) "desc" in
  if truthy_opt (sort_by f) then
    match sort_by f with
    | Some "due_date"%string => directed by_due_date descending
    | Some "priority"%string => directed by_priority descending
    | Some "created_at"%string => directed by_createdAt descending
    | _ => directed by_createdAt true
    end
  else directed by_createdAt true.

(** [taskSchema.statics.findByUserWithFilters] *)
Definition findByUserWithFilters (owner : ObjectId) (f : Filters)
           (c : Collection) : list t :=
  let found := sort (sort_spec f) (filter (matches owner f) c) in
  if negb (page f =? 0) && negb (limit f =? 0) then
    let skip := (page f - 1) * limit f in
    firstn (limit f) (skipn skip found)
  else found.

End Search.

(** [.populate("user_id", "email")]: the owner's document, or [null]
    when there is none. *)
Definition populate (users : list User) (d : t) : t * option User :=
  (d, find (fun u => u_id u =? user_id d) users).

(** [taskSchema.statics.findOverdueTasks] *)
Definition findOverdueTasks (now : Date) (users : list User)
           (c : Collection) : list (t * option User) :=
  map (populate users)
      (filter (fun d =>
                 match due_date d with
                 | Some v => (v <? now)%Z
                 | None => false
                 end
                 && Bool.eqb (is_completed d) false
                 && Bool.eqb (notification_sent d) false) c).

End Task.

(** ** controllers/taskController.js *)
Module TaskController.

Import Task.

(** The JSON answer of a handler of a single task. *)
Record Response := mkResponse {
  status : nat;
  success : bool;
  message : option string;
  data : option Task.t
}.

Definition not_found (msg : string) : Response :=
  mkResponse 404 false (Some msg) None.

(** middleware/errorHandler.js, for what [save] and the instance
    methods throw: a [ValidationError] gives 400 with the joined
    messages, any other error 500 with its message. *)
Definition errorHandler (e : Error) : Response :=
  match e with
  | ValidationError errs =>
      mkResponse 400 false (Some (join ", " errs)) None
  | PlainError msg =>
      mkResponse 500 false
                 (Some (if truthy msg then msg
                        else "Internal Server Error"%string))
                 None
  end.

(** [getTask] *)
Definition getTask (id owner : ObjectId) (c : Collection)
  : Collection * Response :=
  match findOne id owner c with
  | None => (c, not_found "Task not found")
  | Some task => (c, mkResponse 200 true None (Some task))
  end.

(** Body of a creation request. *)
Record CreateBody := mkCreateBody {
  c_title : option string;
  c_description : option string;
  c_priority : option string;
  c_due_date : option Date;
  c_subtasks : option (list SubtaskData)
}.

Definition or_default {A : Type} (o : option A) (dflt : A) : A :=
  match o with
  | Some v => v
  | None => dflt
  end.

(** [createTask] *)
Definition createTask (now : Date) (oid : nat -> ObjectId)
           (owner : ObjectId) (body : CreateBody) (c : Collection)
  : Collection * Response :=
  match Task.create now oid owner
                    (or_default (c_title body) EmptyString)
                    (c_description body)
                    (or_default (c_priority body) "Low"%string)
                    (c_due_date body)
                    (or_default (c_subtasks body) [])
                    c with
  | (c', Saved task) =>
      (c', mkResponse 201 true (Some "Task created successfully"%string)
                      (Some task))
  | (c', Threw e) => (c', errorHandler e)
  end.

(** Body of an update request; an absent field is [undefined], and
    [u_due_date = Some None] is an explicit [null]. *)
Record UpdateBody := mkUpdateBody {
  u_title : option string;
  u_description : option string;
  u_priority : option string;
  u_due_date : option (option Date);
  u_is_completed : option bool
}.

Definition assign {A : Type} (o : option A) (set : A -> Task.t -> Task.t)
           (d : Task.t) : Task.t :=
  match o with
  | Some v => set v d
  | None => d
  end.

(** The assignments of [updateTask], in order. *)
Definition update_fields (body : UpdateBody) (task : Task.t) : Task.t :=
  assign (u_is_completed body) set_is_completed
    (assign (u_due_date body) set_due_date
       (assign (u_priority body) set_priority
          (assign (u_description body) set_description
             (assign (u_title body) set_title task)))).

(** [updateTask] *)
Definition updateTask (id owner : ObjectId) (body : UpdateBody)
           (c : Collection) : Collection * Response :=
  match findOne id owner c with
  | None => (c, not_found "Task not found")
  | Some task =>
      match save (update_fields body task) c with
      | (c', Saved task') =>
          (c', mkResponse 200 true
                          (Some "Task updated successfully"%string)
                          (Some task'))
      | (c', Threw e) => (c', errorHandler e)
      end
  end.

(** [deleteTask] *)
Definition deleteTask (id owner : ObjectId) (c : Collection)
  : Collection * Response :=
  match findOne id owner c with
  | None => (c, not_found "Task not found")
  | Some _ =>
      (findByIdAndDelete id c,
       mkResponse 200 true (Some "Task deleted successfully"%string) None)
  end.

(** [addSubtask]; [oid] is the [_id] given to the new subdocument. *)
Definition addSubtask (oid : ObjectId) (id owner : ObjectId)
           (stitle : string) (completed : option bool) (c : Collection)
  : Collection * Response :=
  match findOne id owner c with
  | None => (c, not_found "Task not found")
  | Some task =>
      match Task.addSubtask oid stitle (or_default completed false)
                            task c with
      | (c', Saved task') =>
          (c', mkResponse 201 true
                          (Some "Subtask added successfully"%string)
                          (Some task'))
      | (c', Threw e) => (c', errorHandler e)
      end
  end.

(** [updateSubtask] *)
Definition updateSubtask (taskId subtaskId owner : ObjectId)
           (u : SubtaskUpdate) (c : Collection) : Collection * Response :=
  match findOne taskId owner c with
  | None => (c, not_found "Task not found")
  | Some task =>
      match Task.updateSubtask subtaskId u task c with
      | (c', Saved task') =>
          (c', mkResponse 200 true
                          (Some "Subtask updated successfully"%string)
                          (Some task'))
      | (c', Threw (PlainError msg)) =>
          if String.eqb msg "Subtask not found"
          then (c', not_found "Subtask not found")
          else (c', errorHandler (PlainError msg))
      | (c', Threw e) => (c', errorHandler e)
      end
  end.

(** [deleteSubtask] *)
Definition deleteSubtask (taskId subtaskId owner : ObjectId)
           (c : Collection) : Collection * Response :=
  match findOne taskId owner c with
  | None => (c, not_found "Task not found")
  | Some task =>
      match subtask_by_id subtaskId task with
      | None => (c, not_found "Subtask not found")
      | Some _ =>
          match Task.removeSubtask subtaskId task c with
          | (c', Saved task') =>
              (c', mkResponse 200 true
                              (Some "Subtask deleted successfully"%string)
                              (Some task'))
          | (c', Threw e) => (c', errorHandler e)
          end
      end
  end.

(** [toggleTaskCompletion] *)
Definition toggleTaskCompletion (id owner : ObjectId) (c : Collection)
  : Collection * Response :=
  match findOne id owner c with
  | None => (c, not_found "Task not found")
  | Some task =>
      match save (set_is_completed (negb (is_completed task)) task) c with
      | (c', Saved task') => (c', mkResponse 200 true None (Some task'))
      | (c', Threw e) => (c', errorHandler e)
      end
  end.

(** [toggleSubtaskCompletion] *)
Definition toggleSubtaskCompletion (taskId subtaskId owner : ObjectId)
           (c : Collection) : Collection * Response :=
  match findOne taskId owner c with
  | None => (c, not_found "Task not found")
  | Some task =>
      match subtask_by_id subtaskId task with
      | None => (c, not_found "Subtask not found")
      | Some _ =>
          match save (set_subtasks
                        (modify_first subtaskId
                           (fun s => set_sub_is_completed
                                       (negb (sub_is_completed s)) s)
                           (subtasks task))
                        task) c with
          | (c', Saved task') =>
              (c', mkResponse 200 true
                     (Some "Subtask completion status toggled successfully"%string)
                     (Some task'))
          | (c', Threw e) => (c', errorHandler e)
          end
      end
  end.

(** The query string of a listing request, after [parseInt] on the
    numbers and the parsing of the dates. *)
Record Query := mkQuery {
  q_page : option nat;
  q_limit : option nat;
  q_priority : option string;
  q_is_completed : option string;
  q_sort_by : option string;
  q_sort_order : option string;
  q_due_date_from : option Date;
  q_due_date_to : option Date;
  q_search : option string
}.

Record Pagination := mkPagination {
  currentPage : nat;
  totalPages : JsNumber;
  totalTasks : nat;
  hasNextPage : bool;
  hasPrevPage : bool
}.

Record ListResponse := mkListResponse {
  tasks : list Task.t;
  pagination : Pagination
}.

(** [if (x) filters.x = x] *)
Definition if_truthy (o : option string) : option string :=
  if truthy_opt o then o else None.

(** The [filters] object [getTasks] builds. *)
Definition filters_of (q : Query) : Filters :=
  mkFilters (or_default (q_page q) 1) (or_default (q_limit q) 10)
            (q_sort_by q) (or_default (q_sort_order q) "desc"%string)
            (if_truthy (q_priority q))
            (option_map (fun s => String.eqb s "true") (q_is_completed q))
            (q_due_date_from q) (q_due_date_to q)
            (if_truthy (q_search q)).

Section Listing.

Variable regex_test : string -> string -> bool.

(** [getTasks] *)
Definition getTasks (owner : ObjectId) (q : Query) (c : Collection)
  : ListResponse :=
  let filters := filters_of q in
  let found := findByUserWithFilters regex_test owner filters c in
  let total := countDocuments owner c in
  let pages := ceil_div total (limit filters) in
  mkListResponse found
    (mkPagination (page filters) pages total
                  (js_lt_nat (page filters) pages)
                  (1 <? page filters)).

End Listing.

(** The [stats] object of [getTaskStats]: the document of the
    [$group] stage, which carries [_id: null], or the default object,
    which does not. *)
Record Stats := mkStats {
  grouped : bool;
  totalTasks' : nat;
  completedTasks : nat;
  pendingTasks : nat;
  highPriorityTasks : nat;
  overdueTasks : nat
}.

Section Statistics.

(** The value of the two date tests of the aggregation,
    [$lt: ["$due_date", now]] and [$ne: ["$due_date", null]] together,
    on a document without due date (a missing or [null] field), as the
    database evaluates them. *)
Variable absent_due_counts : Task.t -> bool.

(** The [$cond] of [overdueTasks]. *)
Definition overdue_cond (now : Date) (d : Task.t) : bool :=
  match due_date d with
  | Some v => (v <? now)%Z
  | None => absent_due_counts d
  end
  && Bool.eqb (is_completed d) false.

(** [$sum] of a [$cond] that gives 1 or 0. *)
Definition sum_cond (p : Task.t -> bool) (l : list Task.t) : nat :=
  fold_left (fun acc d => acc + (if p d then 1 else 0)) l 0.

(** [getTaskStats] *)
Definition getTaskStats (now : Date) (owner : ObjectId) (c : Collection)
  : Stats :=
  match filter (fun d => user_id d =? owner) c with
  | [] => mkStats false 0 0 0 0 0
  | matched =>
      mkStats true
              (sum_cond (fun _ => true) matched)
              (sum_cond (fun d => Bool.eqb (is_completed d) true) matched)
              (sum_cond (fun d => Bool.eqb (is_completed d) false) matched)
              (sum_cond (fun d => String.eqb (priority d) "High") matched)
              (sum_cond (overdue_cond now) matched)
  end.

End Statistics.

Section DueToday.

(** [startOfDay t] is [t] after [setHours(0, 0, 0, 0)] and [nextDay t]
    is [t] after [setDate(getDate() + 1)], in the time zone of the
    server. *)
Variables startOfDay nextDay : Date -> Date.

(** The query of [getTasksDueToday]. *)
Definition due_today (now : Date) (owner : ObjectId) (d : Task.t) : bool :=
  let today := startOfDay now in
  let tomorrow := nextDay today in
  (user_id d =? owner)
  && match due_date d with
     | Some v => (today <=? v)%Z && (v <? tomorrow)%Z
     | None => false
     end
  && Bool.eqb (is_completed d) false.

(** [getTasksDueToday]: the tasks and their count. *)
Definition getTasksDueToday (now : Date) (owner : ObjectId)
           (c : Collection) : list Task.t * nat :=
  let tasksDueToday :=
    sort (directed by_due_date false) (filter (due_today now owner) c) in
  (tasksDueToday, List.length tasksDueToday).

End DueToday.

End TaskController.

(** ** services/notificationService.js *)
Module NotificationService.

Import Task.

(** What a run does, in order: a mail handed to [sendEmailNotification]
    with the [success] it returned, a [notification_sent] flag saved,
    and an error thrown by [save] reaching the [catch] of the run. *)
Inductive Event :=
| Dispatched (id : ObjectId) (to : string) (ok : bool)
| Marked (id : ObjectId)
| Aborted (id : ObjectId).

(** The query of [checkAndSendNotifications]: due within the next
    24 hours, not completed, not notified. *)
Definition due_soon (now : Date) (d : Task.t) : bool :=
  let tomorrow := (now + 24 * 60 * 60 * 1000)%Z in
  match due_date d with
  | Some v => (now <=? v)%Z && (v <=? tomorrow)%Z
  | None => false
  end
  && Bool.eqb (is_completed d) false
  && Bool.eqb (notification_sent d) false.

Definition tasksDueSoon (now : Date) (users : list User) (c : Collection)
  : list (Task.t * option User) :=
  map (populate users) (filter (due_soon now) c).

(** [await task.save()] inside the run: it throws when validation
    fails or when the database rejects the write. *)
Definition try_save (available : bool) (d : Task.t) (c : Collection)
  : option Collection :=
  if available then
    match save d c with
    | (c', Saved _) => Some c'
    | _ => None
    end
  else None.

Section Sweep.

(** [mail_ok k]: [sendEmailNotification] returns [success: true] for
    the [k]-th task of the run (it catches what the transport
    throws).  [db_ok k]: the database accepts the write for it. *)
Variables mail_ok db_ok : nat -> bool.

(** The [for ... of] loop, from the [k]-th task on. *)
Fixpoint notify (k : nat) (pending : list (Task.t * option User))
         (c : Collection) : Collection * list Event :=
  match pending with
  | [] => (c, [])
  | (task, owner) :: rest =>
      match owner with
      | Some u =>
          if truthy (email u) then
            if mail_ok k then
              match try_save (db_ok k)
                             (set_notification_sent true task) c with
              | Some c' =>
                  let (c'', log) := notify (S k) rest c' in
                  (c'', Dispatched (_id task) (email u) true
                          :: Marked (_id task) :: log)
              | None =>
                  (c, [Dispatched (_id task) (email u) true;
                       Aborted (_id task)])
              end
            else
              let (c', log) := notify (S k) rest c in
              (c', Dispatched (_id task) (email u) false :: log)
          else notify (S k) rest c
      | None => notify (S k) rest c
      end
  end.

(** [checkAndSendNotifications] *)
Definition checkAndSendNotifications (now : Date) (users : list User)
           (c : Collection) : Collection * list Event :=
  notify 0 (tasksDueSoon now users c) c.

End Sweep.

End NotificationService.

(** ** todo-frontend/src/pages/Dashboard.jsx *)
Module Dashboard.

(** [getFilteredTasks], on the [tasks] of the context and the
    [viewMode] of the page. *)
Definition getFilteredTasks (viewMode : string) (tasks : list Task.t)
  : list Task.t :=
  match viewMode with
  | "completed"%string => filter Task.is_completed tasks
  | "pending"%string => filter (fun task => negb (Task.is_completed task)) tasks
  | _ => tasks
  end.

Record Stats := mkStats {
  totalTasks : nat;
  completedTasks : nat;
  pendingTasks : nat;
  overdueTasks : nat
}.

(** [getTaskStats] *)
Definition getTaskStats (now : Date) (tasks : list Task.t) : Stats :=
  let total := List.length tasks in
  let completed := List.length (filter Task.is_completed tasks) in
  let pending := total - completed in
  let overdue :=
    List.length
      (filter (fun task =>
                 negb (Task.is_completed task)
                 && match Task.due_date task with
                    | Some v => (v <? now)%Z
                    | None => false
                    end) tasks) in
  mkStats total completed pending overdue.

End Dashboard.

(** ** Vocabulary of the properties *)

(** [_id] is unique in a collection. *)
Definition unique_ids (c : Task.Collection) : Prop :=
  NoDup (map Task._id c).

(** The subtask list is non-empty and every subtask is completed. *)
Definition all_subtasks_completed (d : Task.t) : bool :=
  negb (List.length (Task.subtasks d) =? 0)
  && forallb Task.sub_is_completed (Task.subtasks d).

(** The derived-completion rule of a task document. *)
Definition completion_rule (d : Task.t) : Prop :=
  all_subtasks_completed d = true -> Task.is_completed d = true.

(** The requests that end in a [save]. *)
Inductive Mutation :=
| Create (now : Date) (oid : nat -> ObjectId) (owner : ObjectId)
         (body : TaskController.CreateBody)
| Update (id owner : ObjectId) (body : TaskController.UpdateBody)
| AddSubtask (oid id owner : ObjectId) (stitle : string)
             (completed : option bool)
| UpdateSubtask (taskId subtaskId owner : ObjectId)
                (u : Task.SubtaskUpdate)
| RemoveSubtask (taskId subtaskId owner : ObjectId)
| ToggleTask (id owner : ObjectId)
| ToggleSubtask (taskId subtaskId owner : ObjectId).

Definition run (m : Mutation) (c : Task.Collection)
  : Task.Collection * TaskController.Response :=
  match m with
  | Create now oid owner body =>
      TaskController.createTask now oid owner body c
  | Update id owner body => TaskController.updateTask id owner body c
  | AddSubtask oid id owner stitle completed =>
      TaskController.addSubtask oid id owner stitle completed c
  | UpdateSubtask taskId subtaskId owner u =>
      TaskController.updateSubtask taskId subtaskId owner u c
  | RemoveSubtask taskId subtaskId owner =>
      TaskController.deleteSubtask taskId subtaskId owner c
  | ToggleTask id owner => TaskController.toggleTaskCompletion id owner c
  | ToggleSubtask taskId subtaskId owner =>
      TaskController.toggleSubtaskCompletion taskId subtaskId owner c
  end.

(** What a request handler leaves behind, as far as the completion rule
    goes: every document of the resulting collection is a document of
    the former one or obeys the rule, and the task of the answer obeys
    it and is stored. *)
Definition saves_by_rule (c : Task.Collection)
           (out : Task.Collection * TaskController.Response) : Prop :=
  (forall x, In x (fst out) -> In x c \/ completion_rule x)
  /\ (forall d, TaskController.data (snd out) = Some d ->
                completion_rule d /\ In d (fst out)).

(** The requests on one task, addressed by [(taskId, ownerId)]. *)
Inductive TaskRequest :=
| GetTask
| UpdateTask (body : TaskController.UpdateBody)
| DeleteTask
| AddSubtaskTo (oid : ObjectId) (stitle : string) (completed : option bool)
| UpdateSubtaskOf (subtaskId : ObjectId) (u : Task.SubtaskUpdate)
| DeleteSubtaskOf (subtaskId : ObjectId)
| ToggleCompletion
| ToggleSubtaskOf (subtaskId : ObjectId).

Definition handle (req : TaskRequest) (taskId owner : ObjectId)
           (c : Task.Collection)
  : Task.Collection * TaskController.Response :=
  match req with
  | GetTask => TaskController.getTask taskId owner c
  | UpdateTask body => TaskController.updateTask taskId owner body c
  | DeleteTask => TaskController.deleteTask taskId owner c
  | AddSubtaskTo oid stitle completed =>
      TaskController.addSubtask oid taskId owner stitle completed c
  | UpdateSubtaskOf subtaskId u =>
      TaskController.updateSubtask taskId subtaskId owner u c
  | DeleteSubtaskOf subtaskId =>
      TaskController.deleteSubtask taskId subtaskId owner c
  | ToggleCompletion => TaskController.toggleTaskCompletion taskId owner c
  | ToggleSubtaskOf subtaskId =>
      TaskController.toggleSubtaskCompletion taskId subtaskId owner c
  end.

(** An update request that only sets [is_completed]. *)
Definition set_completed_body (b : bool) : TaskController.UpdateBody :=
  TaskController.mkUpdateBody None None None None (Some b).

(** An update request that only sets [due_date]. *)
Definition reschedule_body (v : Date) : TaskController.UpdateBody :=
  TaskController.mkUpdateBody None None None (Some (Some v)) None.

(** A task of owner 7, due at 1000, for which the reminder was sent. *)
Definition notified_task : Task.t :=
  Task.mkTask 1 7 "Pay rent" None false "High" (Some 1000%Z) [] true 0%Z.

(** A task of owner 7 with two completed subtasks. *)
Definition finished_task : Task.t :=
  Task.mkTask 2 7 "Pack" None true "Low" None
              [Task.mkSubtask 10 "Shirts" true;
               Task.mkSubtask 11 "Shoes" true] false 0%Z.

(** A task of owner 7 with two subtasks, neither completed. *)
Definition open_task : Task.t :=
  Task.mkTask 3 7 "Shop" None false "Medium" None
              [Task.mkSubtask 20 "Milk" false;
               Task.mkSubtask 21 "Eggs" false] false 0%Z.

(** A listing request with a page and a limit and no filter. *)
Definition page_query (p l : nat) : TaskController.Query :=
  TaskController.mkQuery (Some p) (Some l) None None None None None None
                         None.

(** A listing request for the completed tasks. *)
Definition completed_query (p l : nat) : TaskController.Query :=
  TaskController.mkQuery (Some p) (Some l) None (Some "true"%string) None
                         None None None None.

(** [n] tasks of owner 7, created one millisecond apart, the first
    [done] of them completed. *)
Definition sample_tasks (n done : nat) : Task.Collection :=
  map (fun i => Task.mkTask i 7 "Task" None (i <=? done) "Low" None []
                            false (Z.of_nat i))
      (seq 1 n).

(** A [$regex] engine that matches nothing. *)
Definition no_match (pattern subject : string) : bool := false.

(** The subtask toggles of a list of subtask ids, one request after the
    other. *)
Definition toggle_each (taskId owner : ObjectId) (order : list ObjectId)
           (c : Task.Collection) : Task.Collection :=
  fold_left
    (fun acc sid =>
       fst (TaskController.toggleSubtaskCompletion taskId sid owner acc))
    order c.

Definition mem (i : ObjectId) (l : list ObjectId) : bool :=
  existsb (Nat.eqb i) l.

(** The subtasks [l] with exactly those of [done] completed. *)
Definition completed_exactly (done : list ObjectId) (l : list Task.Subtask)
  : list Task.Subtask :=
  map (fun s => Task.set_sub_is_completed (mem (Task.sub_id s) done) s) l.

(** The assignment of [toggleSubtaskCompletion]. *)
Definition flip (s : Task.Subtask) : Task.Subtask :=
  Task.set_sub_is_completed (negb (Task.sub_is_completed s)) s.

(** The loop of the sweep mails a task when its owner was found and
    has an address. *)
Definition mailable (p : Task.t * option User) : bool :=
  match snd p with
  | Some u => truthy (email u)
  | None => false
  end.

Definition task_id (p : Task.t * option User) : ObjectId :=
  Task._id (fst p).

(** The ids of the tasks mailed in a run, in order. *)
Definition dispatched (log : list NotificationService.Event)
  : list ObjectId :=
  flat_map (fun e => match e with
                     | NotificationService.Dispatched i _ _ => [i]
                     | _ => []
                     end) log.

(** Validation of a loaded document passes. *)
Definition valid (d : Task.t) : bool :=
  match Task.validate None d with
  | [] => true
  | _ => false
  end.

(** Oracles: one that always succeeds, one that fails for the first task
    of the run only. *)
Definition always (k : nat) : bool := true.
Definition first_fails (k : nat) : bool := negb (k =? 0).

Definition ann : User := mkUser 7 "ann@example.org".
Definition bob : User := mkUser 8 "bob@example.org".

(** Two tasks due within a day of time 0, of two owners. *)
Definition due_a : Task.t :=
  Task.mkTask 1 7 "Pay rent" None false "High" (Some 5000%Z) [] false 0%Z.
Definition due_b : Task.t :=
  Task.mkTask 2 8 "Call home" None false "Low" (Some 6000%Z) [] false 0%Z.

(** The document the sweep saves for [task]. *)
Definition flagged (task : Task.t) : Task.t :=
  Task.pre_save (Task.set_notification_sent true task).

(** The task an event is about. *)
Definition event_task (e : NotificationService.Event) : ObjectId :=
  match e with
  | NotificationService.Dispatched i _ _ => i
  | NotificationService.Marked i => i
  | NotificationService.Aborted i => i
  end.

(** The circumstances of one run of the sweep. *)
Record RunEnv := mkRunEnv {
  env_mail_ok : nat -> bool;
  env_db_ok : nat -> bool;
  env_now : Date;
  env_users : list User
}.

(** The logs of successive runs, each on the collection the one before
    left. *)
Fixpoint later_runs (envs : list RunEnv) (c : Task.Collection)
  : list (list NotificationService.Event) :=
  match envs with
  | [] => []
  | env :: rest =>
      let out := NotificationService.checkAndSendNotifications
                   (env_mail_ok env) (env_db_ok env) (env_now env)
                   (env_users env) c in
      snd out :: later_runs rest (fst out)
  end.

(** A task with two subtasks, the first completed. *)
Definition half_done_task : Task.t :=
  Task.mkTask 4 7 "Cook" None false "Low" None
              [Task.mkSubtask 30 "Chop" true;
               Task.mkSubtask 31 "Fry" false] false 0%Z.


(** Each task of [l] is followed by one that [le] allows after it. *)
Definition in_order (le : Task.t -> Task.t -> bool) (l : list Task.t)
  : Prop :=
  forall i a b, nth_error l i = Some a -> nth_error l (S i) = Some b ->
                le a b = true.

(** A creation request with two completed subtasks, and one with a due
    date. *)
Definition packed_body : TaskController.CreateBody :=
  TaskController.mkCreateBody
    (Some " Pack "%string) None None None
    (Some [Task.mkSubtaskData "Shirts" (Some true);
           Task.mkSubtaskData "Shoes" (Some true)]).

Definition dated_body (due : Date) : TaskController.CreateBody :=
  TaskController.mkCreateBody (Some "Pay rent"%string) None
                              (Some "High"%string) (Some due) None.

(** Identifiers from 100 on. *)
Definition from_100 (i : nat) : ObjectId := 100 + i.

(** What a request on the task [(taskId, owner)] can do to the
    collection: refuse and leave it, answer without changing it, write
    one valid document with the id and the owner of the task found, or
    delete the document of that id. *)
Definition request_outcome (taskId owner : ObjectId) (c : Task.Collection)
           (out : Task.Collection * TaskController.Response) : Prop :=
  (TaskController.success (snd out) = false /\ fst out = c
   /\ TaskController.data (snd out) = None)
  \/ (TaskController.success (snd out) = true
      /\ exists task,
          Task.findOne taskId owner c = Some task
          /\ (fst out = c
              \/ (exists w, Task._id w = taskId /\ Task.user_id w = owner
                            /\ valid w = true
                            /\ fst out = Task.write w c
                            /\ TaskController.data (snd out) = Some w)
              \/ fst out = Task.findByIdAndDelete taskId c)).

(** Each task of [l] stands in the relation [R] to the task right after
    it. *)
Definition each_then (R : Task.t -> Task.t -> Prop) (l : list Task.t)
  : Prop :=
  forall i a b, nth_error l i = Some a -> nth_error l (S i) = Some b ->
                R a b.

(** [a] was created no later than [b]. *)
Definition created_up (a b : Task.t) : Prop :=
  (Task.createdAt a <= Task.createdAt b)%Z.

(** [a] is due no later than [b]; a task without a due date counts as
    due before every other. *)
Definition due_up (a b : Task.t) : Prop :=
  forall x, Task.due_date a = Some x ->
            exists y, Task.due_date b = Some y /\ (x <= y)%Z.

(** The priority of [a], as a string, is no later than that of [b]. *)
Definition priority_up (a b : Task.t) : Prop :=
  String.leb (Task.priority a) (Task.priority b) = true.

(** The place of the three priorities in the order of their names. *)
Definition priority_place (p : string) : option nat :=
  if String.eqb p "High" then Some 0
  else if String.eqb p "Low" then Some 1
  else if String.eqb p "Medium" then Some 2
  else None.

(** The places of the priorities of [a] and [b], when they have one, do
    not go down. *)
Definition place_up (a b : Task.t) : Prop :=
  forall pa pb, priority_place (Task.priority a) = Some pa ->
                priority_place (Task.priority b) = Some pb ->
                pa <= pb.

(** The filters of a listing of everything in a given order. *)
Definition sorted_by (key order : string) : Task.Filters :=
  Task.mkFilters 1 10 (Some key) order None None None None None.

(** Three tasks of owner 7, one of each priority, created in the order
    Low, Medium, High; the first has no due date. *)
Definition ranked_tasks : Task.Collection :=
  [Task.mkTask 1 7 "Sweep" None false "Low" None [] false 1%Z;
   Task.mkTask 2 7 "Shop" None false "Medium" (Some 500%Z) [] false 2%Z;
   Task.mkTask 3 7 "Pay rent" None false "High" (Some 400%Z) [] false 3%Z].

(** ** Properties of the model *)

Section ListFacts.

Context {A : Type} (p : A -> bool).

Lemma filter_length_le (l : list A) :
  List.length (filter p l) <= List.length l.
Proof.
  induction l as [|x l IH]; simpl; [lia|].
  destruct (p x); simpl; lia.
Qed.

Lemma filter_full_forallb (l : list A) :
  List.length (filter p l) = List.length l <-> forallb p l = true.
Proof.
  induction l as [|x l IH]; simpl.
  - tauto.
  - pose proof (filter_length_le l) as Hle.
    destruct (p x); simpl.
    + rewrite <- IH. split; intro H; lia.
    + split; intro H; [lia | discriminate].
Qed.

End ListFacts.

Module TaskFacts.

Import Task.

Lemma pre_save_cases (d : t) :
  (all_subtasks_completed d = true /\ pre_save d = set_is_completed true d)
  \/ (all_subtasks_completed d = false /\ pre_save d = d).
Proof.
  unfold all_subtasks_completed, pre_save.
  destruct (subtasks d) as [|s l] eqn:Hs; simpl; [right; auto|].
  destruct (forallb sub_is_completed (s :: l)) eqn:Hall.
  - left. split; [exact Hall|].
    apply (filter_full_forallb sub_is_completed) in Hall.
    simpl in Hall. rewrite Hall. rewrite Nat.eqb_refl. reflexivity.
  - right. split; [exact Hall|].
    destruct (_ =? _) eqn:Hlen; [|reflexivity].
    apply Nat.eqb_eq in Hlen.
    change (List.length (filter sub_is_completed (s :: l))
            = List.length (s :: l)) in Hlen.
    apply filter_full_forallb in Hlen. congruence.
Qed.

Lemma pre_save_subtasks (d : t) : subtasks (pre_save d) = subtasks d.
Proof. destruct (pre_save_cases d) as [[_ ->]|[_ ->]]; reflexivity. Qed.

Lemma pre_save_id (d : t) : _id (pre_save d) = _id d.
Proof. destruct (pre_save_cases d) as [[_ ->]|[_ ->]]; reflexivity. Qed.

Lemma pre_save_user_id (d : t) : user_id (pre_save d) = user_id d.
Proof. destruct (pre_save_cases d) as [[_ ->]|[_ ->]]; reflexivity. Qed.

Lemma pre_save_notification_sent (d : t) :
  notification_sent (pre_save d) = notification_sent d.
Proof. destruct (pre_save_cases d) as [[_ ->]|[_ ->]]; reflexivity. Qed.

Lemma pre_save_rule (d : t) : completion_rule (pre_save d).
Proof.
  unfold completion_rule, all_subtasks_completed.
  rewrite pre_save_subtasks.
  destruct (pre_save_cases d) as [[_ ->]|[Hn ->]].
  - reflexivity.
  - unfold all_subtasks_completed in Hn. congruence.
Qed.

Lemma pre_save_completed (d : t) :
  is_completed (pre_save d)
  = is_completed d || all_subtasks_completed d.
Proof.
  destruct (pre_save_cases d) as [[-> ->]|[-> ->]]; simpl.
  - now rewrite orb_true_r.
  - now rewrite orb_false_r.
Qed.

(** [save] either writes the document the hook returns or throws a
    validation error and leaves the collection as it is. *)
Lemma save_cases (d : t) (c : Collection) :
  save d c = (write (pre_save d) c, Saved (pre_save d))
  \/ exists errs, save d c = (c, Threw (ValidationError errs)).
Proof.
  unfold save. destruct (validate None d); [left|right; eauto].
  reflexivity.
Qed.

Lemma write_In (d x : t) (c : Collection) :
  In x (write d c) -> In x c \/ x = d.
Proof.
  induction c as [|y c IH]; simpl; [tauto|].
  destruct (_id y =? _id d); simpl; intuition.
Qed.

Lemma write_In_self (d : t) (c : Collection) :
  In (_id d) (map _id c) -> In d (write d c).
Proof.
  induction c as [|y c IH]; simpl; [tauto|].
  destruct (_id y =? _id d) eqn:E; simpl.
  - auto.
  - apply Nat.eqb_neq in E. intros [H|H]; [congruence | auto].
Qed.

Lemma write_ids (d : t) (c : Collection) :
  map _id (write d c) = map _id c.
Proof.
  induction c as [|y c IH]; simpl; [reflexivity|].
  destruct (_id y =? _id d) eqn:E; simpl.
  - apply Nat.eqb_eq in E. congruence.
  - now rewrite IH.
Qed.

Lemma findOne_Some (id owner : ObjectId) (c : Collection) (d : t) :
  findOne id owner c = Some d ->
  In d c /\ _id d = id /\ user_id d = owner.
Proof.
  unfold findOne. intro H. apply find_some in H as [Hin Hb].
  apply andb_true_iff in Hb as [H1 H2].
  apply Nat.eqb_eq in H1, H2. auto.
Qed.

Lemma findOne_id_listed (id owner : ObjectId) (c : Collection) (d : t) :
  findOne id owner c = Some d -> In (_id d) (map _id c).
Proof.
  intro H. apply findOne_Some in H as [Hin _]. now apply in_map.
Qed.

End TaskFacts.

Module ControllerFacts.

Import Task TaskController TaskFacts.

(** A handler that loads a task, changes it without touching [_id]
    and saves it. *)
Lemma save_loaded_by_rule (id owner : ObjectId) (c : Collection)
      (task d : t) (answer : t -> Response) :
  findOne id owner c = Some task ->
  _id d = _id task ->
  (forall d', data (answer d') = Some d') ->
  saves_by_rule c
    (match save d c with
     | (c', Saved d') => (c', answer d')
     | (c', Threw e) => (c', errorHandler e)
     end).
Proof.
  intros Hfind Hid Hans.
  destruct (save_cases d c) as [-> | [errs ->]]; split; simpl.
  - intros x Hx. apply write_In in Hx as [Hx | ->]; [now left|].
    right. apply pre_save_rule.
  - intros d' Hd'. rewrite Hans in Hd'. injection Hd' as <-.
    split; [apply pre_save_rule|].
    apply write_In_self. rewrite pre_save_id, Hid.
    eapply findOne_id_listed; eauto.
  - auto.
  - discriminate.
Qed.

Lemma unchanged_by_rule (c : Collection) (r : Response) :
  data r = None -> saves_by_rule c (c, r).
Proof.
  intro H. split; simpl; [auto | congruence].
Qed.

Lemma createTask_by_rule now oid owner body c :
  saves_by_rule c (createTask now oid owner body c).
Proof.
  unfold createTask, create.
  destruct (validate _ _); [|apply unchanged_by_rule; reflexivity].
  split; simpl.
  - intros x Hx. apply in_app_or in Hx as [Hx | [<- | []]]; [now left|].
    right. apply pre_save_rule.
  - intros d Hd. injection Hd as <-. split; [apply pre_save_rule|].
    apply in_or_app. right. now left.
Qed.

Lemma updateTask_by_rule id owner body c :
  saves_by_rule c (updateTask id owner body c).
Proof.
  unfold updateTask.
  destruct (findOne id owner c) as [task|] eqn:Hf;
    [|apply unchanged_by_rule; reflexivity].
  apply (save_loaded_by_rule id owner c task); auto.
  unfold update_fields, assign.
  destruct (u_is_completed body), (u_due_date body), (u_priority body),
    (u_description body), (u_title body); reflexivity.
Qed.

Lemma addSubtask_by_rule oid id owner stitle completed c :
  saves_by_rule c (addSubtask oid id owner stitle completed c).
Proof.
  unfold addSubtask, Task.addSubtask.
  destruct (findOne id owner c) as [task|] eqn:Hf;
    [|apply unchanged_by_rule; reflexivity].
  apply (save_loaded_by_rule id owner c task); auto.
Qed.

Lemma updateSubtask_by_rule taskId subtaskId owner u c :
  saves_by_rule c (updateSubtask taskId subtaskId owner u c).
Proof.
  unfold updateSubtask, Task.updateSubtask.
  destruct (findOne taskId owner c) as [task|] eqn:Hf;
    [|apply unchanged_by_rule; reflexivity].
  destruct (subtask_by_id subtaskId task);
    [|apply unchanged_by_rule; reflexivity].
  match goal with
  | |- context [save ?d c] =>
      pose proof (save_loaded_by_rule taskId owner c task d
                    (fun d' => mkResponse 200 true
                       (Some "Subtask updated successfully"%string)
                       (Some d'))
                    Hf eq_refl (fun _ => eq_refl)) as H;
      destruct (save_cases d c) as [E | [errs E]]; rewrite E in H |- *
  end; exact H.
Qed.

Lemma deleteSubtask_by_rule taskId subtaskId owner c :
  saves_by_rule c (deleteSubtask taskId subtaskId owner c).
Proof.
  unfold deleteSubtask, Task.removeSubtask.
  destruct (findOne taskId owner c) as [task|] eqn:Hf;
    [|apply unchanged_by_rule; reflexivity].
  destruct (subtask_by_id subtaskId task);
    [|apply unchanged_by_rule; reflexivity].
  apply (save_loaded_by_rule taskId owner c task); auto.
Qed.

Lemma toggleTaskCompletion_by_rule id owner c :
  saves_by_rule c (toggleTaskCompletion id owner c).
Proof.
  unfold toggleTaskCompletion.
  destruct (findOne id owner c) as [task|] eqn:Hf;
    [|apply unchanged_by_rule; reflexivity].
  apply (save_loaded_by_rule id owner c task); auto.
Qed.

Lemma toggleSubtaskCompletion_by_rule taskId subtaskId owner c :
  saves_by_rule c (toggleSubtaskCompletion taskId subtaskId owner c).
Proof.
  unfold toggleSubtaskCompletion.
  destruct (findOne taskId owner c) as [task|] eqn:Hf;
    [|apply unchanged_by_rule; reflexivity].
  destruct (subtask_by_id subtaskId task);
    [|apply unchanged_by_rule; reflexivity].
  apply (save_loaded_by_rule taskId owner c task); auto.
Qed.

End ControllerFacts.

(** C1.  After any request that saves a task (create, update, add,
    update or remove a subtask, toggle the task, toggle a subtask), a
    task whose subtask list is non-empty and wholly completed has
    [is_completed = true]: this holds of the task returned, which is the
    one stored, and of every document the request wrote. *)
Theorem completion_rule_after_mutation (m : Mutation) (c : Task.Collection) :
  (forall x, In x (fst (run m c)) -> In x c \/ completion_rule x)
  /\ (forall d, TaskController.data (snd (run m c)) = Some d ->
                completion_rule d /\ In d (fst (run m c))).
Proof.
  change (saves_by_rule c (run m c)).
  destruct m; simpl.
  - apply ControllerFacts.createTask_by_rule.
  - apply ControllerFacts.updateTask_by_rule.
  - apply ControllerFacts.addSubtask_by_rule.
  - apply ControllerFacts.updateSubtask_by_rule.
  - apply ControllerFacts.deleteSubtask_by_rule.
  - apply ControllerFacts.toggleTaskCompletion_by_rule.
  - apply ControllerFacts.toggleSubtaskCompletion_by_rule.
Qed.

(** The toggle of the last incomplete subtask completes the task. *)
Lemma completion_rule_after_mutation_witness :
  exists d,
    TaskController.data (snd (run (ToggleSubtask 4 31 7) [half_done_task]))
    = Some d
    /\ In d (fst (run (ToggleSubtask 4 31 7) [half_done_task]))
    /\ all_subtasks_completed d = true
    /\ Task.is_completed d = true.
Proof.
  eexists. split; [reflexivity|].
  destruct (proj2 (completion_rule_after_mutation
                     (ToggleSubtask 4 31 7) [half_done_task])
                  _ eq_refl) as [Hrule Hin].
  split; [exact Hin|]. split; [reflexivity|].
  apply Hrule. reflexivity.
Defined.

(** C9.  [isOverdue] is [true] exactly when the task has a due date, the
    due date is strictly before the current time and the task is not
    completed; its value is truthy in exactly the same case, and for a
    task without due date it is falsy at every time. *)
Theorem isOverdue_iff (d : Task.t) (now : Date) :
  (Task.isOverdue d now = JsBool true
   <-> exists v, Task.due_date d = Some v /\ (v < now)%Z
                 /\ Task.is_completed d = false)
  /\ (js_truthy (Task.isOverdue d now) = true
      <-> Task.isOverdue d now = JsBool true)
  /\ (Task.due_date d = None ->
      forall at_time, js_truthy (Task.isOverdue d at_time) = false).
Proof.
  unfold Task.isOverdue. repeat split.
  - destruct (Task.due_date d) as [v|]; [|discriminate].
    intro H. injection H as H. apply andb_true_iff in H as [H1 H2].
    exists v. apply Z.ltb_lt in H1. apply negb_true_iff in H2. auto.
  - intros (v & -> & Hlt & Hc). apply Z.ltb_lt in Hlt.
    now rewrite Hlt, Hc.
  - destruct (Task.due_date d); simpl; [congruence | discriminate].
  - intros ->. reflexivity.
  - intros -> at_time. reflexivity.
Qed.

Lemma isOverdue_iff_witness :
  Task.due_date open_task = None
  /\ js_truthy (Task.isOverdue open_task 5000%Z) = false
  /\ Task.isOverdue due_a 5001%Z = JsBool true
  /\ Task.isOverdue due_a 5000%Z <> JsBool true.
Proof.
  split; [reflexivity|]. split; [|split].
  - apply (proj2 (proj2 (isOverdue_iff open_task 0%Z))). reflexivity.
  - apply (proj1 (isOverdue_iff due_a 5001%Z)).
    exists 5000%Z. repeat split.
  - intro H. apply (proj1 (isOverdue_iff due_a 5000%Z)) in H.
    destruct H as (v & Hv & Hlt & _). injection Hv as <-. lia.
Defined.

Module StoreFacts.

Import Task TaskFacts.

(** After the write of [d], the lookup of [d]'s id and owner gives
    [d], provided some document carried that id. *)
Lemma findOne_write (d : t) (c : Collection) :
  In (_id d) (map _id c) ->
  findOne (_id d) (user_id d) (write d c) = Some d.
Proof.
  unfold findOne.
  induction c as [|y c IH]; simpl; [tauto|].
  destruct (_id y =? _id d) eqn:E; simpl.
  - intros _. now rewrite !Nat.eqb_refl.
  - rewrite E. simpl. apply Nat.eqb_neq in E.
    intros [H|H]; [congruence | auto].
Qed.

Lemma findOne_save (id owner : ObjectId) (task d : t) (c : Collection) :
  findOne id owner c = Some task ->
  _id d = _id task -> user_id d = user_id task ->
  findOne id owner (write (pre_save d) c) = Some (pre_save d).
Proof.
  intros Hf Hid Hu.
  pose proof (findOne_id_listed _ _ _ _ Hf) as Hin.
  apply findOne_Some in Hf as (_ & <- & <-).
  rewrite <- Hid, <- Hu, <- (pre_save_id d), <- (pre_save_user_id d).
  apply findOne_write. now rewrite pre_save_id, Hid.
Qed.

Lemma findOne_None (id owner : ObjectId) (c : Collection) :
  findOne id owner c = None <->
  (forall d, In d c -> _id d = id -> user_id d <> owner).
Proof.
  unfold findOne. split.
  - intros H d Hin Hid Hu.
    apply (find_none _ _ H) in Hin.
    rewrite Hid, Hu, !Nat.eqb_refl in Hin. discriminate.
  - intro H. destruct (find _ c) as [d|] eqn:E; [|reflexivity].
    apply find_some in E as [Hin Hb].
    apply andb_true_iff in Hb as [H1 H2]. apply Nat.eqb_eq in H1, H2.
    now destruct (H d Hin H1).
Qed.

Lemma update_fields_id body task :
  _id (TaskController.update_fields body task) = _id task.
Proof.
  unfold TaskController.update_fields, TaskController.assign.
  destruct body as [[?|] [?|] [?|] [?|] [?|]]; reflexivity.
Qed.

Lemma update_fields_user_id body task :
  user_id (TaskController.update_fields body task) = user_id task.
Proof.
  unfold TaskController.update_fields, TaskController.assign.
  destruct body as [[?|] [?|] [?|] [?|] [?|]]; reflexivity.
Qed.

Lemma update_fields_subtasks body task :
  subtasks (TaskController.update_fields body task) = subtasks task.
Proof.
  unfold TaskController.update_fields, TaskController.assign.
  destruct body as [[?|] [?|] [?|] [?|] [?|]]; reflexivity.
Qed.

Lemma update_fields_notification_sent body task :
  notification_sent (TaskController.update_fields body task)
  = notification_sent task.
Proof.
  unfold TaskController.update_fields, TaskController.assign.
  destruct body as [[?|] [?|] [?|] [?|] [?|]]; reflexivity.
Qed.

End StoreFacts.

(** C6.  A request on a task that no document matches by id and owner
    together, because the id is that of no task or because the task is
    another owner's, is answered by the same 404 "Task not found" and
    leaves the collection as it is; the answers in two such situations
    are equal. *)
Theorem not_found_is_uniform (req : TaskRequest) (taskId owner : ObjectId)
        (c c' : Task.Collection) :
  (forall d, In d c -> Task._id d = taskId -> Task.user_id d <> owner) ->
  (forall d, In d c' -> Task._id d = taskId -> Task.user_id d <> owner) ->
  handle req taskId owner c
  = (c, TaskController.not_found "Task not found")
  /\ snd (handle req taskId owner c) = snd (handle req taskId owner c').
Proof.
  intros H H'.
  apply StoreFacts.findOne_None in H, H'.
  assert (forall x, Task.findOne taskId owner x = None ->
                    handle req taskId owner x
                    = (x, TaskController.not_found "Task not found")) as E.
  { intros x Hx.
    destruct req; simpl;
      unfold TaskController.getTask, TaskController.updateTask,
        TaskController.deleteTask, TaskController.addSubtask,
        TaskController.updateSubtask, TaskController.deleteSubtask,
        TaskController.toggleTaskCompletion,
        TaskController.toggleSubtaskCompletion;
      rewrite Hx; reflexivity. }
  split; [now apply E|].
  now rewrite (E c H), (E c' H').
Qed.

(** A collection where task 1 belongs to owner 7, asked for by owner 8,
    and a collection without task 1. *)
Lemma not_found_is_uniform_witness :
  handle DeleteTask 1 8 [notified_task]
  = ([notified_task], TaskController.not_found "Task not found")
  /\ snd (handle DeleteTask 1 8 [notified_task])
     = snd (handle DeleteTask 1 8 [open_task]).
Proof.
  apply (not_found_is_uniform DeleteTask 1 8 [notified_task] [open_task]).
  - intros d [<- | []] _. simpl. lia.
  - intros d [<- | []]. simpl. lia.
Defined.

(** C2, as the code has it.  [updateTask] leaves [notification_sent] as
    it was, whatever it does to [due_date]: the stored task and the task
    of the answer carry the flag of the task loaded. *)
Theorem updateTask_keeps_notification_sent
        (id owner : ObjectId) (body : TaskController.UpdateBody)
        (c : Task.Collection) (task : Task.t) :
  Task.findOne id owner c = Some task ->
  (exists d, Task.findOne id owner
               (fst (TaskController.updateTask id owner body c)) = Some d
             /\ Task.notification_sent d = Task.notification_sent task)
  /\ (forall d,
        TaskController.data (snd (TaskController.updateTask id owner body c))
        = Some d ->
        Task.notification_sent d = Task.notification_sent task).
Proof.
  intro Hf. unfold TaskController.updateTask. rewrite Hf.
  destruct (TaskFacts.save_cases (TaskController.update_fields body task) c)
    as [-> | [errs ->]]; simpl.
  - split.
    + eexists. split.
      * apply (StoreFacts.findOne_save id owner task); auto.
        -- apply StoreFacts.update_fields_id.
        -- apply StoreFacts.update_fields_user_id.
      * now rewrite TaskFacts.pre_save_notification_sent,
          StoreFacts.update_fields_notification_sent.
    + intros d Hd. injection Hd as <-.
      now rewrite TaskFacts.pre_save_notification_sent,
        StoreFacts.update_fields_notification_sent.
  - split; [eauto | discriminate].
Qed.

Lemma updateTask_keeps_notification_sent_witness :
  Task.findOne 1 7 [notified_task] = Some notified_task
  /\ exists d,
      Task.findOne 1 7
        (fst (TaskController.updateTask 1 7 (reschedule_body 5000%Z)
                                        [notified_task])) = Some d
      /\ Task.notification_sent d = Task.notification_sent notified_task.
Proof.
  split; [reflexivity|].
  apply (updateTask_keeps_notification_sent
           1 7 (reschedule_body 5000%Z) [notified_task] notified_task).
  reflexivity.
Defined.

(** C2, as stated, fails.  The task was due at 1000 and its reminder was
    sent; the update moves the due date to 5000 and succeeds, and the
    stored task still has [notification_sent = true], where the claim
    wants [false]. *)
Lemma updateTask_reschedule_counterexample :
  let out := TaskController.updateTask 1 7 (reschedule_body 5000%Z)
                                       [notified_task] in
  Task.due_date notified_task = Some 1000%Z
  /\ TaskController.status (snd out) = 200
  /\ option_map Task.due_date (Task.findOne 1 7 (fst out))
     = Some (Some 5000%Z)
  /\ option_map Task.notification_sent (Task.findOne 1 7 (fst out))
     = Some true
  /\ option_map Task.notification_sent (Task.findOne 1 7 (fst out))
     <> Some false.
Proof.
  simpl. repeat split; discriminate.
Qed.

Module CompletionFacts.

Import Task TaskFacts StoreFacts TaskController.

(** A handler that loads [task] and saves [d], a document with the
    id, owner and subtasks of [task]: the stored task keeps the
    subtasks, and it is completed when the save went through and the
    subtasks are all completed, or when [d] was. *)
Lemma save_keeps_completed (id owner : ObjectId) (c : Collection)
      (task d : t) (answer : t -> Response) :
  findOne id owner c = Some task ->
  _id d = _id task -> user_id d = user_id task ->
  subtasks d = subtasks task ->
  all_subtasks_completed task = true ->
  (forall d', data (answer d') = Some d' /\ status (answer d') = 200) ->
  let out := match save d c with
             | (c', Saved d') => (c', answer d')
             | (c', Threw e) => (c', errorHandler e)
             end in
  exists d', findOne id owner (fst out) = Some d'
             /\ subtasks d' = subtasks task
             /\ (status (snd out) = 200 ->
                 is_completed d' = true /\ data (snd out) = Some d')
             /\ (is_completed task = true -> is_completed d' = true)
             /\ (validate None d = [] -> status (snd out) = 200).
Proof.
  intros Hf Hid Hu Hs Hall Hans out. subst out.
  unfold save.
  destruct (validate None d) as [|e errs] eqn:Hv; simpl.
  - exists (pre_save d).
    assert (is_completed (pre_save d) = true) as Hc.
    { rewrite pre_save_completed. unfold all_subtasks_completed.
      rewrite Hs. fold (all_subtasks_completed task).
      rewrite Hall. apply orb_true_r. }
    repeat split; auto.
    + now apply (findOne_save id owner task).
    + now rewrite pre_save_subtasks.
    + apply Hans.
    + intros _. apply Hans.
  - exists task. repeat split; auto; discriminate.
Qed.

End CompletionFacts.

(** C10.  When the subtask list of a task is non-empty and wholly
    completed, neither [toggleTaskCompletion] nor an update (in
    particular one that sets [is_completed] to [false]) makes the stored
    task incomplete: when the request succeeds the hook has put
    [is_completed] back to [true] before the write, and when it is
    rejected the stored task is untouched.  The subtasks stay as they
    were, and a request that only sets or flips [is_completed] on a
    valid document succeeds. *)
Theorem completed_subtasks_keep_task_completed
        (id owner : ObjectId) (c : Task.Collection) (task : Task.t)
        (req : TaskRequest) :
  Task.findOne id owner c = Some task ->
  all_subtasks_completed task = true ->
  (req = ToggleCompletion \/ exists body, req = UpdateTask body) ->
  exists d,
    Task.findOne id owner (fst (handle req id owner c)) = Some d
    /\ Task.subtasks d = Task.subtasks task
    /\ (TaskController.status (snd (handle req id owner c)) = 200 ->
        Task.is_completed d = true
        /\ TaskController.data (snd (handle req id owner c)) = Some d)
    /\ (Task.is_completed task = true -> Task.is_completed d = true)
    /\ (Task.validate None task = [] ->
        req = ToggleCompletion \/ req = UpdateTask (set_completed_body false) ->
        TaskController.status (snd (handle req id owner c)) = 200).
Proof.
  intros Hf Hall [-> | [body ->]]; simpl.
  - unfold TaskController.toggleTaskCompletion. rewrite Hf.
    destruct (CompletionFacts.save_keeps_completed id owner c task
                (Task.set_is_completed (negb (Task.is_completed task)) task)
                (fun d' => TaskController.mkResponse 200 true None (Some d'))
                Hf eq_refl eq_refl eq_refl Hall (fun _ => conj eq_refl eq_refl))
      as (d & H1 & H2 & H3 & H4 & H5).
    exists d. repeat split; auto; try apply H3; auto.
  - unfold TaskController.updateTask. rewrite Hf.
    destruct (CompletionFacts.save_keeps_completed id owner c task
                (TaskController.update_fields body task)
                (fun d' => TaskController.mkResponse 200 true
                             (Some "Task updated successfully"%string)
                             (Some d'))
                Hf (StoreFacts.update_fields_id _ _)
                (StoreFacts.update_fields_user_id _ _)
                (StoreFacts.update_fields_subtasks _ _)
                Hall (fun _ => conj eq_refl eq_refl))
      as (d & H1 & H2 & H3 & H4 & H5).
    exists d. repeat split; auto; try apply H3; auto.
    intros Hv [E | E]; [discriminate|].
    injection E as ->. apply H5. exact Hv.
Qed.

Lemma completed_subtasks_keep_task_completed_witness :
  Task.findOne 2 7 [finished_task] = Some finished_task
  /\ all_subtasks_completed finished_task = true
  /\ exists d,
      Task.findOne 2 7
        (fst (handle (UpdateTask (set_completed_body false)) 2 7
                     [finished_task])) = Some d
      /\ Task.subtasks d = Task.subtasks finished_task
      /\ (TaskController.status
            (snd (handle (UpdateTask (set_completed_body false)) 2 7
                         [finished_task])) = 200 ->
          Task.is_completed d = true
          /\ TaskController.data
               (snd (handle (UpdateTask (set_completed_body false)) 2 7
                            [finished_task])) = Some d)
      /\ (Task.is_completed finished_task = true ->
          Task.is_completed d = true)
      /\ (Task.validate None finished_task = [] ->
          UpdateTask (set_completed_body false) = ToggleCompletion
          \/ UpdateTask (set_completed_body false)
             = UpdateTask (set_completed_body false) ->
          TaskController.status
            (snd (handle (UpdateTask (set_completed_body false)) 2 7
                         [finished_task])) = 200).
Proof.
  split; [reflexivity|]. split; [reflexivity|].
  apply (completed_subtasks_keep_task_completed
           2 7 [finished_task] finished_task
           (UpdateTask (set_completed_body false))).
  - reflexivity.
  - reflexivity.
  - right. eexists. reflexivity.
Defined.

Module SubtaskFacts.

Import Task TaskFacts StoreFacts.

(** Validation of a loaded document reads the title, the description,
    the priority and the subtasks only. *)
Lemma validate_loaded_ext (d d' : t) :
  title d = title d' -> description d = description d' ->
  priority d = priority d' -> subtasks d = subtasks d' ->
  validate None d = validate None d'.
Proof.
  intros Ht Hd Hp Hs.
  unfold validate, title_errors, description_errors, priority_errors,
    due_date_errors, due_date_valid.
  now rewrite Ht, Hd, Hp, Hs.
Qed.

Lemma validate_pre_save (d : t) :
  validate None (pre_save d) = validate None d.
Proof.
  destruct (pre_save_cases d) as [[_ ->]|[_ ->]]; reflexivity.
Qed.

Lemma validate_push (oid : ObjectId) (stitle : string) (b : bool) (d : t) :
  validate None d = [] ->
  subtask_errors (mkSubtask oid (trim stitle) b) = [] ->
  validate None (push_subtask oid stitle b d) = [].
Proof.
  intros Hv Hs.
  assert (validate None (push_subtask oid stitle b d)
          = validate None d
              ++ subtask_errors (mkSubtask oid (trim stitle) b)) as E.
  { unfold validate, push_subtask, set_subtasks, title_errors,
      description_errors, priority_errors, due_date_errors,
      due_date_valid.
    cbn [title description priority due_date subtasks].
    rewrite flat_map_app. cbn [flat_map].
    rewrite app_nil_r, <- !app_assoc. reflexivity. }
  now rewrite E, Hv, Hs.
Qed.

Lemma valid_title_no_errors (oid : ObjectId) (stitle : string) (b : bool) :
  truthy (trim stitle) = true ->
  String.length (trim stitle) <= 200 ->
  subtask_errors (mkSubtask oid (trim stitle) b) = [].
Proof.
  unfold truthy, subtask_errors. simpl. intros Ht Hl.
  apply negb_true_iff in Ht. rewrite Ht.
  destruct (200 <? _) eqn:E; [|reflexivity].
  apply Nat.ltb_lt in E. lia.
Qed.

Lemma pull_fresh (oid : ObjectId) (s : Subtask) (l : list Subtask) :
  sub_id s = oid ->
  ~ In oid (map sub_id l) ->
  filter (fun x => negb (sub_id x =? oid)) (l ++ [s]) = l.
Proof.
  intros Hs Hfresh. rewrite filter_app. simpl.
  rewrite Hs, Nat.eqb_refl. simpl. rewrite app_nil_r.
  induction l as [|x l IH]; simpl in *; [reflexivity|].
  destruct (sub_id x =? oid) eqn:E.
  - apply Nat.eqb_eq in E. tauto.
  - simpl. f_equal. apply IH. tauto.
Qed.

Lemma find_fresh (oid : ObjectId) (s : Subtask) (l : list Subtask) :
  sub_id s = oid ->
  ~ In oid (map sub_id l) ->
  find (fun x => sub_id x =? oid) (l ++ [s]) = Some s.
Proof.
  intros Hs Hfresh.
  induction l as [|x l IH]; simpl in *.
  - now rewrite Hs, Nat.eqb_refl.
  - destruct (sub_id x =? oid) eqn:E.
    + apply Nat.eqb_eq in E. tauto.
    + apply IH. tauto.
Qed.

End SubtaskFacts.

(** On a task whose two subtasks are completed, the toggle of the first
    leaves the task completed with its first subtask incomplete. *)
Example toggle_back_keeps_task_completed :
  let out := TaskController.toggleSubtaskCompletion 2 10 7 [finished_task] in
  option_map Task.is_completed (Task.findOne 2 7 (fst out)) = Some true
  /\ option_map (fun d => map Task.sub_is_completed (Task.subtasks d))
                (Task.findOne 2 7 (fst out)) = Some [false; true].
Proof. split; reflexivity. Qed.

(** C8.  On a stored task, [addSubtask] with a valid title (1 to 200
    characters once trimmed) followed by the removal of the subtask just
    added, whose id is new among the subtasks of the task, gives back
    the subtask sequence the task had: the same subtasks in the same
    order.  Both requests succeed, and in between the new subtask is the
    last of the sequence. *)
Theorem add_then_remove_subtask
        (oid id owner : ObjectId) (stitle : string) (completed : option bool)
        (c : Task.Collection) (task : Task.t) :
  Task.findOne id owner c = Some task ->
  Task.validate None task = [] ->
  ~ In oid (map Task.sub_id (Task.subtasks task)) ->
  truthy (trim stitle) = true ->
  String.length (trim stitle) <= 200 ->
  let added := TaskController.addSubtask oid id owner stitle completed c in
  let removed := TaskController.deleteSubtask id oid owner (fst added) in
  TaskController.status (snd added) = 201
  /\ (exists d1,
        Task.findOne id owner (fst added) = Some d1
        /\ Task.subtasks d1
           = Task.subtasks task
               ++ [Task.mkSubtask oid (trim stitle)
                      (TaskController.or_default completed false)])
  /\ TaskController.status (snd removed) = 200
  /\ (exists d2,
        Task.findOne id owner (fst removed) = Some d2
        /\ Task.subtasks d2 = Task.subtasks task).
Proof.
  intros Hf Hv Hfresh Ht Hl.
  set (b := TaskController.or_default completed false).
  set (new := Task.mkSubtask oid (trim stitle) b).
  set (pushed := Task.push_subtask oid stitle b task).
  assert (Task.validate None pushed = []) as Hvp.
  { apply SubtaskFacts.validate_push; auto.
    now apply SubtaskFacts.valid_title_no_errors. }
  assert (Task.findOne id owner (Task.write (Task.pre_save pushed) c)
          = Some (Task.pre_save pushed)) as Hf1.
  { now apply (StoreFacts.findOne_save id owner task). }
  assert (Task.subtasks (Task.pre_save pushed) = Task.subtasks task ++ [new])
    as Hs1.
  { now rewrite TaskFacts.pre_save_subtasks. }
  set (pulled := Task.pull_subtask oid (Task.pre_save pushed)).
  assert (Task.subtasks pulled = Task.subtasks task) as Hs2.
  { unfold pulled, Task.pull_subtask. simpl. rewrite Hs1.
    now apply SubtaskFacts.pull_fresh. }
  assert (Task.validate None pulled = []) as Hvq.
  { rewrite <- Hv. apply SubtaskFacts.validate_loaded_ext; auto.
    - unfold pulled, Task.pull_subtask. simpl.
      destruct (TaskFacts.pre_save_cases pushed) as [[_ ->]|[_ ->]];
        reflexivity.
    - unfold pulled, Task.pull_subtask. simpl.
      destruct (TaskFacts.pre_save_cases pushed) as [[_ ->]|[_ ->]];
        reflexivity.
    - unfold pulled, Task.pull_subtask. simpl.
      destruct (TaskFacts.pre_save_cases pushed) as [[_ ->]|[_ ->]];
        reflexivity. }
  assert (TaskController.addSubtask oid id owner stitle completed c
          = (Task.write (Task.pre_save pushed) c,
             TaskController.mkResponse 201 true
               (Some "Subtask added successfully"%string)
               (Some (Task.pre_save pushed)))) as Eadd.
  { unfold TaskController.addSubtask, Task.addSubtask, Task.save.
    rewrite Hf. fold b. fold pushed. now rewrite Hvp. }
  cbv zeta. rewrite Eadd. simpl fst. simpl snd.
  assert (TaskController.deleteSubtask id oid owner
            (Task.write (Task.pre_save pushed) c)
          = (Task.write (Task.pre_save pulled)
                        (Task.write (Task.pre_save pushed) c),
             TaskController.mkResponse 200 true
               (Some "Subtask deleted successfully"%string)
               (Some (Task.pre_save pulled)))) as Edel.
  { unfold TaskController.deleteSubtask, Task.removeSubtask, Task.save.
    rewrite Hf1. unfold Task.subtask_by_id. rewrite Hs1.
    rewrite (SubtaskFacts.find_fresh oid new); auto.
    fold pulled. now rewrite Hvq. }
  rewrite Edel. simpl.
  repeat split.
  - exists (Task.pre_save pushed). auto.
  - exists (Task.pre_save pulled). split.
    + now apply (StoreFacts.findOne_save id owner (Task.pre_save pushed)).
    + now rewrite TaskFacts.pre_save_subtasks.
Qed.

Lemma add_then_remove_subtask_witness :
  let added := TaskController.addSubtask 22 3 7 " Bread " None [open_task] in
  let removed := TaskController.deleteSubtask 3 22 7 (fst added) in
  TaskController.status (snd added) = 201
  /\ (exists d1,
        Task.findOne 3 7 (fst added) = Some d1
        /\ Task.subtasks d1
           = Task.subtasks open_task
               ++ [Task.mkSubtask 22 (trim " Bread ")
                      (TaskController.or_default None false)])
  /\ TaskController.status (snd removed) = 200
  /\ (exists d2,
        Task.findOne 3 7 (fst removed) = Some d2
        /\ Task.subtasks d2 = Task.subtasks open_task).
Proof.
  apply (add_then_remove_subtask 22 3 7 " Bread " None [open_task] open_task).
  - reflexivity.
  - reflexivity.
  - simpl. lia.
  - reflexivity.
  - simpl. lia.
Defined.

Module QueryFacts.

Import Task.

Lemma insert_sorted_length le x (l : list t) :
  List.length (insert_sorted le x l) = S (List.length l).
Proof.
  induction l as [|y l IH]; simpl; [reflexivity|].
  destruct (le x y); simpl; [reflexivity | now rewrite IH].
Qed.

Lemma sort_length le (l : list t) :
  List.length (sort le l) = List.length l.
Proof.
  induction l as [|x l IH]; simpl; [reflexivity|].
  now rewrite insert_sorted_length, IH.
Qed.

(** For a positive divisor [ceil_div] is the least [n] whose multiple
    of [b] reaches [a]. *)
Lemma ceil_div_least (a b : nat) :
  0 < b ->
  exists n, ceil_div a b = Fin n
            /\ a <= n * b
            /\ forall m, a <= m * b -> n <= m.
Proof.
  intro Hb. destruct b as [|b']; [lia|].
  exists ((a + S b' - 1) / S b'). split; [reflexivity|].
  set (b := S b') in *.
  pose proof (Nat.div_mod_eq (a + b - 1) b) as Hdm.
  pose proof (Nat.mod_upper_bound (a + b - 1) b ltac:(lia)) as Hmod.
  split.
  - nia.
  - intros m Hm.
    apply Nat.lt_succ_r. apply Nat.Div0.div_lt_upper_bound. nia.
Qed.

Lemma matches_page_query regex_test owner p l d :
  matches regex_test owner
          (TaskController.filters_of (page_query p l)) d
  = (user_id d =? owner).
Proof.
  unfold matches. simpl. now rewrite !andb_true_r.
Qed.

End QueryFacts.

(** C5.  For an owner with exactly 15 tasks, the listing with [page=2],
    [limit=10] and no filter returns 5 tasks with [hasNextPage = false]
    and [hasPrevPage = true].  For every query, [totalTasks] is the
    number of the owner's tasks, [totalPages] is
    [Math.ceil(totalTasks / limit)], [hasNextPage] is
    [page < totalPages] and [hasPrevPage] is [page > 1]; two queries
    with the same page and limit get the same pagination, whatever their
    filters.  In terms of the numbers alone, for a limit of at least 1:
    [totalPages] is the least [n] with [totalTasks <= n * limit],
    [hasNextPage] holds exactly when [page * limit < totalTasks], and
    [hasPrevPage] exactly when [1 < page]; for a limit of 0,
    [hasNextPage] holds exactly when the owner has a task. *)
Theorem getTasks_pagination (regex_test : string -> string -> bool)
        (owner : ObjectId) (c : Task.Collection) :
  (Task.countDocuments owner c = 15 ->
   let r := TaskController.getTasks regex_test owner (page_query 2 10) c in
   List.length (TaskController.tasks r) = 5
   /\ TaskController.hasNextPage (TaskController.pagination r) = false
   /\ TaskController.hasPrevPage (TaskController.pagination r) = true
   /\ TaskController.totalPages (TaskController.pagination r) = Fin 2
   /\ TaskController.totalTasks (TaskController.pagination r) = 15)
  /\ (forall q,
        let p := TaskController.pagination
                   (TaskController.getTasks regex_test owner q c) in
        TaskController.totalTasks p
        = List.length (filter (fun d => Task.user_id d =? owner) c)
        /\ TaskController.currentPage p
           = TaskController.or_default (TaskController.q_page q) 1
        /\ TaskController.totalPages p
           = ceil_div (TaskController.totalTasks p)
                      (TaskController.or_default (TaskController.q_limit q)
                                                 10)
        /\ TaskController.hasNextPage p
           = js_lt_nat (TaskController.currentPage p)
                       (TaskController.totalPages p)
        /\ TaskController.hasPrevPage p
           = (1 <? TaskController.currentPage p))
  /\ (forall q q',
        TaskController.q_page q = TaskController.q_page q' ->
        TaskController.q_limit q = TaskController.q_limit q' ->
        TaskController.pagination
          (TaskController.getTasks regex_test owner q c)
        = TaskController.pagination
            (TaskController.getTasks regex_test owner q' c))
  /\ (forall q,
        let p := TaskController.pagination
                   (TaskController.getTasks regex_test owner q c) in
        let page := TaskController.or_default (TaskController.q_page q) 1 in
        let limit :=
          TaskController.or_default (TaskController.q_limit q) 10 in
        let total :=
          List.length (filter (fun d => Task.user_id d =? owner) c) in
        (1 <= limit ->
         (exists n,
             TaskController.totalPages p = Fin n
             /\ total <= n * limit
             /\ forall m, total <= m * limit -> n <= m)
         /\ (TaskController.hasNextPage p = true <-> page * limit < total)
         /\ (TaskController.hasPrevPage p = true <-> 1 < page))
        /\ (limit = 0 ->
            (TaskController.hasNextPage p = true <-> 0 < total)
            /\ (TaskController.hasPrevPage p = true <-> 1 < page))).
Proof.
  split; [|split; [|split]].
  - intro H. cbv zeta.
    assert (List.length
              (TaskController.tasks
                 (TaskController.getTasks regex_test owner (page_query 2 10)
                                          c)) = 5) as Hlen.
    { unfold TaskController.getTasks, Task.findByUserWithFilters.
      cbn [TaskController.tasks].
      change (Task.page (TaskController.filters_of (page_query 2 10)))
        with 2.
      change (Task.limit (TaskController.filters_of (page_query 2 10)))
        with 10.
      cbn [Nat.eqb negb andb Nat.sub Nat.mul Nat.add].
      rewrite length_firstn, length_skipn, QueryFacts.sort_length.
      rewrite (filter_ext _ _ (QueryFacts.matches_page_query
                                 regex_test owner 2 10)).
      unfold Task.countDocuments in H. rewrite H. reflexivity. }
    split; [exact Hlen|].
    unfold TaskController.getTasks. simpl. rewrite H.
    repeat split.
  - intro q. unfold TaskController.getTasks. simpl. repeat split.
  - intros q q' Hp Hl. unfold TaskController.getTasks. simpl.
    now rewrite Hp, Hl.
  - intro q. cbv zeta.
    unfold TaskController.getTasks, Task.countDocuments.
    cbn [TaskController.pagination TaskController.totalPages
         TaskController.hasNextPage TaskController.hasPrevPage
         TaskController.filters_of Task.page Task.limit].
    set (page := TaskController.or_default (TaskController.q_page q) 1).
    set (limit := TaskController.or_default (TaskController.q_limit q) 10).
    set (total := List.length (filter (fun d => Task.user_id d =? owner) c)).
    split.
    + intro Hl.
      destruct (QueryFacts.ceil_div_least total limit Hl)
        as (n & En & Hn & Hleast).
      rewrite En. cbn [js_lt_nat].
      split; [exists n; auto|].
      split; [|apply Nat.ltb_lt].
      rewrite Nat.ltb_lt. split.
      * intro Hlt.
        destruct (Nat.lt_ge_cases (page * limit) total) as [Hc | Hc];
          [exact Hc|].
        apply Hleast in Hc. lia.
      * intro Hlt. nia.
    + intro E0. rewrite E0.
      split; [|apply Nat.ltb_lt].
      destruct total as [|t]; cbn [ceil_div js_lt_nat]; split;
        intro Hx; try discriminate; try reflexivity; lia.
Qed.

Lemma getTasks_pagination_witness :
  Task.countDocuments 7 (sample_tasks 15 3) = 15
  /\ let r := TaskController.getTasks no_match 7 (page_query 2 10)
                                      (sample_tasks 15 3) in
     List.length (TaskController.tasks r) = 5
     /\ TaskController.hasNextPage (TaskController.pagination r) = false
     /\ TaskController.hasPrevPage (TaskController.pagination r) = true
     /\ TaskController.totalPages (TaskController.pagination r) = Fin 2
     /\ TaskController.totalTasks (TaskController.pagination r) = 15.
Proof.
  split; [reflexivity|].
  apply (proj1 (getTasks_pagination no_match 7 (sample_tasks 15 3))).
  reflexivity.
Defined.

(** The total ignores the filters: of 15 tasks 3 are completed; the
    first page of the completed ones holds all 3 of them, and the
    pagination still counts 15 tasks on 2 pages and announces a next
    page. *)
Example getTasks_total_ignores_filters :
  let r := TaskController.getTasks no_match 7 (completed_query 1 10)
                                   (sample_tasks 15 3) in
  map Task._id (TaskController.tasks r) = [3; 2; 1]
  /\ TaskController.pagination r
     = TaskController.mkPagination 1 (Fin 2) 15 true false.
Proof. split; reflexivity. Qed.

Module ToggleFacts.

Import Task TaskFacts StoreFacts.

Lemma modify_first_titles sid (l : list Subtask) :
  flat_map subtask_errors (modify_first sid flip l)
  = flat_map subtask_errors l.
Proof.
  induction l as [|s l IH]; simpl; [reflexivity|].
  destruct (sub_id s =? sid); simpl; [reflexivity | now rewrite IH].
Qed.

Lemma validate_toggled sid (d : t) :
  validate None (set_subtasks (modify_first sid flip (subtasks d)) d)
  = validate None d.
Proof.
  unfold validate, title_errors, description_errors, priority_errors,
    due_date_errors, due_date_valid.
  cbn [set_subtasks title description priority due_date subtasks].
  now rewrite modify_first_titles.
Qed.

(** The answer and the effect of one toggle on a valid stored task
    that has the subtask. *)
Lemma toggle_step (taskId sid owner : ObjectId) (c : Collection)
      (d : t) :
  findOne taskId owner c = Some d ->
  validate None d = [] ->
  subtask_by_id sid d <> None ->
  let d' := pre_save
              (set_subtasks (modify_first sid flip (subtasks d)) d) in
  TaskController.toggleSubtaskCompletion taskId sid owner c
  = (write d' c,
     TaskController.mkResponse 200 true
       (Some "Subtask completion status toggled successfully"%string)
       (Some d'))
  /\ findOne taskId owner (write d' c) = Some d'.
Proof.
  intros Hf Hv Hs d'. split.
  - unfold TaskController.toggleSubtaskCompletion. rewrite Hf.
    destruct (subtask_by_id sid d); [|congruence].
    unfold save. fold flip.
    rewrite validate_toggled, Hv. reflexivity.
  - now apply (findOne_save taskId owner d).
Qed.

Lemma mem_app i (l l' : list ObjectId) :
  mem i (l ++ l') = mem i l || mem i l'.
Proof. apply existsb_app. Qed.

Lemma mem_In i (l : list ObjectId) : mem i l = true <-> In i l.
Proof.
  unfold mem. rewrite existsb_exists. split.
  - intros (x & Hx & E). apply Nat.eqb_eq in E. now subst.
  - intro H. exists i. split; [exact H | apply Nat.eqb_refl].
Qed.

Lemma mem_not_In i (l : list ObjectId) : ~ In i l -> mem i l = false.
Proof.
  intro H. destruct (mem i l) eqn:E; [|reflexivity].
  apply mem_In in E. contradiction.
Qed.

Lemma completed_exactly_ids done (l : list Subtask) :
  map sub_id (completed_exactly done l) = map sub_id l.
Proof.
  unfold completed_exactly. rewrite map_map. reflexivity.
Qed.

Lemma completed_exactly_none (l : list Subtask) :
  forallb (fun s => negb (sub_is_completed s)) l = true ->
  completed_exactly [] l = l.
Proof.
  induction l as [|s l IH]; simpl; [reflexivity|].
  intro H. apply andb_true_iff in H as [Hs Hl].
  rewrite (IH Hl). f_equal.
  destruct s as [i ti b]. simpl in *.
  apply negb_true_iff in Hs. now subst.
Qed.

(** Away from [sid] the marking by [done ++ [sid]] is the marking by
    [done]. *)
Lemma completed_exactly_other done sid (l : list Subtask) :
  ~ In sid (map sub_id l) ->
  completed_exactly (done ++ [sid]) l = completed_exactly done l.
Proof.
  induction l as [|s l IH]; simpl; [reflexivity|].
  intro H. rewrite IH by tauto. f_equal.
  rewrite mem_app. simpl.
  destruct (sub_id s =? sid) eqn:E.
  - apply Nat.eqb_eq in E. tauto.
  - now rewrite !orb_false_r.
Qed.

(** One more toggle, of a subtask not toggled yet. *)
Lemma modify_first_completed_exactly done sid (l : list Subtask) :
  NoDup (map sub_id l) ->
  ~ In sid done ->
  modify_first sid flip (completed_exactly done l)
  = completed_exactly (done ++ [sid]) l.
Proof.
  intros Hnd Hsid.
  induction l as [|s l IH]; simpl; [reflexivity|].
  inversion Hnd as [|? ? Hnotin Hnd']; subst.
  destruct (sub_id s =? sid) eqn:E.
  - apply Nat.eqb_eq in E. subst sid.
    rewrite completed_exactly_other by exact Hnotin.
    f_equal. unfold flip, set_sub_is_completed. simpl.
    rewrite mem_app, (mem_not_In _ _ Hsid). simpl.
    now rewrite Nat.eqb_refl.
  - rewrite IH by exact Hnd'. f_equal.
    rewrite mem_app. simpl. rewrite E. now rewrite !orb_false_r.
Qed.

Lemma forallb_completed_exactly done (l : list Subtask) :
  forallb sub_is_completed (completed_exactly done l) = true
  <-> incl (map sub_id l) done.
Proof.
  unfold completed_exactly. rewrite forallb_forall. split.
  - intros H i Hi. apply in_map_iff in Hi as (s & <- & Hs).
    apply mem_In.
    apply (H (set_sub_is_completed (mem (sub_id s) done) s)).
    apply in_map_iff. eauto.
  - intros H x Hx. apply in_map_iff in Hx as (s & <- & Hs).
    simpl. apply mem_In. apply H. now apply in_map.
Qed.

Lemma firstn_succ_nth (l : list ObjectId) (k : nat) :
  k < List.length l ->
  firstn (S k) l = firstn k l ++ [nth k l 0].
Proof.
  revert k. induction l as [|x l IH]; simpl; intros k Hk; [lia|].
  destruct k as [|k]; simpl; [reflexivity|].
  f_equal. apply IH. lia.
Qed.

Lemma nth_not_in_firstn (l : list ObjectId) (k : nat) :
  NoDup l -> k < List.length l -> ~ In (nth k l 0) (firstn k l).
Proof.
  intros Hnd Hk Hin.
  rewrite <- (firstn_skipn k l) in Hnd.
  apply NoDup_app_remove_l in Hnd as Hnd2.
  assert (In (nth k l 0) (skipn k l)) as Hin2.
  { rewrite <- (firstn_skipn k l) at 1.
    rewrite app_nth2; rewrite length_firstn, Nat.min_l by lia; [|lia].
    rewrite Nat.sub_diag.
    destruct (skipn k l) as [|y r] eqn:E.
    - apply (f_equal (@List.length _)) in E.
      rewrite length_skipn in E. simpl in E. lia.
    - now left. }
  revert Hnd Hin Hin2. generalize (firstn k l) (skipn k l) (nth k l 0).
  intros l1 l2 x Hnd H1 H2.
  induction l1 as [|y l1 IH]; simpl in *; [contradiction|].
  inversion Hnd as [|? ? Hn Hnd']; subst.
  destruct H1 as [-> | H1].
  - apply Hn. apply in_or_app. now right.
  - now apply IH.
Qed.

End ToggleFacts.

Module OneByOne.

Import Task TaskFacts StoreFacts ToggleFacts.

Section Run.

Variables (taskId owner : ObjectId) (c : Collection) (task : t)
          (order : list ObjectId).

Hypothesis Hfind : findOne taskId owner c = Some task.
Hypothesis Hvalid : validate None task = [].
Hypothesis Hopen : is_completed task = false.
Hypothesis Hsome : subtasks task <> [].
Hypothesis Hnone :
  forallb (fun s => negb (sub_is_completed s)) (subtasks task) = true.
Hypothesis Hids : NoDup (map sub_id (subtasks task)).
Hypothesis Horder : Permutation order (map sub_id (subtasks task)).

Lemma order_NoDup : NoDup order.
Proof.
  apply (Permutation_NoDup (Permutation_sym Horder) Hids).
Qed.

Lemma order_length : List.length order = List.length (subtasks task).
Proof.
  rewrite (Permutation_length Horder). apply length_map.
Qed.

(** Whether the first [k] toggles have completed every subtask. *)
Lemma all_completed_after (k : nat) :
  k <= List.length order ->
  forallb sub_is_completed
          (completed_exactly (firstn k order) (subtasks task))
  = (k =? List.length order).
Proof.
  intro Hk.
  destruct (k =? List.length order) eqn:E.
  - apply Nat.eqb_eq in E. subst k. rewrite firstn_all.
    apply forallb_completed_exactly.
    intros i Hi. apply (Permutation_in _ (Permutation_sym Horder) Hi).
  - apply Nat.eqb_neq in E.
    destruct (forallb sub_is_completed
                      (completed_exactly (firstn k order)
                                         (subtasks task))) eqn:F;
      [|reflexivity].
    apply forallb_completed_exactly in F.
    apply (NoDup_incl_length Hids) in F.
    rewrite length_firstn, length_map, <- order_length in F. lia.
Qed.

(** The stored task after the first [k] toggles. *)
Lemma after_toggles (k : nat) :
  k <= List.length order ->
  exists d,
    findOne taskId owner (toggle_each taskId owner (firstn k order) c)
    = Some d
    /\ validate None d = []
    /\ subtasks d = completed_exactly (firstn k order) (subtasks task)
    /\ is_completed d = (k =? List.length order).
Proof.
  induction k as [|k IH]; intro Hk.
  - exists task. cbn [firstn toggle_each fold_left].
    repeat split; auto.
    + now rewrite completed_exactly_none.
    + rewrite Hopen, order_length.
      destruct (subtasks task); [congruence | reflexivity].
  - destruct IH as (d & Hf & Hv & Hs & Hc); [lia|].
    assert ((k =? List.length order) = false) as Hlt
        by (apply Nat.eqb_neq; lia).
    rewrite Hlt in Hc.
    set (sid := nth k order 0).
    assert (In sid (map sub_id (subtasks task))) as Hsid.
    { apply (Permutation_in _ Horder). apply nth_In. lia. }
    assert (subtask_by_id sid d <> None) as Hex.
    { unfold subtask_by_id. intro Hn.
      rewrite <- (completed_exactly_ids (firstn k order)), <- Hs in Hsid.
      apply in_map_iff in Hsid as (s & Es & Hin).
      apply (find_none _ _ Hn) in Hin.
      rewrite Es, Nat.eqb_refl in Hin. discriminate. }
    destruct (toggle_step taskId sid owner _ d Hf Hv Hex) as [Estep Hf'].
    rewrite firstn_succ_nth by lia. fold sid.
    unfold toggle_each in *. rewrite fold_left_app. simpl.
    rewrite Estep. simpl.
    eexists. split; [exact Hf'|].
    assert (modify_first sid flip (subtasks d)
            = completed_exactly (firstn k order ++ [sid])
                                (subtasks task)) as Hmod.
    { rewrite Hs. apply modify_first_completed_exactly; auto.
      apply nth_not_in_firstn; [apply order_NoDup | lia]. }
    repeat split.
    + now rewrite SubtaskFacts.validate_pre_save, validate_toggled.
    + now rewrite pre_save_subtasks.
    + rewrite pre_save_completed. simpl. rewrite Hc. simpl.
      unfold all_subtasks_completed. simpl. rewrite Hmod.
      rewrite <- firstn_succ_nth by lia.
      rewrite all_completed_after by lia.
      unfold completed_exactly. rewrite length_map.
      destruct (subtasks task); [congruence | reflexivity].
Qed.

End Run.

(** A toggle of one subtask of a task whose subtasks are all
    completed. *)
Lemma modify_first_uncompletes sid (l : list Subtask) :
  forallb sub_is_completed l = true ->
  find (fun s => sub_id s =? sid) l <> None ->
  forallb sub_is_completed (modify_first sid flip l) = false.
Proof.
  induction l as [|s l IH]; simpl; [congruence|].
  intros Hall Hex. apply andb_true_iff in Hall as [Hs Hl].
  destruct (sub_id s =? sid); simpl.
  - now rewrite Hs.
  - rewrite Hs. simpl. now apply IH.
Qed.

End OneByOne.

(** C7.  Take a stored, valid task that is not completed, whose
    subtasks, [n >= 1] of them with distinct ids, are all incomplete,
    and toggle the subtasks one at a time, in any order: after each of
    the first [n - 1] toggles the stored task has [is_completed = false]
    and after the [n]-th it has [is_completed = true]; after [k] toggles
    exactly the subtasks toggled are completed.  And on a task whose
    subtasks are all completed, the toggle of one subtask succeeds,
    leaves a task with an incomplete subtask and does not change
    [is_completed]. *)
Theorem toggle_subtasks_one_by_one
        (taskId owner : ObjectId) (c : Task.Collection) (task : Task.t) :
  Task.findOne taskId owner c = Some task ->
  Task.validate None task = [] ->
  (Task.is_completed task = false ->
   Task.subtasks task <> [] ->
   forallb (fun s => negb (Task.sub_is_completed s)) (Task.subtasks task)
   = true ->
   NoDup (map Task.sub_id (Task.subtasks task)) ->
   forall order k,
     Permutation order (map Task.sub_id (Task.subtasks task)) ->
     k <= List.length (Task.subtasks task) ->
     exists d,
       Task.findOne taskId owner
                    (toggle_each taskId owner (firstn k order) c) = Some d
       /\ Task.subtasks d
          = completed_exactly (firstn k order) (Task.subtasks task)
       /\ Task.is_completed d
          = (k =? List.length (Task.subtasks task)))
  /\ (all_subtasks_completed task = true ->
      forall sid,
        Task.subtask_by_id sid task <> None ->
        let out :=
          TaskController.toggleSubtaskCompletion taskId sid owner c in
        TaskController.status (snd out) = 200
        /\ exists d,
            Task.findOne taskId owner (fst out) = Some d
            /\ all_subtasks_completed d = false
            /\ Task.is_completed d = Task.is_completed task).
Proof.
  intros Hf Hv. split.
  - intros Hopen Hsome Hnone Hids order k Horder Hk.
    pose proof (OneByOne.order_length task order Horder) as Hlen.
    destruct (OneByOne.after_toggles taskId owner c task order
                Hf Hv Hopen Hsome Hnone Hids Horder k)
      as (d & H1 & _ & H3 & H4); [lia|].
    exists d. rewrite <- Hlen. auto.
  - intros Hall sid Hex.
    destruct (ToggleFacts.toggle_step taskId sid owner c task Hf Hv Hex)
      as [Estep Hf'].
    cbv zeta. rewrite Estep. simpl. split; [reflexivity|].
    eexists. split; [exact Hf'|].
    unfold all_subtasks_completed in Hall.
    apply andb_true_iff in Hall as [Hne Hall].
    assert (all_subtasks_completed
              (Task.set_subtasks
                 (Task.modify_first sid flip (Task.subtasks task)) task)
            = false) as Hnot.
    { unfold all_subtasks_completed. simpl.
      rewrite OneByOne.modify_first_uncompletes; auto.
      apply andb_false_r. }
    split.
    + unfold all_subtasks_completed in *.
      now rewrite TaskFacts.pre_save_subtasks.
    + rewrite TaskFacts.pre_save_completed, Hnot. simpl.
      apply orb_false_r.
Qed.

Lemma toggle_subtasks_one_by_one_witness :
  (exists d,
      Task.findOne 3 7 (toggle_each 3 7 (firstn 1 [21; 20]) [open_task])
      = Some d
      /\ Task.subtasks d
         = completed_exactly (firstn 1 [21; 20]) (Task.subtasks open_task)
      /\ Task.is_completed d = false)
  /\ (exists d,
         Task.findOne 3 7 (toggle_each 3 7 (firstn 2 [21; 20]) [open_task])
         = Some d
         /\ Task.subtasks d
            = completed_exactly (firstn 2 [21; 20])
                                (Task.subtasks open_task)
         /\ Task.is_completed d = true).
Proof.
  pose proof (proj1 (toggle_subtasks_one_by_one
                       3 7 [open_task] open_task eq_refl eq_refl)
                    eq_refl ltac:(discriminate) eq_refl) as H.
  assert (NoDup (map Task.sub_id (Task.subtasks open_task))) as Hnd.
  { simpl. repeat constructor; simpl; intuition lia. }
  assert (Permutation [21; 20] (map Task.sub_id (Task.subtasks open_task)))
    as Hp by apply perm_swap.
  split.
  - apply (H Hnd [21; 20] 1 Hp). simpl. lia.
  - apply (H Hnd [21; 20] 2 Hp). simpl. lia.
Defined.

Module SweepFacts.

Import Task TaskFacts NotificationService.

Lemma write_In_same_id (w x : t) (c : Collection) :
  unique_ids c -> In x (write w c) -> _id x = _id w -> x = w.
Proof.
  unfold unique_ids.
  induction c as [|y c IH]; simpl; [tauto|].
  intros Hnd Hin Hid. inversion Hnd as [|? ? Hy Hnd']; subst.
  destruct (_id y =? _id w) eqn:E.
  - apply Nat.eqb_eq in E. destruct Hin as [<- | Hin]; [reflexivity|].
    exfalso. apply Hy. rewrite E, <- Hid. now apply in_map.
  - apply Nat.eqb_neq in E. destruct Hin as [<- | Hin]; [congruence|].
    now apply IH.
Qed.

Lemma write_In_other (w x : t) (c : Collection) :
  In x c -> _id x <> _id w -> In x (write w c).
Proof.
  induction c as [|y c IH]; simpl; [tauto|].
  intros [-> | Hin] Hne.
  - destruct (_id x =? _id w) eqn:E; [|now left].
    apply Nat.eqb_eq in E. congruence.
  - destruct (_id y =? _id w); right; auto.
Qed.

Lemma write_unique (w : t) (c : Collection) :
  unique_ids c -> unique_ids (write w c).
Proof. unfold unique_ids. now rewrite write_ids. Qed.

Lemma unique_ids_inj (c : Collection) (d d' : t) :
  unique_ids c -> In d c -> In d' c -> _id d = _id d' -> d = d'.
Proof.
  unfold unique_ids.
  induction c as [|y c IH]; simpl; [tauto|].
  intros Hnd H H' E. inversion Hnd as [|? ? Hy Hnd']; subst.
  destruct H as [<- | H], H' as [<- | H']; auto.
  - exfalso. apply Hy. rewrite E. now apply in_map.
  - exfalso. apply Hy. rewrite <- E. now apply in_map.
Qed.

Lemma flagged_id task : _id (flagged task) = _id task.
Proof. unfold flagged. now rewrite pre_save_id. Qed.

Lemma flagged_sent task : notification_sent (flagged task) = true.
Proof. unfold flagged. now rewrite pre_save_notification_sent. Qed.

(** [save] in the run succeeds exactly when the database accepts the
    write and the document loaded is valid. *)
Lemma try_save_cases (available : bool) (task : t) (c : Collection) :
  (available && valid task = true
   /\ try_save available (set_notification_sent true task) c
      = Some (write (flagged task) c))
  \/ (available && valid task = false
      /\ try_save available (set_notification_sent true task) c = None).
Proof.
  unfold try_save, save, valid, flagged.
  change (validate None (set_notification_sent true task))
    with (validate None task).
  destruct available; simpl; [|now right].
  destruct (validate None task); [left | right]; auto.
Qed.

End SweepFacts.

Module NotifyFacts.

Import Task TaskFacts NotificationService SweepFacts.

Section Loop.

Variables mail_ok db_ok : nat -> bool.

Local Abbreviation run := (notify mail_ok db_ok).

(** Induction on the course of the loop: a task is skipped, its mail
    fails, its mail goes out and [save] throws, or its mail goes out
    and the flag is saved. *)
Lemma notify_course
      (P : nat -> list (t * option User) -> Collection ->
           Collection * list Event -> Prop) :
  (forall k c, P k [] c (c, [])) ->
  (forall k p rest c,
      mailable p = false ->
      P (S k) rest c (run (S k) rest c) ->
      P k (p :: rest) c (run (S k) rest c)) ->
  (forall k task u rest c,
      mailable (task, Some u) = true -> mail_ok k = false ->
      P (S k) rest c (run (S k) rest c) ->
      P k ((task, Some u) :: rest) c
        (fst (run (S k) rest c),
         Dispatched (_id task) (email u) false
           :: snd (run (S k) rest c))) ->
  (forall k task u rest c,
      mailable (task, Some u) = true -> mail_ok k = true ->
      db_ok k && valid task = false ->
      P k ((task, Some u) :: rest) c
        (c, [Dispatched (_id task) (email u) true;
             Aborted (_id task)])) ->
  (forall k task u rest c,
      mailable (task, Some u) = true -> mail_ok k = true ->
      db_ok k && valid task = true ->
      P (S k) rest (write (flagged task) c)
        (run (S k) rest (write (flagged task) c)) ->
      P k ((task, Some u) :: rest) c
        (fst (run (S k) rest (write (flagged task) c)),
         Dispatched (_id task) (email u) true
           :: Marked (_id task)
           :: snd (run (S k) rest (write (flagged task) c)))) ->
  forall k pending c, P k pending c (run k pending c).
Proof.
  intros Hnil Hskip Hfail Habort Hmark k pending.
  revert k. induction pending as [|[task owner] rest IH]; intros k c.
  - apply Hnil.
  - simpl. destruct owner as [u|].
    + destruct (truthy (email u)) eqn:Hm.
      * destruct (mail_ok k) eqn:Hmail.
        -- destruct (try_save_cases (db_ok k) task c)
             as [[Hok ->] | [Hko ->]].
           ++ specialize (Hmark k task u rest c Hm Hmail Hok
                                (IH (S k) _)).
              destruct (run (S k) rest (write (flagged task) c)).
              exact Hmark.
           ++ now apply Habort.
        -- specialize (Hfail k task u rest c Hm Hmail (IH (S k) c)).
           destruct (run (S k) rest c). exact Hfail.
      * apply Hskip; [exact Hm | apply IH].
    + apply Hskip; [reflexivity | apply IH].
Qed.

(** Every event is about a task of the run. *)
Lemma notify_events_in_run k pending c e :
  In e (snd (run k pending c)) ->
  In (event_task e) (map task_id pending).
Proof.
  apply (notify_course
           (fun _ pending _ out =>
              In e (snd out) ->
              In (event_task e) (map task_id pending))); simpl.
  - tauto.
  - auto.
  - intros ? ? ? ? ? _ _ IH [<- | H]; auto.
  - intros ? ? ? ? ? _ _ _ [<- | [<- | []]]; auto.
  - intros ? ? ? ? ? _ _ _ IH [<- | [<- | H]]; auto.
Qed.

(** A document of the resulting collection was there before, or was
    written with the flag by a step that logged [Marked]. *)
Lemma notify_changes k pending c d :
  In d (fst (run k pending c)) ->
  In d c \/ (In (Marked (_id d)) (snd (run k pending c))
             /\ notification_sent d = true).
Proof.
  apply (notify_course
           (fun _ _ c out =>
              In d (fst out) ->
              In d c \/ (In (Marked (_id d)) (snd out)
                         /\ notification_sent d = true))); simpl.
  - auto.
  - auto.
  - intros ? ? ? ? ? _ _ IH H.
    destruct (IH H) as [|[? ?]]; auto.
  - auto.
  - intros ? task ? ? c0 _ _ _ IH H.
    destruct (IH H) as [Hw | [? ?]]; [|auto].
    apply write_In in Hw as [Hw | ->]; [auto|].
    right. rewrite flagged_id, flagged_sent. auto.
Qed.

(** A document whose id is not marked stays as it is. *)
Lemma notify_untouched k pending c d :
  In d c ->
  ~ In (Marked (_id d)) (snd (run k pending c)) ->
  In d (fst (run k pending c)).
Proof.
  apply (notify_course
           (fun _ _ c out =>
              In d c -> ~ In (Marked (_id d)) (snd out) ->
              In d (fst out))); simpl.
  - auto.
  - auto.
  - intros ? ? ? ? ? _ _ IH H Hn. apply IH; auto.
  - auto.
  - intros ? task ? ? c0 _ _ _ IH H Hn. apply IH.
    + apply write_In_other; [exact H|].
      rewrite flagged_id. intro E. apply Hn. rewrite E. auto.
    + intro. apply Hn. auto.
Qed.

(** In a collection with unique ids, a marked task is stored with
    the flag. *)
Lemma notify_marked_stored k pending c i d :
  unique_ids c ->
  In (Marked i) (snd (run k pending c)) ->
  In d (fst (run k pending c)) -> _id d = i ->
  notification_sent d = true.
Proof.
  apply (notify_course
           (fun k pending c out =>
              unique_ids c -> In (Marked i) (snd out) ->
              In d (fst out) -> _id d = i ->
              notification_sent d = true)); simpl.
  - tauto.
  - auto.
  - intros ? ? ? ? ? _ _ IH Hu [H | H]; [discriminate | auto].
  - intros ? ? ? ? ? _ _ _ _ [H | [H | []]]; discriminate.
  - intros k0 task ? rest c0 _ _ _ IH Hu [H | [H | H]] Hd Hid.
    + discriminate.
    + injection H as H.
      destruct (notify_changes (S k0) rest (write (flagged task) c0) d Hd)
        as [Hw | [_ ?]]; [|assumption].
      apply write_In_same_id in Hw; auto.
      * subst d. apply flagged_sent.
      * rewrite flagged_id. congruence.
    + apply IH; auto. now apply write_unique.
Qed.

(** A flag is saved right after the mail of the same task went
    out. *)
Lemma notify_marked_after_mail k pending c l1 l2 i :
  snd (run k pending c) = l1 ++ Marked i :: l2 ->
  exists l0 to, l1 = l0 ++ [Dispatched i to true].
Proof.
  revert l1.
  apply (notify_course
           (fun _ _ _ out =>
              forall l1, snd out = l1 ++ Marked i :: l2 ->
              exists l0 to, l1 = l0 ++ [Dispatched i to true])); simpl.
  - intros _ _ [|? ?]; discriminate.
  - auto.
  - intros ? ? ? ? ? _ _ IH [|e l1] E; [discriminate|].
    injection E as <- E.
    destruct (IH _ E) as (l0 & to & ->).
    now exists (Dispatched (_id task) (email u) false :: l0), to.
  - intros ? ? ? ? ? _ _ _ [|e [|e' [|? ?]]] E; discriminate.
  - intros ? task u ? ? _ _ _ IH [|e [|e' l1]] E.
    + discriminate.
    + injection E as <- <- _. now exists [], (email u).
    + injection E as <- <- E.
      destruct (IH _ E) as (l0 & to & ->).
      now exists (Dispatched (_id task) (email u) true
                    :: Marked (_id task) :: l0), to.
Qed.

(** An error thrown by [save] comes right after the mail of the same
    task went out, and is the last event of the run. *)
Lemma notify_aborted_last k pending c l1 l2 i :
  snd (run k pending c) = l1 ++ Aborted i :: l2 ->
  l2 = [] /\ exists l0 to, l1 = l0 ++ [Dispatched i to true].
Proof.
  revert l1.
  apply (notify_course
           (fun _ _ _ out =>
              forall l1, snd out = l1 ++ Aborted i :: l2 ->
              l2 = []
              /\ exists l0 to, l1 = l0 ++ [Dispatched i to true]));
    simpl.
  - intros _ _ [|? ?]; discriminate.
  - auto.
  - intros ? ? ? ? ? _ _ IH [|e l1] E; [discriminate|].
    injection E as <- E.
    destruct (IH _ E) as (? & l0 & to & ->). split; [assumption|].
    now exists (Dispatched (_id task) (email u) false :: l0), to.
  - intros ? task u ? ? _ _ _ [|e [|e' [|? ?]]] E; try discriminate.
    injection E as <- <- <-. split; [reflexivity|].
    now exists [], (email u).
  - intros ? task u ? ? _ _ _ IH [|e [|e' l1]] E; try discriminate.
    injection E as <- <- E.
    destruct (IH _ E) as (? & l0 & to & ->). split; [assumption|].
    now exists (Dispatched (_id task) (email u) true
                  :: Marked (_id task) :: l0), to.
Qed.

(** No task is mailed twice in a run over distinct tasks. *)
Lemma notify_dispatched_once k pending c :
  NoDup (map task_id pending) ->
  NoDup (dispatched (snd (run k pending c))).
Proof.
  apply (notify_course
           (fun _ pending _ out =>
              NoDup (map task_id pending) ->
              NoDup (dispatched (snd out)))); simpl.
  - constructor.
  - intros ? ? ? ? _ IH H. inversion H. auto.
  - intros k0 task u rest c0 _ _ IH H. inversion H as [|? ? Hn Hr].
    constructor; [|auto].
    intro Hin. apply Hn. unfold dispatched in Hin.
    apply in_flat_map in Hin as (e & He & Hi).
    apply notify_events_in_run in He.
    destruct e; simpl in Hi; try contradiction.
    destruct Hi as [E | []]. simpl in He. rewrite E in He. exact He.
  - intros. repeat constructor. simpl. tauto.
  - intros k0 task u rest c0 _ _ _ IH H. inversion H as [|? ? Hn Hr].
    constructor; [|auto].
    intro Hin. apply Hn. unfold dispatched in Hin.
    apply in_flat_map in Hin as (e & He & Hi).
    apply notify_events_in_run in He.
    destruct e; simpl in Hi; try contradiction.
    destruct Hi as [E | []]. simpl in He. rewrite E in He. exact He.
Qed.

(** A task whose mail failed is not marked. *)
Lemma notify_failed_not_marked k pending c i to :
  NoDup (map task_id pending) ->
  In (Dispatched i to false) (snd (run k pending c)) ->
  ~ In (Marked i) (snd (run k pending c)).
Proof.
  apply (notify_course
           (fun _ pending _ out =>
              NoDup (map task_id pending) ->
              In (Dispatched i to false) (snd out) ->
              ~ In (Marked i) (snd out))); simpl.
  - tauto.
  - intros ? ? ? ? _ IH H. inversion H. auto.
  - intros k0 task u rest c0 _ _ IH H Hd [Hm | Hm]; [discriminate|].
    inversion H as [|? ? Hn Hr]; subst.
    destruct Hd as [Hd | Hd]; [|now apply IH].
    injection Hd as E _. apply Hn.
    pose proof (notify_events_in_run _ _ _ _ Hm) as Hin.
    simpl in Hin. rewrite <- E in Hin. exact Hin.
  - intros ? ? ? ? ? _ _ _ _ [H | [H | []]]; discriminate.
  - intros k0 task u rest c0 _ _ _ IH H [Hd | [Hd | Hd]] Hm;
      try discriminate.
    inversion H as [|? ? Hn Hr]; subst.
    destruct Hm as [Hm | [Hm | Hm]]; try discriminate.
    + injection Hm as E. apply Hn.
      pose proof (notify_events_in_run _ _ _ _ Hd) as Hin.
      simpl in Hin. rewrite <- E in Hin. exact Hin.
    + now apply IH.
Qed.

(** When [save] never throws, every task of the run that can be
    mailed is mailed, whatever the mails before it did; and it is
    marked when no mail fails. *)
Lemma notify_reaches_all k pending c :
  (forall j, db_ok j = true) ->
  (forall p, In p pending -> valid (fst p) = true) ->
  forall p, In p pending -> mailable p = true ->
  (exists to ok,
      In (Dispatched (task_id p) to ok) (snd (run k pending c)))
  /\ ((forall j, mail_ok j = true) ->
      In (Marked (task_id p)) (snd (run k pending c))).
Proof.
  intro Hdb.
  apply (notify_course
           (fun _ pending _ out =>
              (forall p, In p pending -> valid (fst p) = true) ->
              forall p, In p pending -> mailable p = true ->
              (exists to ok,
                  In (Dispatched (task_id p) to ok) (snd out))
              /\ ((forall j, mail_ok j = true) ->
                  In (Marked (task_id p)) (snd out)))); simpl.
  - tauto.
  - intros ? p0 ? ? Hp0 IH Hv p [<- | Hp] Hm; [congruence|].
    apply IH; auto.
  - intros k0 task u rest c0 _ Hmail IH Hv p [<- | Hp] Hm.
    + split; [eauto|].
      intro Hall. rewrite Hall in Hmail. discriminate.
    + destruct (IH (fun q Hq => Hv q (or_intror Hq)) p Hp Hm)
        as [(to & ok & H) Hmark].
      split; [eauto|]. auto.
  - intros k0 task u rest c0 _ _ Hko Hv.
    pose proof (Hv (task, Some u) (or_introl eq_refl)) as Hvt.
    simpl in Hvt. rewrite Hdb, Hvt in Hko. discriminate.
  - intros k0 task u rest c0 _ _ _ IH Hv p [<- | Hp] Hm.
    + split; [eauto|]. auto.
    + destruct (IH (fun q Hq => Hv q (or_intror Hq)) p Hp Hm)
        as [(to & ok & H) Hmark].
      split; [eauto 6|]. auto.
Qed.

(** After a mail that went out, the flag is saved or [save] throws. *)
Lemma notify_mailed_then_marked k pending c i to :
  In (Dispatched i to true) (snd (run k pending c)) ->
  In (Marked i) (snd (run k pending c))
  \/ In (Aborted i) (snd (run k pending c)).
Proof.
  apply (notify_course
           (fun _ _ _ out =>
              In (Dispatched i to true) (snd out) ->
              In (Marked i) (snd out) \/ In (Aborted i) (snd out)));
    simpl.
  - tauto.
  - auto.
  - intros ? ? ? ? ? _ _ IH [H | H]; [discriminate|].
    destruct (IH H); auto.
  - intros ? ? ? ? ? _ _ _ [H | [H | []]]; [|discriminate].
    injection H as E _. rewrite E. auto.
  - intros ? ? ? ? ? _ _ _ IH [H | [H | H]]; [|discriminate|].
    + injection H as E _. rewrite E. auto.
    + destruct (IH H); auto.
Qed.

(** [save] does not throw in a run where every write is accepted and
    every task is valid. *)
Lemma notify_never_aborts k pending c i :
  (forall j, db_ok j = true) ->
  (forall p, In p pending -> valid (fst p) = true) ->
  ~ In (Aborted i) (snd (run k pending c)).
Proof.
  intro Hdb.
  apply (notify_course
           (fun _ pending _ out =>
              (forall p, In p pending -> valid (fst p) = true) ->
              ~ In (Aborted i) (snd out))); simpl.
  - tauto.
  - intros ? ? ? ? _ IH Hv. apply IH. auto.
  - intros ? ? ? ? ? _ _ IH Hv [H | H]; [discriminate|].
    revert H. apply IH. auto.
  - intros k0 task u ? ? _ _ Hko Hv.
    pose proof (Hv (task, Some u) (or_introl eq_refl)) as Hvt.
    simpl in Hvt. rewrite Hdb, Hvt in Hko. discriminate.
  - intros ? ? ? ? ? _ _ _ IH Hv [H | [H | H]]; try discriminate.
    revert H. apply IH. auto.
Qed.

(** An error thrown by [save] ends the run: every event is about
    the task whose [save] threw or about a task before it. *)
Lemma notify_abort_stops k pending c i :
  In (Aborted i) (snd (run k pending c)) ->
  exists before p after,
    pending = before ++ p :: after
    /\ task_id p = i
    /\ forall e, In e (snd (run k pending c)) ->
                 In (event_task e) (map task_id (before ++ [p])).
Proof.
  apply (notify_course
           (fun _ pending _ out =>
              In (Aborted i) (snd out) ->
              exists before p after,
                pending = before ++ p :: after
                /\ task_id p = i
                /\ forall e, In e (snd out) ->
                             In (event_task e)
                                (map task_id (before ++ [p]))));
    simpl.
  - tauto.
  - intros ? p0 ? ? _ IH H.
    destruct (IH H) as (before & p & after & -> & Hp & He).
    exists (p0 :: before), p, after. repeat split; auto.
    intros e Hin. simpl. right. auto.
  - intros k0 task u rest c0 _ _ IH [H | H]; [discriminate|].
    destruct (IH H) as (before & p & after & -> & Hp & He).
    exists ((task, Some u) :: before), p, after. repeat split; auto.
    intros e [<- | Hin]; simpl; auto.
  - intros k0 task u rest c0 _ _ _ [H | [H | []]]; [discriminate|].
    injection H as E.
    exists [], (task, Some u), rest. repeat split; [exact E|].
    intros e [<- | [<- | []]]; simpl; auto.
  - intros k0 task u rest c0 _ _ _ IH [H | [H | H]]; try discriminate.
    destruct (IH H) as (before & p & after & -> & Hp & He).
    exists ((task, Some u) :: before), p, after. repeat split; auto.
    intros e [<- | [<- | Hin]]; simpl; auto.
Qed.

End Loop.

(** Runs on a collection where the tasks of id [i] carry the flag say
    nothing about [i], and leave such a collection. *)
Lemma later_runs_silent (i : ObjectId) (envs : list RunEnv)
      (c : Collection) (log : list Event) (e : Event) :
  (forall d, In d c -> _id d = i -> notification_sent d = true) ->
  In log (later_runs envs c) -> In e log -> event_task e <> i.
Proof.
  revert c. induction envs as [|env rest IH];
    cbn [later_runs In]; [tauto|].
  intros c0 Hflag [<- | Hlog] He.
  - intro Hi. unfold checkAndSendNotifications in He.
    apply notify_events_in_run in He. rewrite Hi in He.
    unfold tasksDueSoon in He. rewrite map_map in He.
    apply in_map_iff in He as (d & Hid & Hd).
    apply filter_In in Hd as [Hd Hdue].
    unfold due_soon in Hdue. apply andb_true_iff in Hdue as [_ Hns].
    simpl in Hid. rewrite (Hflag d Hd Hid) in Hns. discriminate.
  - refine (IH _ _ Hlog He).
    intros d Hd Hid. unfold checkAndSendNotifications in Hd.
    apply notify_changes in Hd as [Hin | [_ Hs]]; auto.
Qed.

End NotifyFacts.

Module SelectionFacts.

Import Task NotificationService.

(** A selection from a collection with unique ids has unique ids. *)
Lemma unique_ids_filter (keep : t -> bool) (c : Collection) :
  unique_ids c -> unique_ids (filter keep c).
Proof.
  unfold unique_ids.
  induction c as [|d c IH]; simpl; intro Hc; [exact Hc|].
  apply NoDup_cons_iff in Hc as [Hd Hc].
  destruct (keep d); simpl; [|now apply IH].
  apply NoDup_cons_iff. split; [|now apply IH].
  rewrite in_map_iff. intros (d' & E & Hin).
  apply filter_In in Hin as [Hin _].
  apply Hd. rewrite <- E. now apply in_map.
Qed.

Lemma NoDup_app_disjoint {A : Type} (l1 l2 : list A) (x : A) :
  NoDup (l1 ++ l2) -> In x l1 -> In x l2 -> False.
Proof.
  induction l1 as [|y l1 IH]; simpl; [tauto|].
  intros H [-> | H1] H2; inversion H as [|? ? Hn Hr]; subst.
  - apply Hn. apply in_or_app. now right.
  - now apply IH.
Qed.

Lemma tasksDueSoon_ids now users c :
  map task_id (tasksDueSoon now users c)
  = map _id (filter (due_soon now) c).
Proof.
  unfold tasksDueSoon. rewrite map_map. reflexivity.
Qed.

Lemma tasksDueSoon_unique now users c :
  unique_ids c -> NoDup (map task_id (tasksDueSoon now users c)).
Proof.
  intro H. rewrite tasksDueSoon_ids. now apply unique_ids_filter.
Qed.

Lemma tasksDueSoon_In now users c p :
  In p (tasksDueSoon now users c) <->
  In (fst p) c /\ due_soon now (fst p) = true
  /\ p = populate users (fst p).
Proof.
  unfold tasksDueSoon. rewrite in_map_iff. split.
  - intros (d & <- & Hd). apply filter_In in Hd as [? ?]. simpl. auto.
  - intros (Hin & Hdue & ->). exists (fst p). split; [reflexivity|].
    apply filter_In. auto.
Qed.

Lemma due_soon_unsent now d :
  due_soon now d = true -> notification_sent d = false.
Proof.
  unfold due_soon. intro H. apply andb_true_iff in H as [_ H].
  now destruct (notification_sent d).
Qed.

Lemma due_soon_selected now users c i :
  In i (map task_id (tasksDueSoon now users c)) ->
  exists d, In d c /\ _id d = i /\ notification_sent d = false.
Proof.
  rewrite tasksDueSoon_ids. intro H.
  apply in_map_iff in H as (d & E & Hd).
  apply filter_In in Hd as [Hin Hdue].
  exists d. repeat split; auto. now apply (due_soon_unsent now).
Qed.

Lemma overdue_selected now users c i :
  In i (map task_id (findOverdueTasks now users c)) ->
  exists d, In d c /\ _id d = i /\ notification_sent d = false.
Proof.
  unfold findOverdueTasks. rewrite map_map. simpl. intro H.
  apply in_map_iff in H as (d & E & Hd).
  apply filter_In in Hd as [Hin Hdue].
  exists d. repeat split; auto.
  apply andb_true_iff in Hdue as [_ Hdue].
  now destruct (notification_sent d).
Qed.

End SelectionFacts.

(** C3.  In a run of the sweep over a collection with unique ids:
    - a [notification_sent] flag is saved only right after the mail of
      the same task was reported sent, and a stored task carries the
      flag only if it carried it before the run or was marked in it;
    - no task is mailed twice in the run;
    - a task marked in the run is stored with the flag, is selected
      neither by the query of a run nor by [findOverdueTasks], at
      whatever time, and the runs that follow, however many and whatever
      their mails and writes do, mail nothing for it;
    - when every mail goes out and every write is accepted, every valid
      task that is due within the day and has an owner with an address
      is marked;
    - after a mail that went out, the flag of the task is saved, unless
      [save] throws and ends the run; where every write is accepted and
      the documents are valid, every task whose mail went out is marked,
      whatever became of the other mails, so that no later run mails it
      again. *)
Theorem notified_at_most_once
        (mail_ok db_ok : nat -> bool) (now : Date) (users : list User)
        (c : Task.Collection) :
  unique_ids c ->
  let out :=
    NotificationService.checkAndSendNotifications mail_ok db_ok now users c
  in
  (forall l1 l2 i,
      snd out = l1 ++ NotificationService.Marked i :: l2 ->
      exists l0 to,
        l1 = l0 ++ [NotificationService.Dispatched i to true])
  /\ (forall d,
         In d (fst out) -> Task.notification_sent d = true ->
         In d c \/ In (NotificationService.Marked (Task._id d)) (snd out))
  /\ NoDup (dispatched (snd out))
  /\ (forall i,
         In (NotificationService.Marked i) (snd out) ->
         (forall d, In d (fst out) -> Task._id d = i ->
                    Task.notification_sent d = true)
         /\ (forall now' users',
                ~ In i (map task_id
                            (NotificationService.tasksDueSoon
                               now' users' (fst out)))
                /\ ~ In i (map task_id
                               (Task.findOverdueTasks now' users'
                                                      (fst out))))
         /\ (forall envs log e,
                In log (later_runs envs (fst out)) -> In e log ->
                event_task e <> i))
  /\ ((forall j, mail_ok j = true) ->
      (forall j, db_ok j = true) ->
      (forall d, In d c -> valid d = true) ->
      forall d,
        In d c -> NotificationService.due_soon now d = true ->
        mailable (Task.populate users d) = true ->
        In (NotificationService.Marked (Task._id d)) (snd out))
  /\ (forall i to,
         In (NotificationService.Dispatched i to true) (snd out) ->
         In (NotificationService.Marked i) (snd out)
         \/ In (NotificationService.Aborted i) (snd out))
  /\ ((forall j, db_ok j = true) ->
      (forall d, In d c -> valid d = true) ->
      forall i to,
        In (NotificationService.Dispatched i to true) (snd out) ->
        In (NotificationService.Marked i) (snd out)).
Proof.
  intros Hu out. subst out.
  unfold NotificationService.checkAndSendNotifications.
  set (pending := NotificationService.tasksDueSoon now users c).
  assert (forall i,
             In (NotificationService.Marked i)
                (snd (NotificationService.notify mail_ok db_ok 0 pending c)) ->
             forall d,
               In d (fst (NotificationService.notify mail_ok db_ok 0
                                                     pending c)) ->
               Task._id d = i -> Task.notification_sent d = true) as Hstored.
  { intros i Hm d Hd Hid.
    now apply (NotifyFacts.notify_marked_stored
                 mail_ok db_ok 0 pending c i d). }
  split; [|split; [|split; [|split; [|split; [|split]]]]].
  - intros l1 l2 i E.
    now apply (NotifyFacts.notify_marked_after_mail
                 mail_ok db_ok 0 pending c l1 l2 i).
  - intros d Hd _.
    destruct (NotifyFacts.notify_changes mail_ok db_ok 0 pending c d Hd)
      as [|[? _]]; auto.
  - apply NotifyFacts.notify_dispatched_once.
    now apply SelectionFacts.tasksDueSoon_unique.
  - intros i Hi. split; [|split].
    + now apply Hstored.
    + intros now' users'. split; intro Hsel.
      * apply SelectionFacts.due_soon_selected in Hsel
          as (d & Hd & Hid & Hns).
        rewrite (Hstored i Hi d Hd Hid) in Hns. discriminate.
      * apply SelectionFacts.overdue_selected in Hsel
          as (d & Hd & Hid & Hns).
        rewrite (Hstored i Hi d Hd Hid) in Hns. discriminate.
    + intros envs log e.
      apply NotifyFacts.later_runs_silent. now apply Hstored.
  - intros Hmail Hdb Hv d Hd Hdue Hm.
    apply (NotifyFacts.notify_reaches_all
             mail_ok db_ok 0 pending c Hdb
             (fun p Hp => Hv (fst p)
                             (proj1 (proj1 (SelectionFacts.tasksDueSoon_In
                                              now users c p) Hp)))
             (Task.populate users d)); auto.
    apply SelectionFacts.tasksDueSoon_In. simpl. auto.
  - intros i to.
    apply (NotifyFacts.notify_mailed_then_marked mail_ok db_ok 0 pending c).
  - intros Hdb Hv i to Hd.
    destruct (NotifyFacts.notify_mailed_then_marked
                mail_ok db_ok 0 pending c i to Hd) as [Hm | Ha];
      [exact Hm|].
    exfalso. revert Ha.
    apply (NotifyFacts.notify_never_aborts mail_ok db_ok 0 pending c i Hdb).
    intros p Hp. apply Hv.
    now apply SelectionFacts.tasksDueSoon_In in Hp as (Hin & _).
Qed.

(** Both tasks are due within the day; every mail goes out and every
    write is accepted. *)
Lemma notified_at_most_once_witness :
  unique_ids [due_a; due_b]
  /\ let out :=
       NotificationService.checkAndSendNotifications
         always always 0%Z [ann; bob] [due_a; due_b] in
     In (NotificationService.Marked 1) (snd out)
     /\ (forall d, In d (fst out) -> Task._id d = 1 ->
                   Task.notification_sent d = true)
     /\ ~ In 1 (map task_id
                    (NotificationService.tasksDueSoon
                       1000%Z [ann; bob] (fst out)))
     /\ NoDup (dispatched (snd out)).
Proof.
  assert (unique_ids [due_a; due_b]) as Hu.
  { unfold unique_ids. simpl. repeat constructor; simpl; intuition lia. }
  split; [exact Hu|].
  pose proof (notified_at_most_once always always 0%Z [ann; bob]
                                    [due_a; due_b] Hu) as H.
  cbv zeta in H. destruct H as (_ & _ & Hnd & Hmarked & Hall & _).
  assert (In (NotificationService.Marked 1)
             (snd (NotificationService.checkAndSendNotifications
                     always always 0%Z [ann; bob] [due_a; due_b]))) as Hin.
  { apply (Hall (fun _ => eq_refl) (fun _ => eq_refl)
                (fun d Hd => match Hd with
                             | or_introl E =>
                                 eq_ind due_a (fun x => valid x = true)
                                        eq_refl d E
                             | or_intror (or_introl E) =>
                                 eq_ind due_b (fun x => valid x = true)
                                        eq_refl d E
                             | or_intror (or_intror F) =>
                                 False_ind _ F
                             end)
                due_a (or_introl eq_refl) eq_refl eq_refl). }
  destruct (Hmarked 1 Hin) as (Hs & Hq & _).
  repeat split; auto; apply (Hq 1000%Z [ann; bob]).
Defined.

(** The last scenario of the specification: a task due in 12 hours, not
    notified; the mail goes out; after the run the flag is set, and an
    immediate second run sends nothing. *)
Example sweep_then_sweep_again :
  let due := (12 * 60 * 60 * 1000)%Z in
  let task := Task.mkTask 1 7 "Pay rent" None false "High" (Some due) []
                          false 0%Z in
  let first := NotificationService.checkAndSendNotifications
                 always always 0%Z [ann] [task] in
  snd first = [NotificationService.Dispatched 1 "ann@example.org" true;
               NotificationService.Marked 1]
  /\ map Task.notification_sent (fst first) = [true]
  /\ snd (NotificationService.checkAndSendNotifications
            always always 0%Z [ann] (fst first)) = []
  /\ Task.findOverdueTasks (due + 1)%Z [ann] (fst first) = [].
Proof. repeat split. Qed.

(** C4, as the code has it.  In a run over a collection with unique
    ids:
    - a task whose mail failed is stored as it was, with
      [notification_sent = false];
    - a failed mail stops nothing: when [save] does not throw (the
      writes are accepted and the documents valid), every task due
      within the day whose owner has an address is mailed, whatever the
      outcome of the other mails;
    - an error thrown by [save] is caught by the run as a whole: it
      comes right after the mail of that task went out, it is the last
      event, and no task after that one in the run is mailed or
      marked. *)
Theorem failed_mail_does_not_stop_run
        (mail_ok db_ok : nat -> bool) (now : Date) (users : list User)
        (c : Task.Collection) :
  unique_ids c ->
  let out :=
    NotificationService.checkAndSendNotifications mail_ok db_ok now users c
  in
  (forall i to,
      In (NotificationService.Dispatched i to false) (snd out) ->
      forall d, In d c -> Task._id d = i ->
                In d (fst out) /\ Task.notification_sent d = false)
  /\ ((forall j, db_ok j = true) ->
      (forall d, In d c -> valid d = true) ->
      forall d,
        In d c -> NotificationService.due_soon now d = true ->
        mailable (Task.populate users d) = true ->
        exists to ok,
          In (NotificationService.Dispatched (Task._id d) to ok) (snd out))
  /\ (forall i,
         In (NotificationService.Aborted i) (snd out) ->
         (exists l to,
             snd out = l ++ [NotificationService.Dispatched i to true;
                             NotificationService.Aborted i])
         /\ exists before p after,
             NotificationService.tasksDueSoon now users c
             = before ++ p :: after
             /\ task_id p = i
             /\ forall q e, In q after -> In e (snd out) ->
                            event_task e <> task_id q).
Proof.
  intros Hu out. subst out.
  unfold NotificationService.checkAndSendNotifications.
  pose proof (SelectionFacts.tasksDueSoon_unique now users c Hu) as Hnd.
  set (pending := NotificationService.tasksDueSoon now users c) in *.
  split; [|split].
  - intros i to Hd d Hin Hid.
    pose proof (NotifyFacts.notify_failed_not_marked
                  mail_ok db_ok 0 pending c i to Hnd Hd) as Hnm.
    split.
    + apply NotifyFacts.notify_untouched; [exact Hin | now rewrite Hid].
    + apply NotifyFacts.notify_events_in_run in Hd. simpl in Hd.
      apply SelectionFacts.due_soon_selected in Hd as (d' & Hd' & E & Hns).
      rewrite (SweepFacts.unique_ids_inj c d d'); auto. congruence.
  - intros Hdb Hv d Hd Hdue Hm.
    apply (NotifyFacts.notify_reaches_all
             mail_ok db_ok 0 pending c Hdb
             (fun p Hp => Hv (fst p)
                             (proj1 (proj1 (SelectionFacts.tasksDueSoon_In
                                              now users c p) Hp)))
             (Task.populate users d)); auto.
    apply SelectionFacts.tasksDueSoon_In. simpl. auto.
  - intros i Hi. split.
    + destruct (in_split _ _ Hi) as (l1 & l2 & E).
      destruct (NotifyFacts.notify_aborted_last
                  mail_ok db_ok 0 pending c l1 l2 i E)
        as (-> & l0 & to & ->).
      exists l0, to. rewrite E. now rewrite <- app_assoc.
    + destruct (NotifyFacts.notify_abort_stops
                  mail_ok db_ok 0 pending c i Hi)
        as (before & p & after & E & Hp & He).
      exists before, p, after. repeat split; auto.
      intros q e Hq Hin Heq.
      rewrite E in Hnd.
      replace (before ++ p :: after) with ((before ++ [p]) ++ after) in Hnd
        by (now rewrite <- app_assoc).
      rewrite map_app in Hnd.
      apply (SelectionFacts.NoDup_app_disjoint _ _ (task_id q) Hnd).
      * rewrite <- Heq. now apply He.
      * now apply in_map.
Qed.

(** The mail of the first task fails, the second task is processed. *)
Lemma failed_mail_does_not_stop_run_witness :
  unique_ids [due_a; due_b]
  /\ let out :=
       NotificationService.checkAndSendNotifications
         first_fails always 0%Z [ann; bob] [due_a; due_b] in
     In (NotificationService.Dispatched 1 "ann@example.org" false) (snd out)
     /\ In due_a (fst out)
     /\ Task.notification_sent due_a = false
     /\ exists to ok,
         In (NotificationService.Dispatched (Task._id due_b) to ok)
            (snd out).
Proof.
  assert (unique_ids [due_a; due_b]) as Hu.
  { unfold unique_ids. simpl. repeat constructor; simpl; intuition lia. }
  split; [exact Hu|].
  pose proof (failed_mail_does_not_stop_run first_fails always 0%Z
                                            [ann; bob] [due_a; due_b] Hu)
    as H.
  cbv zeta in H. destruct H as (Hfail & Hall & _).
  assert (In (NotificationService.Dispatched 1 "ann@example.org" false)
             (snd (NotificationService.checkAndSendNotifications
                     first_fails always 0%Z [ann; bob] [due_a; due_b])))
    as Hin by (simpl; auto).
  destruct (Hfail 1 _ Hin due_a (or_introl eq_refl) eq_refl) as [Ha Hb].
  repeat split; auto.
  apply (Hall (fun _ => eq_refl)
              (fun d Hd => match Hd with
                           | or_introl E =>
                               eq_ind due_a (fun x => valid x = true)
                                      eq_refl d E
                           | or_intror (or_introl E) =>
                               eq_ind due_b (fun x => valid x = true)
                                      eq_refl d E
                           | or_intror (or_intror F) => False_ind _ F
                           end)
              due_b (or_intror (or_introl eq_refl)) eq_refl eq_refl).
Defined.

(** C4, as stated, fails.  Two tasks are due within the day and both
    owners have an address; every mail would go out, and the write of
    the flag of the first task is rejected.  The error ends the run: the
    second task is not mailed and keeps [notification_sent = false],
    where the claim wants it processed.  With that write accepted the
    same run mails and marks both. *)
Lemma flag_write_error_stops_run_counterexample :
  let out :=
    NotificationService.checkAndSendNotifications
      always first_fails 0%Z [ann; bob] [due_a; due_b] in
  map task_id (NotificationService.tasksDueSoon 0%Z [ann; bob]
                                                [due_a; due_b]) = [1; 2]
  /\ mailable (Task.populate [ann; bob] due_b) = true
  /\ snd out = [NotificationService.Dispatched 1 "ann@example.org" true;
                NotificationService.Aborted 1]
  /\ ~ In 2 (map event_task (snd out))
  /\ fst out = [due_a; due_b]
  /\ snd (NotificationService.checkAndSendNotifications
            always always 0%Z [ann; bob] [due_a; due_b])
     = [NotificationService.Dispatched 1 "ann@example.org" true;
        NotificationService.Marked 1;
        NotificationService.Dispatched 2 "bob@example.org" true;
        NotificationService.Marked 2].
Proof.
  repeat split. simpl. intuition lia.
Qed.

(** ** Further properties: the listing *)

Module ListingFacts.

Import Task.

Lemma insert_sorted_In le x (l : list t) y :
  In y (insert_sorted le x l) <-> y = x \/ In y l.
Proof.
  induction l as [|z l IH]; simpl.
  - intuition.
  - destruct (le x z); simpl; [intuition|].
    rewrite IH. intuition.
Qed.

Lemma sort_In le (l : list t) y : In y (sort le l) <-> In y l.
Proof.
  induction l as [|x l IH]; simpl; [tauto|].
  rewrite insert_sorted_In, IH. intuition.
Qed.

Lemma in_order_cons le (x y : t) (l : list t) :
  le x y = true -> in_order le (y :: l) -> in_order le (x :: y :: l).
Proof.
  intros Hxy Hl [|i] a b Ha Hb; simpl in *.
  - now injection Ha as <-; injection Hb as <-.
  - now apply (Hl i).
Qed.

Lemma in_order_tail le (x : t) (l : list t) :
  in_order le (x :: l) -> in_order le l.
Proof. intros H i a b Ha Hb. now apply (H (S i)). Qed.

Lemma in_order_short le (l : list t) :
  List.length l <= 1 -> in_order le l.
Proof.
  intros Hl i a b Ha Hb.
  assert (nth_error l (S i) <> None) as Hn by congruence.
  apply nth_error_Some in Hn. lia.
Qed.

Lemma insert_sorted_in_order le x (l : list t) :
  (forall a b, le a b = true \/ le b a = true) ->
  in_order le l -> in_order le (insert_sorted le x l).
Proof.
  intro Htotal.
  induction l as [|y l IH]; simpl; intro Hl.
  - apply in_order_short. simpl. lia.
  - destruct (le x y) eqn:Hxy.
    + now apply in_order_cons.
    + assert (le y x = true) as Hyx
          by (destruct (Htotal x y); congruence).
      pose proof (IH (in_order_tail _ _ _ Hl)) as Hins.
      destruct l as [|z l]; simpl in *.
      * apply in_order_cons; [exact Hyx | exact Hins].
      * destruct (le x z).
        -- now apply in_order_cons.
        -- apply in_order_cons; [|exact Hins].
           apply (Hl 0 y z); reflexivity.
Qed.

Lemma sort_in_order le (l : list t) :
  (forall a b, le a b = true \/ le b a = true) ->
  in_order le (sort le l).
Proof.
  intro Htotal. induction l as [|x l IH]; simpl.
  - apply in_order_short. simpl. lia.
  - now apply insert_sorted_in_order.
Qed.

Lemma in_order_skipn le (n : nat) (l : list t) :
  in_order le l -> in_order le (skipn n l).
Proof.
  revert l. induction n as [|n IH]; intros l Hl; [exact Hl|].
  destruct l as [|x l]; [exact Hl|]. simpl.
  apply IH. now apply in_order_tail in Hl.
Qed.

Lemma in_order_firstn le (n : nat) (l : list t) :
  in_order le l -> in_order le (firstn n l).
Proof.
  intros Hl i a b Ha Hb.
  assert (S i < n) as Hi.
  { assert (nth_error (firstn n l) (S i) <> None) as Hn by congruence.
    apply nth_error_Some in Hn. rewrite length_firstn in Hn. lia. }
  rewrite nth_error_firstn in Ha, Hb.
  destruct (i <? n) eqn:E1; [|discriminate].
  destruct (S i <? n) eqn:E2; [|discriminate].
  now apply (Hl i).
Qed.

Lemma directed_total le desc :
  (forall a b : t, le a b = true \/ le b a = true) ->
  forall a b, directed le desc a b = true \/ directed le desc b a = true.
Proof.
  intros H a b. destruct desc; simpl; [destruct (H a b); auto | apply H].
Qed.

Lemma by_createdAt_total a b :
  by_createdAt a b = true \/ by_createdAt b a = true.
Proof.
  unfold by_createdAt.
  destruct (Z.leb_spec (createdAt a) (createdAt b)); [now left|].
  right. apply Z.leb_le. lia.
Qed.

Lemma by_due_date_total a b :
  by_due_date a b = true \/ by_due_date b a = true.
Proof.
  unfold by_due_date, date_le.
  destruct (due_date a) as [x|], (due_date b) as [y|]; auto.
  destruct (Z.leb_spec x y); [now left|].
  right. apply Z.leb_le. lia.
Qed.

Lemma by_priority_total a b :
  by_priority a b = true \/ by_priority b a = true.
Proof. apply String.leb_total. Qed.

Ltac split_sort_by :=
  repeat match goal with
         | |- context [match ?x with _ => _ end] => destruct x
         end.

Lemma sort_spec_total (f : Filters) a b :
  sort_spec f a b = true \/ sort_spec f b a = true.
Proof.
  unfold sort_spec.
  destruct (truthy_opt (sort_by f));
    [|apply directed_total, by_createdAt_total].
  destruct (sort_by f) as [s|];
    [|apply directed_total, by_createdAt_total].
  generalize (String.eqb (sort_order f) "desc"). intro desc.
  split_sort_by;
    first [ apply directed_total, by_createdAt_total
          | apply directed_total, by_due_date_total
          | apply directed_total, by_priority_total ].
Qed.

Lemma sort_spec_default (f : Filters) :
  (forall s, sort_by f = Some s ->
             s <> "due_date"%string /\ s <> "priority"%string
             /\ s <> "created_at"%string) ->
  sort_spec f = directed by_createdAt true.
Proof.
  unfold sort_spec. intro H.
  destruct (truthy_opt (sort_by f)); [|reflexivity].
  destruct (sort_by f) as [s|]; [|reflexivity].
  specialize (H s eq_refl).
  generalize (String.eqb (sort_order f) "desc"). intro desc.
  revert H. split_sort_by; intro H; try reflexivity;
    exfalso; destruct H as (H1 & H2 & H3); congruence.
Qed.

Lemma in_order_each_then le (R : t -> t -> Prop) (l : list t) :
  (forall a b, le a b = true -> R a b) ->
  in_order le l -> each_then R l.
Proof. intros HR H i a b Ha Hb. apply HR. now apply (H i). Qed.

Lemma by_createdAt_up a b : by_createdAt a b = true -> created_up a b.
Proof. unfold by_createdAt, created_up. apply Z.leb_le. Qed.

Lemma by_due_date_up a b : by_due_date a b = true -> due_up a b.
Proof.
  unfold by_due_date, due_up, date_le. intros H x Hx. rewrite Hx in H.
  destruct (due_date b) as [y|]; [|discriminate].
  exists y. split; [reflexivity|]. now apply Z.leb_le.
Qed.

Lemma priority_place_inv p n :
  priority_place p = Some n ->
  (p = "High"%string /\ n = 0) \/ (p = "Low"%string /\ n = 1)
  \/ (p = "Medium"%string /\ n = 2).
Proof.
  unfold priority_place.
  destruct (String.eqb_spec p "High") as [-> | _];
    [intro E; injection E as <-; auto|].
  destruct (String.eqb_spec p "Low") as [-> | _];
    [intro E; injection E as <-; auto|].
  destruct (String.eqb_spec p "Medium") as [-> | _];
    [intro E; injection E as <-; auto|].
  discriminate.
Qed.

Lemma by_priority_place a b : by_priority a b = true -> place_up a b.
Proof.
  unfold by_priority, place_up. intros H pa pb Ea Eb.
  apply priority_place_inv in Ea. apply priority_place_inv in Eb.
  destruct Ea as [[Ea ->] | [[Ea ->] | [Ea ->]]];
    destruct Eb as [[Eb ->] | [[Eb ->] | [Eb ->]]];
    rewrite Ea, Eb in H; try discriminate H; lia.
Qed.

Lemma sort_spec_due_date (f : Filters) :
  sort_by f = Some "due_date"%string ->
  sort_spec f = directed by_due_date (String.eqb (sort_order f) "desc").
Proof. intro Hs. unfold sort_spec. rewrite Hs. reflexivity. Qed.

Lemma sort_spec_priority (f : Filters) :
  sort_by f = Some "priority"%string ->
  sort_spec f = directed by_priority (String.eqb (sort_order f) "desc").
Proof. intro Hs. unfold sort_spec. rewrite Hs. reflexivity. Qed.

Lemma sort_spec_created_at (f : Filters) :
  sort_by f = Some "created_at"%string ->
  sort_spec f = directed by_createdAt (String.eqb (sort_order f) "desc").
Proof. intro Hs. unfold sort_spec. rewrite Hs. reflexivity. Qed.

(** The listing in the order of one key, in the direction asked for. *)
Lemma in_order_directed le (R : t -> t -> Prop) (order : string)
      (l : list t) :
  (forall a b, le a b = true -> R a b) ->
  in_order (directed le (String.eqb order "desc")) l ->
  (order = "desc"%string -> each_then (fun a b => R b a) l)
  /\ (order <> "desc"%string -> each_then R l).
Proof.
  intros HR H. split; intro Ho.
  - rewrite Ho in H. cbn in H.
    intros i a b Ha Hb. apply HR. now apply (H i).
  - destruct (String.eqb_spec order "desc") as [E | _]; [contradiction|].
    cbn in H. intros i a b Ha Hb. apply HR. now apply (H i).
Qed.

End ListingFacts.

Module PageFacts.

Import Task.

Section Engine.

Variable regex_test : string -> string -> bool.

Lemma found_In owner f c d :
  In d (findByUserWithFilters regex_test owner f c) ->
  In d c /\ matches regex_test owner f d = true.
Proof.
  unfold findByUserWithFilters. intro H.
  assert (In d (sort (sort_spec f)
                     (filter (matches regex_test owner f) c))) as Hs.
  { destruct (negb (page f =? 0) && negb (limit f =? 0)); [|exact H].
    set (found := sort (sort_spec f)
                       (filter (matches regex_test owner f) c)) in *.
    rewrite <- (firstn_skipn ((page f - 1) * limit f) found).
    apply in_or_app. right.
    rewrite <- (firstn_skipn (limit f)
                             (skipn ((page f - 1) * limit f) found)).
    apply in_or_app. now left. }
  apply ListingFacts.sort_In in Hs. now apply filter_In in Hs.
Qed.






End Engine.

End PageFacts.

(** X1.  The listing gives an owner only tasks of the collection that
    are the owner's and pass every filter of the query: [is_completed]
    equal to whether the parameter is the string "true", the priority,
    the bounds on the due date (a task without due date passes neither),
    and the search pattern found in the title or in the description. *)
Theorem getTasks_returns_matching
        (regex_test : string -> string -> bool) (owner : ObjectId)
        (q : TaskController.Query) (c : Task.Collection) (d : Task.t) :
  In d (TaskController.tasks
          (TaskController.getTasks regex_test owner q c)) ->
  In d c
  /\ Task.user_id d = owner
  /\ (forall s, TaskController.q_is_completed q = Some s ->
                Task.is_completed d = String.eqb s "true")
  /\ (forall p, TaskController.q_priority q = Some p -> truthy p = true ->
                Task.priority d = p)
  /\ (forall lo, TaskController.q_due_date_from q = Some lo ->
                 exists v, Task.due_date d = Some v /\ (lo <= v)%Z)
  /\ (forall hi, TaskController.q_due_date_to q = Some hi ->
                 exists v, Task.due_date d = Some v /\ (v <= hi)%Z)
  /\ (forall pat, TaskController.q_search q = Some pat ->
                  truthy pat = true ->
                  regex_test pat (Task.title d) = true
                  \/ exists s, Task.description d = Some s
                               /\ regex_test pat s = true).
Proof.
  unfold TaskController.getTasks. simpl. intro H.
  apply PageFacts.found_In in H as [Hin Hm].
  split; [exact Hin|].
  unfold Task.matches in Hm. simpl in Hm.
  repeat (apply andb_true_iff in Hm as [Hm ?]).
  apply Nat.eqb_eq in Hm.
  split; [exact Hm|]. repeat split.
  - intros s Hs. rewrite Hs in *. simpl in *. now apply Bool.eqb_prop.
  - intros p Hp Ht. unfold TaskController.if_truthy in *.
    rewrite Hp in *. simpl in *. rewrite Ht in *. simpl in *.
    rewrite Ht in *. now apply String.eqb_eq.
  - intros lo Hlo. rewrite Hlo in *.
    destruct (Task.due_date d) as [v|]; [|discriminate].
    exists v. split; [reflexivity | now apply Z.leb_le].
  - intros hi Hhi. rewrite Hhi in *.
    destruct (Task.due_date d) as [v|]; [|discriminate].
    exists v. split; [reflexivity | now apply Z.leb_le].
  - intros pat Hp Ht. unfold TaskController.if_truthy in *.
    rewrite Hp in *. simpl in *. rewrite Ht in *. simpl in *.
    rewrite Ht in *.
    match goal with
    | H : _ || _ = true |- _ => apply orb_true_iff in H as [H | H]
    end; [now left|].
    right. destruct (Task.description d) as [s|]; [|discriminate].
    now exists s.
Qed.

Lemma getTasks_returns_matching_witness :
  let d := Task.mkTask 3 7 "Task" None true "Low" None [] false 3%Z in
  In d (TaskController.tasks
          (TaskController.getTasks no_match 7 (completed_query 1 10)
                                   (sample_tasks 15 3)))
  /\ Task.is_completed d = true /\ Task.user_id d = 7.
Proof.
  cbv zeta.
  assert (In (Task.mkTask 3 7 "Task" None true "Low" None [] false 3%Z)
             (TaskController.tasks
                (TaskController.getTasks no_match 7 (completed_query 1 10)
                                         (sample_tasks 15 3)))) as Hd
      by (simpl; auto).
  split; [exact Hd|].
  destruct (getTasks_returns_matching no_match 7 (completed_query 1 10)
                                      (sample_tasks 15 3) _ Hd)
    as (_ & Hu & Hc & _).
  split; [|exact Hu]. apply (Hc "true"%string). reflexivity.
Defined.





(** X4.  The listing comes in the order asked for.  With [sort_by]
    "created_at" each task is followed by one created no earlier, or no
    later when [sort_order] is "desc".  With "due_date" each task is
    followed by one due no earlier, tasks without a due date first; with
    "desc" each is followed by one due no later, tasks without a due date
    last.  With "priority" the priorities are compared as strings, so
    that ascending is High, Low, Medium and "desc" is Medium, Low, High.
    Any [sort_order] other than "desc" is ascending.  Without [sort_by],
    or with a [sort_by] that is none of the three, the order is by
    creation date, newest first, whatever [sort_order] says. *)
Theorem listing_in_order
        (regex_test : string -> string -> bool) (owner : ObjectId)
        (f : Task.Filters) (c : Task.Collection) :
  let l := Task.findByUserWithFilters regex_test owner f c in
  (Task.sort_by f = Some "created_at"%string ->
   (Task.sort_order f = "desc"%string ->
    each_then (fun a b => created_up b a) l)
   /\ (Task.sort_order f <> "desc"%string -> each_then created_up l))
  /\ (Task.sort_by f = Some "due_date"%string ->
      (Task.sort_order f = "desc"%string ->
       each_then (fun a b => due_up b a) l)
      /\ (Task.sort_order f <> "desc"%string -> each_then due_up l))
  /\ (Task.sort_by f = Some "priority"%string ->
      (Task.sort_order f = "desc"%string ->
       each_then (fun a b => priority_up b a /\ place_up b a) l)
      /\ (Task.sort_order f <> "desc"%string ->
          each_then (fun a b => priority_up a b /\ place_up a b) l))
  /\ ((forall s, Task.sort_by f = Some s ->
                 s <> "due_date"%string /\ s <> "priority"%string
                 /\ s <> "created_at"%string) ->
      each_then (fun a b => created_up b a) l
      /\ in_order (fun a b => (Task.createdAt b <=? Task.createdAt a)%Z) l)
  /\ in_order (Task.sort_spec f) l.
Proof.
  cbv zeta.
  assert (in_order (Task.sort_spec f)
                   (Task.findByUserWithFilters regex_test owner f c)) as H.
  { unfold Task.findByUserWithFilters.
    pose proof (ListingFacts.sort_in_order
                  (Task.sort_spec f)
                  (filter (Task.matches regex_test owner f) c)
                  (ListingFacts.sort_spec_total f)) as Hs.
    destruct (_ && _); [|exact Hs].
    now apply ListingFacts.in_order_firstn, ListingFacts.in_order_skipn. }
  split; [|split; [|split; [|split]]].
  - intro Hs. rewrite (ListingFacts.sort_spec_created_at f Hs) in H.
    exact (ListingFacts.in_order_directed
             _ created_up _ _ ListingFacts.by_createdAt_up H).
  - intro Hs. rewrite (ListingFacts.sort_spec_due_date f Hs) in H.
    exact (ListingFacts.in_order_directed
             _ due_up _ _ ListingFacts.by_due_date_up H).
  - intro Hs. rewrite (ListingFacts.sort_spec_priority f Hs) in H.
    apply (ListingFacts.in_order_directed
             Task.by_priority
             (fun a b => priority_up a b /\ place_up a b)); [|exact H].
    intros a b Hab. split; [exact Hab|].
    now apply ListingFacts.by_priority_place.
  - intro Hd. rewrite (ListingFacts.sort_spec_default f Hd) in H.
    split; [|exact H].
    intros i a b Ha Hb. apply ListingFacts.by_createdAt_up.
    now apply (H i).
  - exact H.
Qed.

Lemma listing_in_order_witness :
  map Task.priority
      (Task.findByUserWithFilters
         no_match 7 (sorted_by "priority" "asc") ranked_tasks)
  = ["High"; "Low"; "Medium"]%string
  /\ each_then (fun a b => priority_up a b /\ place_up a b)
               (Task.findByUserWithFilters
                  no_match 7 (sorted_by "priority" "asc") ranked_tasks).
Proof.
  split; [reflexivity|].
  apply (proj1 (proj2 (proj2 (listing_in_order
                                no_match 7 (sorted_by "priority" "asc")
                                ranked_tasks)))).
  - reflexivity.
  - discriminate.
Defined.

(** The three tasks in each order: by priority the strings decide, not
    the urgency; by due date the task without one comes first going up
    and last going down; an order that is neither "desc" nor "asc"
    counts as ascending, and an unknown key gives the newest first. *)
Example listing_orders :
  map Task._id (Task.findByUserWithFilters
                  no_match 7 (sorted_by "priority" "desc") ranked_tasks)
  = [2; 1; 3]
  /\ map Task._id (Task.findByUserWithFilters
                     no_match 7 (sorted_by "priority" "asc") ranked_tasks)
     = [3; 1; 2]
  /\ map Task._id (Task.findByUserWithFilters
                     no_match 7 (sorted_by "due_date" "asc") ranked_tasks)
     = [1; 3; 2]
  /\ map Task._id (Task.findByUserWithFilters
                     no_match 7 (sorted_by "due_date" "desc") ranked_tasks)
     = [2; 3; 1]
  /\ map Task._id (Task.findByUserWithFilters
                     no_match 7 (sorted_by "created_at" "asc") ranked_tasks)
     = [1; 2; 3]
  /\ map Task._id (Task.findByUserWithFilters
                     no_match 7 (sorted_by "created_at" "desc")
                     ranked_tasks)
     = [3; 2; 1]
  /\ map Task._id (Task.findByUserWithFilters
                     no_match 7 (sorted_by "created_at" "down")
                     ranked_tasks)
     = [1; 2; 3]
  /\ map Task._id (Task.findByUserWithFilters
                     no_match 7 (sorted_by "title" "asc") ranked_tasks)
     = [3; 2; 1].
Proof. repeat split. Qed.

(** ** Further properties: statistics *)

Module StatsFacts.

Import Task TaskController.

Lemma sum_cond_from (p : Task.t -> bool) (l : list Task.t) (acc : nat) :
  fold_left (fun a d => a + (if p d then 1 else 0)) l acc
  = acc + List.length (filter p l).
Proof.
  revert acc. induction l as [|d l IH]; intro acc; simpl; [lia|].
  rewrite IH. destruct (p d); simpl; lia.
Qed.

Lemma sum_cond_count (p : Task.t -> bool) (l : list Task.t) :
  sum_cond p l = List.length (filter p l).
Proof. unfold sum_cond. now rewrite sum_cond_from. Qed.

Lemma count_split (p : Task.t -> bool) (l : list Task.t) :
  List.length (filter p l) + List.length (filter (fun d => negb (p d)) l)
  = List.length l.
Proof.
  induction l as [|d l IH]; simpl; [reflexivity|].
  destruct (p d); simpl; lia.
Qed.

Lemma count_le (p q : Task.t -> bool) (l : list Task.t) :
  (forall d, p d = true -> q d = true) ->
  List.length (filter p l) <= List.length (filter q l).
Proof.
  intro H. induction l as [|d l IH]; simpl; [lia|].
  destruct (p d) eqn:E.
  - rewrite (H d E). simpl. lia.
  - destruct (q d); simpl; lia.
Qed.

Lemma count_all (l : list Task.t) :
  List.length (filter (fun _ => true) l) = List.length l.
Proof. induction l; simpl; congruence. Qed.

End StatsFacts.

(** X5.  The statistics of an owner: [totalTasks] is the number of the
    owner's tasks, the same number the listing reports; completed and
    pending tasks add up to it; the high-priority and the overdue tasks
    are among them, the overdue ones among the pending; the pending
    tasks whose due date is before [now] are all counted overdue; and
    the default object, without [_id], is given exactly when the owner
    has no task.  Tasks of other owners change nothing. *)
Theorem getTaskStats_counts
        (absent_due_counts : Task.t -> bool) (now : Date)
        (owner : ObjectId) (c : Task.Collection) :
  let s := TaskController.getTaskStats absent_due_counts now owner c in
  TaskController.totalTasks' s = Task.countDocuments owner c
  /\ TaskController.completedTasks s + TaskController.pendingTasks s
     = TaskController.totalTasks' s
  /\ TaskController.highPriorityTasks s <= TaskController.totalTasks' s
  /\ TaskController.overdueTasks s <= TaskController.pendingTasks s
  /\ List.length
       (filter (fun d => js_truthy (Task.isOverdue d now))
               (filter (fun d => Task.user_id d =? owner) c))
     <= TaskController.overdueTasks s
  /\ (TaskController.grouped s = false <-> Task.countDocuments owner c = 0)
  /\ s = TaskController.getTaskStats
           absent_due_counts now owner
           (filter (fun d => Task.user_id d =? owner) c).
Proof.
  unfold TaskController.getTaskStats, Task.countDocuments.
  assert (filter (fun d => Task.user_id d =? owner)
                 (filter (fun d => Task.user_id d =? owner) c)
          = filter (fun d => Task.user_id d =? owner) c) as Hidem.
  { induction c as [|d c IH]; simpl; [reflexivity|].
    destruct (Task.user_id d =? owner) eqn:E; simpl; [|exact IH].
    now rewrite E, IH. }
  rewrite Hidem.
  set (mine := filter (fun d => Task.user_id d =? owner) c).
  destruct mine as [|d0 rest] eqn:Hmine.
  - simpl. repeat split; auto.
  - rewrite <- Hmine. cbv zeta. cbn [TaskController.totalTasks'
      TaskController.completedTasks TaskController.pendingTasks
      TaskController.highPriorityTasks TaskController.overdueTasks
      TaskController.grouped].
    rewrite !StatsFacts.sum_cond_count, StatsFacts.count_all.
    split; [reflexivity|]. split; [|split; [|split; [|split; [|split]]]].
    + rewrite <- (StatsFacts.count_split Task.is_completed mine).
      f_equal; apply f_equal, filter_ext; intro d;
        now destruct (Task.is_completed d).
    + apply filter_length_le.
    + apply StatsFacts.count_le. intros d Hd.
      unfold TaskController.overdue_cond in Hd.
      now apply andb_true_iff in Hd as [_ Hd].
    + apply StatsFacts.count_le. intros d Hd.
      unfold Task.isOverdue in Hd. unfold TaskController.overdue_cond.
      destruct (Task.due_date d); simpl in Hd; [|discriminate].
      apply andb_true_iff in Hd as [H1 H2]. rewrite H1.
      now destruct (Task.is_completed d).
    + rewrite Hmine. simpl. split; [discriminate | lia].
    + reflexivity.
Qed.

(** X6.  The tasks due today are exactly the owner's tasks of the
    collection that are not completed and whose due date lies from the
    start of the day up to, and not including, the start of the next;
    they come by due date, earliest first, and [count] is their
    number. *)
Theorem getTasksDueToday_exact
        (startOfDay nextDay : Date -> Date) (now : Date)
        (owner : ObjectId) (c : Task.Collection) :
  let r := TaskController.getTasksDueToday startOfDay nextDay now owner c in
  (forall d,
      In d (fst r) <->
      In d c /\ Task.user_id d = owner /\ Task.is_completed d = false
      /\ exists v, Task.due_date d = Some v
                   /\ (startOfDay now <= v < nextDay (startOfDay now))%Z)
  /\ in_order (fun a b => Task.date_le (Task.due_date a) (Task.due_date b))
              (fst r)
  /\ snd r = List.length (fst r)
  /\ snd r <= Task.countDocuments owner c.
Proof.
  unfold TaskController.getTasksDueToday. simpl.
  split; [|split; [|split]].
  - intro d. rewrite ListingFacts.sort_In, filter_In.
    unfold TaskController.due_today.
    split.
    + intros [Hin H].
      apply andb_true_iff in H as [H Hc].
      apply andb_true_iff in H as [Ho Hd].
      apply Nat.eqb_eq in Ho. apply Bool.eqb_prop in Hc.
      destruct (Task.due_date d) as [v|]; [|discriminate].
      apply andb_true_iff in Hd as [H1 H2].
      apply Z.leb_le in H1. apply Z.ltb_lt in H2.
      repeat split; auto. exists v. auto.
    + intros (Hin & Ho & Hc & v & Hv & H1 & H2).
      split; [exact Hin|].
      rewrite Ho, Hc, Hv, Nat.eqb_refl. simpl.
      apply Z.leb_le in H1. apply Z.ltb_lt in H2. now rewrite H1, H2.
  - apply (ListingFacts.sort_in_order
             (Task.directed Task.by_due_date false)).
    apply ListingFacts.directed_total, ListingFacts.by_due_date_total.
  - reflexivity.
  - rewrite QueryFacts.sort_length. unfold Task.countDocuments.
    apply StatsFacts.count_le. intros d H.
    unfold TaskController.due_today in H.
    apply andb_true_iff in H as [H _].
    now apply andb_true_iff in H as [H _].
Qed.

(** X7.  The dashboard: its completed and pending counts add up to the
    total; it counts as overdue exactly the tasks whose [isOverdue]
    virtual is truthy, all of them pending; the pending count is the
    length of the "pending" view and the completed count that of the
    "completed" view; every task is in exactly one of the two views, and
    any other view mode shows all tasks. *)
Theorem dashboard_counts (now : Date) (tasks : list Task.t) :
  let s := Dashboard.getTaskStats now tasks in
  Dashboard.completedTasks s + Dashboard.pendingTasks s
  = Dashboard.totalTasks s
  /\ Dashboard.overdueTasks s
     = List.length (filter (fun d => js_truthy (Task.isOverdue d now)) tasks)
  /\ Dashboard.overdueTasks s <= Dashboard.pendingTasks s
  /\ Dashboard.completedTasks s
     = List.length (Dashboard.getFilteredTasks "completed" tasks)
  /\ Dashboard.pendingTasks s
     = List.length (Dashboard.getFilteredTasks "pending" tasks)
  /\ (forall d, In d tasks ->
                (In d (Dashboard.getFilteredTasks "completed" tasks)
                 /\ ~ In d (Dashboard.getFilteredTasks "pending" tasks))
                \/ (In d (Dashboard.getFilteredTasks "pending" tasks)
                    /\ ~ In d (Dashboard.getFilteredTasks "completed"
                                                          tasks)))
  /\ (forall mode,
         mode <> "completed"%string -> mode <> "pending"%string ->
         Dashboard.getFilteredTasks mode tasks = tasks).
Proof.
  unfold Dashboard.getTaskStats. simpl.
  pose proof (StatsFacts.count_split Task.is_completed tasks) as Hsplit.
  pose proof (filter_length_le Task.is_completed tasks) as Hle.
  assert (forall l : list Task.t,
             filter (fun task =>
                       negb (Task.is_completed task)
                       && match Task.due_date task with
                          | Some v => (v <? now)%Z
                          | None => false
                          end) l
             = filter (fun d => js_truthy (Task.isOverdue d now)) l) as Hov.
  { intro l. apply filter_ext. intro d. unfold Task.isOverdue.
    destruct (Task.due_date d); simpl.
    - apply andb_comm.
    - apply andb_false_r. }
  split; [lia|]. split; [now rewrite Hov|]. split; [|split; [|split; [|split]]].
  - rewrite <- Hsplit, Nat.add_comm, Nat.add_sub.
    apply StatsFacts.count_le. intros d H.
    now apply andb_true_iff in H as [H _].
  - reflexivity.
  - rewrite <- Hsplit. lia.
  - intros d Hd. rewrite !filter_In.
    destruct (Task.is_completed d) eqn:E; [left | right];
      (split; [auto | intros [_ H]; discriminate]).
  - intros mode H1 H2. unfold Dashboard.getFilteredTasks.
    ListingFacts.split_sort_by; congruence.
Qed.

(** ** Further properties: the handlers *)

Module CrudFacts.

Import Task TaskFacts StoreFacts TaskController.

Lemma validate_nil isNew (d : t) :
  validate isNew d = [] <->
  title_errors d = [] /\ description_errors d = []
  /\ priority_errors d = [] /\ due_date_errors isNew d = []
  /\ flat_map subtask_errors (subtasks d) = [].
Proof.
  unfold validate. split.
  - intro H. repeat (apply app_eq_nil in H as [? H]). auto.
  - intros (-> & -> & -> & -> & ->). reflexivity.
Qed.

Lemma validate_new_loaded now (d : t) :
  validate (Some now) d = [] -> validate None d = [].
Proof.
  rewrite !validate_nil. intros (H1 & H2 & H3 & _ & H5).
  repeat split; auto.
Qed.

Lemma findOne_fresh (id owner : ObjectId) (c : Collection) (d : t) :
  ~ In id (map _id c) -> _id d = id -> user_id d = owner ->
  findOne id owner (c ++ [d]) = Some d.
Proof.
  unfold findOne. intros Hfresh Hid Hu.
  induction c as [|x c IH]; simpl in *.
  - now rewrite Hid, Hu, !Nat.eqb_refl.
  - destruct (_id x =? id) eqn:E; simpl.
    + apply Nat.eqb_eq in E. tauto.
    + apply IH. tauto.
Qed.

Lemma delete_In (id : ObjectId) (c : Collection) (d : t) :
  unique_ids c ->
  (In d (findByIdAndDelete id c) <-> In d c /\ _id d <> id).
Proof.
  unfold unique_ids.
  induction c as [|x c IH]; simpl; intro Hu; [tauto|].
  apply NoDup_cons_iff in Hu as [Hx Hu].
  destruct (_id x =? id) eqn:E.
  - apply Nat.eqb_eq in E. split.
    + intro Hd. split; [now right|].
      intro Hid. apply Hx. rewrite E, <- Hid. now apply in_map.
    + intros [[-> | Hd] Hid]; [contradiction | exact Hd].
  - apply Nat.eqb_neq in E. simpl. rewrite (IH Hu). split.
    + intros [-> | [Hd Hid]]; auto.
    + intros [[-> | Hd] Hid]; auto.
Qed.

Lemma delete_length (id owner : ObjectId) (c : Collection) (task : t) :
  findOne id owner c = Some task ->
  S (List.length (findByIdAndDelete id c)) = List.length c.
Proof.
  intro Hf. pose proof (findOne_id_listed _ _ _ _ Hf) as Hin.
  apply findOne_Some in Hf as (_ & Hid & _). rewrite Hid in Hin.
  clear Hid. induction c as [|x c IH]; simpl in *; [tauto|].
  destruct (_id x =? id) eqn:E; simpl; [reflexivity|].
  apply Nat.eqb_neq in E. destruct Hin as [H | H]; [congruence|].
  now rewrite IH.
Qed.

End CrudFacts.

Module OutcomeFacts.

Import Task TaskFacts StoreFacts TaskController.

Lemma refused taskId owner c r :
  success r = false -> data r = None ->
  request_outcome taskId owner c (c, r).
Proof. intros H1 H2. left. auto. Qed.

Lemma saved_outcome (taskId owner : ObjectId) (c : Collection)
      (task d : t) (answer : t -> Response) :
  findOne taskId owner c = Some task ->
  _id d = _id task -> user_id d = user_id task ->
  (forall d', success (answer d') = true /\ data (answer d') = Some d') ->
  request_outcome taskId owner c
    (match save d c with
     | (c', Saved d') => (c', answer d')
     | (c', Threw e) => (c', errorHandler e)
     end).
Proof.
  intros Hf Hid Hu Hans. unfold save.
  destruct (validate None d) as [|e errs] eqn:Hv.
  - right. simpl. split; [apply Hans|].
    exists task. split; [exact Hf|]. right. left.
    exists (pre_save d).
    apply findOne_Some in Hf as (_ & Ht & Ho).
    rewrite pre_save_id, pre_save_user_id.
    repeat split; try congruence; [|apply Hans].
    unfold valid. now rewrite SubtaskFacts.validate_pre_save, Hv.
  - now apply refused.
Qed.

Lemma handle_outcome (req : TaskRequest) (taskId owner : ObjectId)
      (c : Collection) :
  request_outcome taskId owner c (handle req taskId owner c).
Proof.
  destruct req; simpl;
    unfold getTask, updateTask, deleteTask, addSubtask, updateSubtask,
      deleteSubtask, toggleTaskCompletion, toggleSubtaskCompletion,
      Task.addSubtask, Task.updateSubtask, Task.removeSubtask;
    destruct (findOne taskId owner c) as [task|] eqn:Hf;
    try (apply refused; reflexivity).
  - right. simpl. split; [reflexivity|]. exists task. auto.
  - apply (saved_outcome taskId owner c task); auto.
    + apply update_fields_id.
    + apply update_fields_user_id.
  - right. simpl. split; [reflexivity|]. exists task. auto.
  - apply (saved_outcome taskId owner c task); auto.
  - destruct (subtask_by_id subtaskId task);
      [|apply refused; reflexivity].
    match goal with
    | |- context [save ?d c] =>
        pose proof (saved_outcome taskId owner c task d
                      (fun d' => mkResponse 200 true
                         (Some "Subtask updated successfully"%string)
                         (Some d'))
                      Hf eq_refl eq_refl
                      (fun _ => conj eq_refl eq_refl)) as H;
        destruct (save_cases d c) as [E | [errs E]]; rewrite E in H |- *
    end; exact H.
  - destruct (subtask_by_id subtaskId task);
      [|apply refused; reflexivity].
    apply (saved_outcome taskId owner c task); auto.
  - apply (saved_outcome taskId owner c task); auto.
  - destruct (subtask_by_id subtaskId task);
      [|apply refused; reflexivity].
    apply (saved_outcome taskId owner c task); auto.
Qed.

End OutcomeFacts.

(** X8.  A task created with an [_id] new to the collection, and with a
    due date, if any, that a JavaScript [Date] can hold, is the last
    document of the collection, and [getTask] with that id and the
    owner of the request gives it back.  It belongs to the owner, has
    [notification_sent = false], the creation time [now], the trimmed
    title, the priority asked for or "Low", and one subtask per subtask
    given; it is completed exactly when it has subtasks and all of them
    are completed.  The ids of the collection stay unique. *)
Theorem createTask_then_getTask
        (now : Date) (oid : nat -> ObjectId) (owner : ObjectId)
        (body : TaskController.CreateBody) (c : Task.Collection) :
  ~ In (oid 0) (map Task._id c) ->
  (forall v, TaskController.c_due_date body = Some v -> in_date_range v) ->
  TaskController.status (snd (TaskController.createTask now oid owner body c))
  = 201 ->
  exists d,
    TaskController.createTask now oid owner body c
    = (c ++ [d],
       TaskController.mkResponse 201 true
         (Some "Task created successfully"%string) (Some d))
    /\ TaskController.getTask (oid 0) owner (c ++ [d])
       = (c ++ [d], TaskController.mkResponse 200 true None (Some d))
    /\ Task._id d = oid 0
    /\ Task.user_id d = owner
    /\ Task.notification_sent d = false
    /\ Task.createdAt d = now
    /\ Task.title d
       = trim (TaskController.or_default (TaskController.c_title body)
                                         EmptyString)
    /\ Task.priority d
       = TaskController.or_default (TaskController.c_priority body)
                                   "Low"%string
    /\ Task.due_date d = TaskController.c_due_date body
    /\ List.length (Task.subtasks d)
       = List.length (TaskController.or_default
                        (TaskController.c_subtasks body) [])
    /\ Task.is_completed d = all_subtasks_completed d
    /\ (unique_ids c -> unique_ids (c ++ [d])).
Proof.
  intros Hfresh _ Hst.
  unfold TaskController.createTask, Task.create in *.
  match type of Hst with
  | context [Task.validate (Some now) ?d0] => set (doc := d0) in *
  end.
  destruct (Task.validate (Some now) doc); [|discriminate].
  exists (Task.pre_save doc).
  assert (Task._id (Task.pre_save doc) = oid 0) as Hid
      by now rewrite TaskFacts.pre_save_id.
  assert (Task.user_id (Task.pre_save doc) = owner) as Hu
      by now rewrite TaskFacts.pre_save_user_id.
  split; [reflexivity|]. split.
  { unfold TaskController.getTask.
    now rewrite (CrudFacts.findOne_fresh (oid 0) owner c). }
  split; [exact Hid|]. split; [exact Hu|].
  destruct (TaskFacts.pre_save_cases doc) as [[Hall E] | [Hall E]];
    rewrite E; simpl; repeat split;
    try (unfold all_subtasks_completed in *; simpl in *; congruence).
  - clear. generalize 1.
    induction (TaskController.or_default (TaskController.c_subtasks body) [])
      as [|x l IH]; intro k; simpl; [reflexivity | now rewrite IH].
  - unfold unique_ids. rewrite map_app. simpl. intro Hc.
    apply NoDup_app; [exact Hc | repeat constructor; simpl; tauto |].
    intros a Ha [<- | []]. contradiction.
  - clear. generalize 1.
    induction (TaskController.or_default (TaskController.c_subtasks body) [])
      as [|x l IH]; intro k; simpl; [reflexivity | now rewrite IH].
  - unfold unique_ids. rewrite map_app. simpl. intro Hc.
    apply NoDup_app; [exact Hc | repeat constructor; simpl; tauto |].
    intros a Ha [<- | []]. contradiction.
Qed.

(** A task created with two completed subtasks is stored completed. *)
Lemma createTask_then_getTask_witness :
  exists d,
    TaskController.createTask 50%Z from_100 7 packed_body [open_task]
    = ([open_task] ++ [d],
       TaskController.mkResponse 201 true
         (Some "Task created successfully"%string) (Some d))
    /\ TaskController.getTask (from_100 0) 7 ([open_task] ++ [d])
       = ([open_task] ++ [d],
          TaskController.mkResponse 200 true None (Some d))
    /\ Task.title d = "Pack"%string
    /\ Task.is_completed d = true.
Proof.
  destruct (createTask_then_getTask 50%Z from_100 7 packed_body [open_task])
    as (d & Hc & Hg & _ & _ & _ & _ & Ht & _ & _ & _ & Hdone & _).
  - unfold from_100. simpl. intuition lia.
  - intros v Hv. discriminate Hv.
  - reflexivity.
  - exists d. repeat split; auto.
    rewrite Hdone. injection Hc as <-. reflexivity.
Defined.

(** X9.  A creation request is refused with status 400, without task in
    the answer and with the collection as it was, when the title is
    missing or empty once trimmed, when the trimmed title has more than
    200 characters, when the priority is none of "Low", "Medium" and
    "High", or when the due date is before the current time. *)
Theorem createTask_rejects
        (now : Date) (oid : nat -> ObjectId) (owner : ObjectId)
        (body : TaskController.CreateBody) (c : Task.Collection) :
  truthy (trim (TaskController.or_default (TaskController.c_title body)
                                          EmptyString)) = false
  \/ 200 < String.length
             (trim (TaskController.or_default (TaskController.c_title body)
                                              EmptyString))
  \/ (exists p, TaskController.c_priority body = Some p
                /\ ~ In p Task.priority_enum)
  \/ (exists v, TaskController.c_due_date body = Some v /\ (v < now)%Z) ->
  let out := TaskController.createTask now oid owner body c in
  fst out = c
  /\ TaskController.status (snd out) = 400
  /\ TaskController.success (snd out) = false
  /\ TaskController.data (snd out) = None.
Proof.
  intro Hbad. unfold TaskController.createTask, Task.create.
  match goal with
  | |- context [Task.validate (Some now) ?d0] => set (doc := d0)
  end.
  destruct (Task.validate (Some now) doc) eqn:Hv; [|now simpl].
  exfalso. apply CrudFacts.validate_nil in Hv
    as (Ht & _ & Hp & Hd & _).
  unfold Task.title_errors, Task.priority_errors, Task.due_date_errors,
    Task.due_date_valid in *.
  change (Task.title doc)
    with (trim (TaskController.or_default (TaskController.c_title body)
                                          EmptyString)) in Ht.
  change (Task.priority doc)
    with (TaskController.or_default (TaskController.c_priority body)
                                    "Low"%string) in Hp.
  change (Task.due_date doc) with (TaskController.c_due_date body) in Hd.
  destruct Hbad as [H | [H | [(p & Hp' & Hn) | (v & Hv' & Hlt)]]].
  - unfold truthy in H. apply negb_false_iff in H.
    rewrite H in Ht. discriminate.
  - destruct (String.length _ =? 0); [discriminate|].
    apply Nat.ltb_lt in H. rewrite H in Ht. discriminate.
  - rewrite Hp' in Hp. cbn [TaskController.or_default] in Hp.
    destruct (existsb (String.eqb p) Task.priority_enum) eqn:E;
      [|discriminate].
    apply existsb_exists in E as (x & Hx & Ex).
    apply String.eqb_eq in Ex. subst x. contradiction.
  - rewrite Hv' in Hd. apply Z.ltb_lt in Hlt. rewrite Hlt in Hd.
    discriminate.
Qed.

(** A task due yesterday is refused. *)
Lemma createTask_rejects_witness :
  let out := TaskController.createTask 100000000%Z from_100 7
                                       (dated_body 13600000%Z)
                                       [open_task] in
  fst out = [open_task]
  /\ TaskController.status (snd out) = 400
  /\ TaskController.success (snd out) = false
  /\ TaskController.data (snd out) = None.
Proof.
  apply (createTask_rejects 100000000%Z from_100 7 (dated_body 13600000%Z)
                            [open_task]).
  right. right. right. exists 13600000%Z. split; [reflexivity | lia].
Defined.

(** X10.  In a collection with unique ids, the deletion of a task by its
    owner removes exactly the document of that id: the collection is one
    document shorter, every other document is still there, and a later
    [getTask] for the id is answered 404 "Task not found". *)
Theorem deleteTask_then_getTask
        (id owner : ObjectId) (c : Task.Collection) (task : Task.t) :
  unique_ids c ->
  Task.findOne id owner c = Some task ->
  let out := TaskController.deleteTask id owner c in
  TaskController.status (snd out) = 200
  /\ S (List.length (fst out)) = List.length c
  /\ (forall d, In d (fst out) <-> In d c /\ Task._id d <> id)
  /\ snd (TaskController.getTask id owner (fst out))
     = TaskController.not_found "Task not found"
  /\ unique_ids (fst out).
Proof.
  intros Hu Hf. unfold TaskController.deleteTask. rewrite Hf. simpl.
  split; [reflexivity|]. split; [now apply (CrudFacts.delete_length id owner c task)|].
  split; [intro d; now apply CrudFacts.delete_In|].
  split.
  - unfold TaskController.getTask.
    destruct (Task.findOne id owner (Task.findByIdAndDelete id c))
      as [x|] eqn:E; [|reflexivity].
    apply TaskFacts.findOne_Some in E as (Hin & Hid & _).
    apply CrudFacts.delete_In in Hin as [_ Hne]; [contradiction | exact Hu].
  - clear Hf. unfold unique_ids in *.
    induction c as [|x c IH]; simpl; [constructor|].
    apply NoDup_cons_iff in Hu as [Hx Hc].
    destruct (Task._id x =? id); [exact Hc|].
    simpl. apply NoDup_cons_iff. split; [|now apply IH].
    intro Hin. apply Hx. apply in_map_iff in Hin as (y & Ey & Hy).
    apply CrudFacts.delete_In in Hy as [Hy _]; [|exact Hc].
    rewrite <- Ey. now apply in_map.
Qed.

Lemma deleteTask_then_getTask_witness :
  let out := TaskController.deleteTask 3 7 [finished_task; open_task] in
  TaskController.status (snd out) = 200
  /\ S (List.length (fst out)) = List.length [finished_task; open_task]
  /\ (forall d, In d (fst out) <->
                In d [finished_task; open_task] /\ Task._id d <> 3)
  /\ snd (TaskController.getTask 3 7 (fst out))
     = TaskController.not_found "Task not found"
  /\ unique_ids (fst out).
Proof.
  apply (deleteTask_then_getTask 3 7 [finished_task; open_task] open_task).
  - unfold unique_ids. simpl. repeat constructor; simpl; intuition lia.
  - reflexivity.
Defined.

(** X11.  A request that is answered with [success: false] changes
    nothing and returns no task: this holds of the creation and of the
    eight handlers of a task.  An answer has [success: true] exactly
    when its status is 200 or 201. *)
Theorem failed_request_changes_nothing (c : Task.Collection) :
  (forall m,
      TaskController.success (snd (run m c)) = false ->
      fst (run m c) = c /\ TaskController.data (snd (run m c)) = None)
  /\ (forall req taskId owner,
         TaskController.success (snd (handle req taskId owner c)) = false ->
         fst (handle req taskId owner c) = c
         /\ TaskController.data (snd (handle req taskId owner c)) = None)
  /\ (forall req taskId owner,
         TaskController.success (snd (handle req taskId owner c))
         = (TaskController.status (snd (handle req taskId owner c)) <? 400)).
Proof.
  assert (forall req taskId owner,
             TaskController.success (snd (handle req taskId owner c)) = false ->
             fst (handle req taskId owner c) = c
             /\ TaskController.data (snd (handle req taskId owner c)) = None)
    as Hh.
  { intros req taskId owner Hs.
    destruct (OutcomeFacts.handle_outcome req taskId owner c)
      as [(_ & H1 & H2) | (H & _)]; [auto | congruence]. }
  split; [|split; [exact Hh|]].
  - intros [now oid owner body | id owner body | oid id owner st cp
           | tid sid owner u | tid sid owner | id owner | tid sid owner];
      simpl.
    + unfold TaskController.createTask, Task.create.
      destruct (Task.validate _ _); simpl; [discriminate | auto].
    + apply (Hh (UpdateTask body)).
    + apply (Hh (AddSubtaskTo oid st cp)).
    + apply (Hh (UpdateSubtaskOf sid u)).
    + apply (Hh (DeleteSubtaskOf sid)).
    + apply (Hh ToggleCompletion).
    + apply (Hh (ToggleSubtaskOf sid)).
  - intros req taskId owner.
    destruct req; simpl;
      unfold TaskController.getTask, TaskController.updateTask,
        TaskController.deleteTask, TaskController.addSubtask,
        TaskController.updateSubtask, TaskController.deleteSubtask,
        TaskController.toggleTaskCompletion,
        TaskController.toggleSubtaskCompletion,
        Task.addSubtask, Task.updateSubtask, Task.removeSubtask;
      destruct (Task.findOne taskId owner c) as [task|]; try reflexivity;
      try (destruct (Task.subtask_by_id subtaskId task); try reflexivity);
      match goal with
      | |- context [Task.save ?d c] =>
          destruct (TaskFacts.save_cases d c) as [E | [errs E]]; rewrite E
      end; reflexivity.
Qed.

(** X12.  In a collection with unique ids, a request on the task
    [(taskId, owner)] leaves every document of another id, and every
    document of another owner, in the collection as it is; a document
    that was not there before the request carries the id and the owner
    of the request. *)
Theorem request_touches_one_task
        (req : TaskRequest) (taskId owner : ObjectId)
        (c : Task.Collection) :
  unique_ids c ->
  (forall d, In d c -> Task._id d <> taskId ->
             In d (fst (handle req taskId owner c)))
  /\ (forall d, In d c -> Task.user_id d <> owner ->
                In d (fst (handle req taskId owner c)))
  /\ (forall d, In d (fst (handle req taskId owner c)) ->
                In d c \/ (Task._id d = taskId /\ Task.user_id d = owner)).
Proof.
  intro Hu.
  pose proof (OutcomeFacts.handle_outcome req taskId owner c) as Ho.
  assert (forall d, In d c -> Task._id d <> taskId ->
                    In d (fst (handle req taskId owner c))) as Hother.
  { intros d Hd Hne.
    destruct Ho as [(_ & -> & _) | (_ & task & Hf & [-> | [H | ->]])];
      auto.
    - destruct H as (w & Hw & _ & _ & -> & _).
      apply SweepFacts.write_In_other; congruence.
    - now apply CrudFacts.delete_In. }
  split; [exact Hother|]. split.
  - intros d Hd Hne.
    destruct (Nat.eq_dec (Task._id d) taskId) as [E | E]; [|auto].
    destruct Ho as [(_ & -> & _) | (_ & task & Hf & _)]; [exact Hd|].
    exfalso. apply TaskFacts.findOne_Some in Hf as (Hin & Hid & Hown).
    apply Hne. rewrite (SweepFacts.unique_ids_inj c d task); auto.
    congruence.
  - intros d Hd.
    destruct Ho as [(_ & E & _) | (_ & task & Hf & [E | [H | E]])];
      try (rewrite E in Hd; auto).
    + destruct H as (w & Hw & Hown & _ & E & _). rewrite E in Hd.
      apply TaskFacts.write_In in Hd as [Hd | ->]; auto.
    + apply CrudFacts.delete_In in Hd as [Hd _]; auto.
Qed.

(** Owner 7 toggles task 3; task 1, of owner 8, stays. *)
Lemma request_touches_one_task_witness :
  In due_b (fst (handle ToggleCompletion 3 7 [due_b; open_task]))
  /\ forall d, In d (fst (handle ToggleCompletion 3 7 [due_b; open_task])) ->
               In d [due_b; open_task]
               \/ (Task._id d = 3 /\ Task.user_id d = 7).
Proof.
  assert (unique_ids [due_b; open_task]) as Hu.
  { unfold unique_ids. simpl. repeat constructor; simpl; intuition lia. }
  destruct (request_touches_one_task ToggleCompletion 3 7
                                     [due_b; open_task] Hu)
    as (_ & H2 & H3).
  split; [|exact H3].
  apply H2; [now left | simpl; lia].
Defined.

(** X13.  When the task exists and none of its subtasks has the id
    given, the update, the deletion and the toggle of the subtask are
    answered 404 "Subtask not found" and change nothing. *)
Theorem subtask_not_found
        (taskId subtaskId owner : ObjectId) (c : Task.Collection)
        (task : Task.t) (u : Task.SubtaskUpdate) :
  Task.findOne taskId owner c = Some task ->
  ~ In subtaskId (map Task.sub_id (Task.subtasks task)) ->
  TaskController.updateSubtask taskId subtaskId owner u c
  = (c, TaskController.not_found "Subtask not found")
  /\ TaskController.deleteSubtask taskId subtaskId owner c
     = (c, TaskController.not_found "Subtask not found")
  /\ TaskController.toggleSubtaskCompletion taskId subtaskId owner c
     = (c, TaskController.not_found "Subtask not found").
Proof.
  intros Hf Hnone.
  assert (Task.subtask_by_id subtaskId task = None) as Hs.
  { unfold Task.subtask_by_id.
    destruct (find _ (Task.subtasks task)) as [s|] eqn:E; [|reflexivity].
    apply find_some in E as [Hin Hid]. apply Nat.eqb_eq in Hid.
    exfalso. apply Hnone. rewrite <- Hid. now apply in_map. }
  unfold TaskController.updateSubtask, TaskController.deleteSubtask,
    TaskController.toggleSubtaskCompletion, Task.updateSubtask.
  rewrite Hf, Hs. repeat split.
Qed.

Lemma subtask_not_found_witness :
  TaskController.updateSubtask 3 99 7 (Task.mkSubtaskUpdate None (Some true))
                               [open_task]
  = ([open_task], TaskController.not_found "Subtask not found")
  /\ TaskController.deleteSubtask 3 99 7 [open_task]
     = ([open_task], TaskController.not_found "Subtask not found")
  /\ TaskController.toggleSubtaskCompletion 3 99 7 [open_task]
     = ([open_task], TaskController.not_found "Subtask not found").
Proof.
  apply (subtask_not_found 3 99 7 [open_task] open_task).
  - reflexivity.
  - simpl. lia.
Defined.

Module TwiceFacts.

Import Task TaskFacts StoreFacts ToggleFacts.

Lemma write_same (d : t) (c : Collection) :
  unique_ids c -> In d c -> write d c = c.
Proof.
  unfold unique_ids.
  induction c as [|x c IH]; intros Hu Hd; simpl in *; [reflexivity|].
  apply NoDup_cons_iff in Hu as [Hx Hu].
  destruct Hd as [-> | Hd].
  - now rewrite Nat.eqb_refl.
  - destruct (_id x =? _id d) eqn:E.
    + apply Nat.eqb_eq in E. exfalso. apply Hx. rewrite E.
      now apply in_map.
    + now rewrite IH.
Qed.

Lemma write_write (a b : t) (c : Collection) :
  _id a = _id b -> write a (write b c) = write a c.
Proof.
  intro E. induction c as [|x c IH]; simpl; [reflexivity|].
  destruct (_id x =? _id b) eqn:Hb; simpl.
  - now rewrite E, Nat.eqb_refl, Hb.
  - now rewrite E, Hb, IH.
Qed.

Lemma flip_flip (s : Subtask) : flip (flip s) = s.
Proof. destruct s as [i ti b]. unfold flip. simpl. now destruct b. Qed.

Lemma modify_first_flip_twice sid (l : list Subtask) :
  modify_first sid flip (modify_first sid flip l) = l.
Proof.
  induction l as [|s l IH]; simpl; [reflexivity|].
  destruct (sub_id s =? sid) eqn:E; simpl.
  - change (sub_id (flip s)) with (sub_id s).
    now rewrite E, flip_flip.
  - now rewrite E, IH.
Qed.

Lemma modify_first_found sid (l : list Subtask) :
  find (fun s => sub_id s =? sid) l <> None ->
  find (fun s => sub_id s =? sid) (modify_first sid flip l) <> None.
Proof.
  induction l as [|s l IH]; simpl; [auto|].
  destruct (sub_id s =? sid) eqn:E; simpl.
  - change (sub_id (flip s)) with (sub_id s). now rewrite E.
  - now rewrite E.
Qed.

Lemma set_completed_same (d : t) : set_is_completed (is_completed d) d = d.
Proof. now destruct d. Qed.

Lemma flat_map_errors_filter (keep : Subtask -> bool) (l : list Subtask) :
  flat_map subtask_errors l = [] ->
  flat_map subtask_errors (filter keep l) = [].
Proof.
  induction l as [|s l IH]; simpl; [auto|].
  intro H. apply app_eq_nil in H as [Hs Hl].
  destruct (keep s); simpl; [rewrite Hs|]; auto.
Qed.

End TwiceFacts.

(** X14.  On a stored valid task whose subtasks are not all completed
    (or that has none), in a collection with unique ids,
    [toggleTaskCompletion] flips [is_completed], and a second toggle
    gives back the collection as it was, up to the timestamps: each of
    the two saves moves [updatedAt], which the documents here do not
    carry. *)
Theorem toggleTaskCompletion_twice
        (id owner : ObjectId) (c : Task.Collection) (task : Task.t) :
  unique_ids c ->
  Task.findOne id owner c = Some task ->
  Task.validate None task = [] ->
  all_subtasks_completed task = false ->
  let once := TaskController.toggleTaskCompletion id owner c in
  let twice := TaskController.toggleTaskCompletion id owner (fst once) in
  TaskController.data (snd once)
  = Some (Task.set_is_completed (negb (Task.is_completed task)) task)
  /\ Task.findOne id owner (fst once)
     = Some (Task.set_is_completed (negb (Task.is_completed task)) task)
  /\ TaskController.data (snd twice) = Some task
  /\ fst twice = c.
Proof.
  intros Hu Hf Hv Hall.
  set (t1 := Task.set_is_completed (negb (Task.is_completed task)) task).
  assert (Task.pre_save t1 = t1) as Hp1.
  { destruct (TaskFacts.pre_save_cases t1) as [[H _] | [_ H]]; [|exact H].
    change (all_subtasks_completed t1)
      with (all_subtasks_completed task) in H. congruence. }
  assert (TaskController.toggleTaskCompletion id owner c
          = (Task.write t1 c,
             TaskController.mkResponse 200 true None (Some t1))) as E1.
  { unfold TaskController.toggleTaskCompletion, Task.save. rewrite Hf.
    fold t1. change (Task.validate None t1) with (Task.validate None task).
    now rewrite Hv, Hp1. }
  assert (Task.findOne id owner (Task.write t1 c) = Some t1) as Hf1.
  { rewrite <- Hp1. now apply (StoreFacts.findOne_save id owner task). }
  assert (Task.set_is_completed (negb (Task.is_completed t1)) t1 = task)
    as Hback.
  { unfold t1. destruct task as [a b ti de cp pr du su ns cr]. simpl.
    now rewrite negb_involutive. }
  assert (Task.pre_save task = task) as Hp.
  { destruct (TaskFacts.pre_save_cases task) as [[H _] | [_ H]];
      [congruence | exact H]. }
  cbv zeta. rewrite E1. simpl fst. simpl snd.
  split; [reflexivity|]. split; [exact Hf1|].
  unfold TaskController.toggleTaskCompletion, Task.save.
  rewrite Hf1, Hback, Hv, Hp. simpl.
  split; [reflexivity|].
  rewrite TwiceFacts.write_write by reflexivity.
  apply TwiceFacts.write_same; [exact Hu|].
  now apply TaskFacts.findOne_Some in Hf.
Qed.

Lemma toggleTaskCompletion_twice_witness :
  let once := TaskController.toggleTaskCompletion 3 7 [due_b; open_task] in
  let twice := TaskController.toggleTaskCompletion 3 7 (fst once) in
  TaskController.data (snd once)
  = Some (Task.set_is_completed (negb (Task.is_completed open_task))
                                open_task)
  /\ Task.findOne 3 7 (fst once)
     = Some (Task.set_is_completed (negb (Task.is_completed open_task))
                                   open_task)
  /\ TaskController.data (snd twice) = Some open_task
  /\ fst twice = [due_b; open_task].
Proof.
  apply (toggleTaskCompletion_twice 3 7 [due_b; open_task] open_task).
  - unfold unique_ids. simpl. repeat constructor; simpl; intuition lia.
  - reflexivity.
  - reflexivity.
  - reflexivity.
Defined.

(** X15.  Two toggles of the same subtask of a stored valid task give
    back the task as it was, up to the timestamps, except that
    [is_completed] is [true] when the subtasks were all completed
    before, or in between: the stored task is the original one with
    [is_completed] set to the disjunction of its former value and of
    those two facts.  Each save moves [updatedAt] of the task and of the
    toggled subtask, which the documents here do not carry. *)
Theorem toggleSubtaskCompletion_twice
        (taskId sid owner : ObjectId) (c : Task.Collection)
        (task : Task.t) :
  Task.findOne taskId owner c = Some task ->
  Task.validate None task = [] ->
  Task.subtask_by_id sid task <> None ->
  let once := TaskController.toggleSubtaskCompletion taskId sid owner c in
  let twice :=
    TaskController.toggleSubtaskCompletion taskId sid owner (fst once) in
  exists d1,
    Task.findOne taskId owner (fst once) = Some d1
    /\ TaskController.status (snd twice) = 200
    /\ let d2 := Task.set_is_completed
                   (Task.is_completed task || all_subtasks_completed d1
                    || all_subtasks_completed task) task in
       TaskController.data (snd twice) = Some d2
       /\ fst twice = Task.write d2 c.
Proof.
  intros Hf Hv Hex.
  destruct (ToggleFacts.toggle_step taskId sid owner c task Hf Hv Hex)
    as [E1 Hf1].
  set (d1 := Task.pre_save
               (Task.set_subtasks
                  (Task.modify_first sid flip (Task.subtasks task)) task))
    in *.
  assert (Task.subtasks d1
          = Task.modify_first sid flip (Task.subtasks task)) as Hs1.
  { unfold d1. now rewrite TaskFacts.pre_save_subtasks. }
  assert (Task.validate None d1 = []) as Hv1.
  { unfold d1.
    now rewrite SubtaskFacts.validate_pre_save, ToggleFacts.validate_toggled. }
  assert (Task.subtask_by_id sid d1 <> None) as Hex1.
  { unfold Task.subtask_by_id. rewrite Hs1.
    now apply TwiceFacts.modify_first_found. }
  destruct (ToggleFacts.toggle_step taskId sid owner _ d1 Hf1 Hv1 Hex1)
    as [E2 _].
  cbv zeta. rewrite E1. simpl fst. exists d1. split; [exact Hf1|].
  rewrite E2. simpl. split; [reflexivity|].
  assert (Task.pre_save
            (Task.set_subtasks
               (Task.modify_first sid flip (Task.subtasks d1)) d1)
          = Task.set_is_completed
              (Task.is_completed task || all_subtasks_completed d1
               || all_subtasks_completed task) task) as Hd2.
  { rewrite Hs1, TwiceFacts.modify_first_flip_twice.
    assert (all_subtasks_completed d1
            = all_subtasks_completed
                (Task.set_subtasks
                   (Task.modify_first sid flip (Task.subtasks task)) task))
      as Ha.
    { unfold all_subtasks_completed. now rewrite Hs1. }
    rewrite Ha. unfold d1.
    destruct (TaskFacts.pre_save_cases
                (Task.set_subtasks
                   (Task.modify_first sid flip (Task.subtasks task)) task))
      as [[H1 ->] | [H1 ->]]; rewrite H1;
      match goal with
      | |- Task.pre_save ?x = _ =>
          destruct (TaskFacts.pre_save_cases x) as [[H2 ->] | [H2 ->]]
      end;
      unfold all_subtasks_completed in *; simpl in *;
      fold (all_subtasks_completed task) in *;
      rewrite ?H2, ?orb_true_r, ?orb_false_r;
      destruct task; reflexivity. }
  rewrite Hd2. split; [reflexivity|].
  apply TwiceFacts.write_write.
  unfold d1. now rewrite TaskFacts.pre_save_id.
Qed.

Lemma toggleSubtaskCompletion_twice_witness :
  let once := TaskController.toggleSubtaskCompletion 4 31 7
                                                     [half_done_task] in
  let twice := TaskController.toggleSubtaskCompletion 4 31 7 (fst once) in
  exists d1,
    Task.findOne 4 7 (fst once) = Some d1
    /\ TaskController.status (snd twice) = 200
    /\ let d2 := Task.set_is_completed
                   (Task.is_completed half_done_task
                    || all_subtasks_completed d1
                    || all_subtasks_completed half_done_task)
                   half_done_task in
       TaskController.data (snd twice) = Some d2
       /\ fst twice = Task.write d2 [half_done_task].
Proof.
  apply (toggleSubtaskCompletion_twice 4 31 7 [half_done_task]
                                       half_done_task).
  - reflexivity.
  - reflexivity.
  - discriminate.
Defined.

(** X16.  [addSubtask] with a title that is empty once trimmed, or has
    more than 200 characters once trimmed, is refused with status 400
    and changes nothing.  With a valid title, on a stored valid task, it
    is answered 201 and the task is completed afterwards exactly when it
    was before, or when the new subtask is completed and so were all the
    others, if any: a completed subtask added to a task without subtasks
    completes the task. *)
Theorem addSubtask_effect
        (oid id owner : ObjectId) (stitle : string) (completed : option bool)
        (c : Task.Collection) (task : Task.t) :
  Task.findOne id owner c = Some task ->
  let out := TaskController.addSubtask oid id owner stitle completed c in
  (truthy (trim stitle) = false \/ 200 < String.length (trim stitle) ->
   fst out = c /\ TaskController.status (snd out) = 400)
  /\ (truthy (trim stitle) = true -> String.length (trim stitle) <= 200 ->
      Task.validate None task = [] ->
      TaskController.status (snd out) = 201
      /\ exists d,
          TaskController.data (snd out) = Some d
          /\ Task.findOne id owner (fst out) = Some d
          /\ Task.is_completed d
             = Task.is_completed task
               || (TaskController.or_default completed false
                   && forallb Task.sub_is_completed (Task.subtasks task))).
Proof.
  intros Hf out. subst out.
  unfold TaskController.addSubtask, Task.addSubtask, Task.save.
  rewrite Hf.
  set (b := TaskController.or_default completed false).
  set (pushed := Task.push_subtask oid stitle b task).
  split.
  - intro Hbad.
    destruct (Task.validate None pushed) eqn:Hv; [|now simpl].
    exfalso. apply CrudFacts.validate_nil in Hv as (_ & _ & _ & _ & Hs).
    unfold pushed, Task.push_subtask in Hs. simpl in Hs.
    rewrite flat_map_app in Hs. apply app_eq_nil in Hs as [_ Hs].
    simpl in Hs. rewrite app_nil_r in Hs.
    unfold Task.subtask_errors in Hs. simpl in Hs.
    destruct Hbad as [H | H].
    + unfold truthy in H. apply negb_false_iff in H.
      rewrite H in Hs. discriminate.
    + destruct (String.length (trim stitle) =? 0); [discriminate|].
      apply Nat.ltb_lt in H. rewrite H in Hs. discriminate.
  - intros Ht Hl Hv.
    assert (Task.validate None pushed = []) as Hvp.
    { apply SubtaskFacts.validate_push; [exact Hv|].
      now apply SubtaskFacts.valid_title_no_errors. }
    rewrite Hvp. simpl. split; [reflexivity|].
    exists (Task.pre_save pushed). split; [reflexivity|]. split.
    + now apply (StoreFacts.findOne_save id owner task).
    + rewrite TaskFacts.pre_save_completed. f_equal.
      unfold all_subtasks_completed, pushed, Task.push_subtask. simpl.
      rewrite length_app, forallb_app. simpl.
      rewrite Nat.add_1_r. simpl. rewrite andb_true_r. apply andb_comm.
Qed.

(** A completed subtask added to a task without subtasks. *)
Lemma addSubtask_effect_witness :
  let out := TaskController.addSubtask 40 1 7 "Bank" (Some true) [due_a] in
  TaskController.status (snd out) = 201
  /\ exists d,
      TaskController.data (snd out) = Some d
      /\ Task.findOne 1 7 (fst out) = Some d
      /\ Task.is_completed d
         = Task.is_completed due_a
           || (TaskController.or_default (Some true) false
               && forallb Task.sub_is_completed (Task.subtasks due_a)).
Proof.
  apply (proj2 (addSubtask_effect 40 1 7 "Bank" (Some true) [due_a] due_a
                                  eq_refl)).
  - reflexivity.
  - simpl. lia.
  - reflexivity.
Defined.

(** X17.  The deletion of a subtask of a stored valid task is answered
    200; the task keeps its other subtasks in their order and has none
    with that id any more, so that a second deletion is answered 404
    "Subtask not found".  The task is completed afterwards exactly when
    it was before, or when subtasks remain and all of them are
    completed: the removal of the last incomplete subtask completes the
    task, the removal of the only subtask does not. *)
Theorem deleteSubtask_effect
        (taskId sid owner : ObjectId) (c : Task.Collection)
        (task : Task.t) :
  Task.findOne taskId owner c = Some task ->
  Task.validate None task = [] ->
  Task.subtask_by_id sid task <> None ->
  let out := TaskController.deleteSubtask taskId sid owner c in
  TaskController.status (snd out) = 200
  /\ exists d,
      TaskController.data (snd out) = Some d
      /\ Task.findOne taskId owner (fst out) = Some d
      /\ Task.subtasks d
         = filter (fun s => negb (Task.sub_id s =? sid))
                  (Task.subtasks task)
      /\ ~ In sid (map Task.sub_id (Task.subtasks d))
      /\ Task.is_completed d
         = Task.is_completed task || all_subtasks_completed d
      /\ TaskController.deleteSubtask taskId sid owner (fst out)
         = (fst out, TaskController.not_found "Subtask not found").
Proof.
  intros Hf Hv Hex.
  set (pulled := Task.pull_subtask sid task).
  assert (Task.validate None pulled = []) as Hvp.
  { apply CrudFacts.validate_nil in Hv as (H1 & H2 & H3 & H4 & H5).
    apply CrudFacts.validate_nil. repeat split; auto.
    unfold pulled, Task.pull_subtask. simpl.
    now apply TwiceFacts.flat_map_errors_filter. }
  assert (TaskController.deleteSubtask taskId sid owner c
          = (Task.write (Task.pre_save pulled) c,
             TaskController.mkResponse 200 true
               (Some "Subtask deleted successfully"%string)
               (Some (Task.pre_save pulled)))) as Eout.
  { unfold TaskController.deleteSubtask, Task.removeSubtask, Task.save.
    rewrite Hf.
    destruct (Task.subtask_by_id sid task) as [s|]; [|congruence].
    fold pulled. now rewrite Hvp. }
  cbv zeta. rewrite Eout. simpl fst. simpl snd.
  split; [reflexivity|].
  exists (Task.pre_save pulled).
  assert (Task.findOne taskId owner (Task.write (Task.pre_save pulled) c)
          = Some (Task.pre_save pulled)) as Hf'
      by now apply (StoreFacts.findOne_save taskId owner task).
  assert (~ In sid (map Task.sub_id (Task.subtasks (Task.pre_save pulled))))
    as Hgone.
  { rewrite TaskFacts.pre_save_subtasks. unfold pulled, Task.pull_subtask.
    simpl. intro Hin. apply in_map_iff in Hin as (x & Ex & Hx).
    apply filter_In in Hx as [_ Hx]. rewrite Ex, Nat.eqb_refl in Hx.
    discriminate. }
  split; [reflexivity|]. split; [exact Hf'|].
  split; [now rewrite TaskFacts.pre_save_subtasks|].
  split; [exact Hgone|]. split.
  - rewrite TaskFacts.pre_save_completed. f_equal.
    unfold all_subtasks_completed.
    now rewrite TaskFacts.pre_save_subtasks.
  - unfold TaskController.deleteSubtask. rewrite Hf'.
    unfold Task.subtask_by_id.
    destruct (find _ (Task.subtasks (Task.pre_save pulled))) as [x|] eqn:E;
      [|reflexivity].
    apply find_some in E as [Hin Hid]. apply Nat.eqb_eq in Hid.
    exfalso. apply Hgone. rewrite <- Hid. now apply in_map.
Qed.

(** The removal of the last incomplete subtask completes the task. *)
Lemma deleteSubtask_effect_witness :
  let out := TaskController.deleteSubtask 4 31 7 [half_done_task] in
  TaskController.status (snd out) = 200
  /\ exists d,
      TaskController.data (snd out) = Some d
      /\ Task.findOne 4 7 (fst out) = Some d
      /\ Task.subtasks d
         = filter (fun s => negb (Task.sub_id s =? 31))
                  (Task.subtasks half_done_task)
      /\ ~ In 31 (map Task.sub_id (Task.subtasks d))
      /\ Task.is_completed d
         = Task.is_completed half_done_task || all_subtasks_completed d
      /\ TaskController.deleteSubtask 4 31 7 (fst out)
         = (fst out, TaskController.not_found "Subtask not found").
Proof.
  apply (deleteSubtask_effect 4 31 7 [half_done_task] half_done_task).
  - reflexivity.
  - reflexivity.
  - discriminate.
Defined.

(** ** Further properties: the sweep *)

Module RunFacts.

Import Task TaskFacts NotificationService SweepFacts NotifyFacts.

Lemma valid_flagged (task : t) : valid (flagged task) = valid task.
Proof.
  unfold valid, flagged. now rewrite SubtaskFacts.validate_pre_save.
Qed.

Section Loop.

Variables mail_ok db_ok : nat -> bool.

Local Abbreviation run := (notify mail_ok db_ok).

(** What the loop writes: the flagged copy of a valid task of the
    run. *)
Lemma notify_written k pending c x :
  In x (fst (run k pending c)) ->
  In x c \/ exists p, In p pending /\ x = flagged (fst p)
                      /\ valid (fst p) = true.
Proof.
  apply (notify_course
           mail_ok db_ok
           (fun _ pending c out =>
              In x (fst out) ->
              In x c \/ exists p, In p pending /\ x = flagged (fst p)
                                  /\ valid (fst p) = true)); simpl.
  - auto.
  - intros ? ? ? ? _ IH H.
    destruct (IH H) as [|(p0 & ? & ?)]; eauto.
  - intros ? ? ? ? ? _ _ IH H.
    destruct (IH H) as [|(p0 & ? & ?)]; eauto.
  - auto.
  - intros ? task u ? c0 _ _ Hok IH H.
    apply andb_true_iff in Hok as [_ Hok].
    destruct (IH H) as [Hw | (p0 & ? & ?)]; [|eauto].
    apply write_In in Hw as [Hw | ->]; [auto|].
    right. exists (task, Some u). auto.
Qed.

Lemma notify_keeps_ids k pending c :
  map _id (fst (run k pending c)) = map _id c.
Proof.
  apply (notify_course
           mail_ok db_ok
           (fun _ _ c out => map _id (fst out) = map _id c)); auto.
  intros ? task ? ? c0 _ _ _ H. simpl in *.
  now rewrite H, write_ids.
Qed.

(** A mail goes to the address of the owner found for a task of the
    run, and the address is not empty. *)
Lemma notify_mail_sound k pending c i to ok :
  In (Dispatched i to ok) (snd (run k pending c)) ->
  exists task u, In (task, Some u) pending /\ _id task = i
                 /\ email u = to /\ truthy to = true.
Proof.
  apply (notify_course
           mail_ok db_ok
           (fun _ pending _ out =>
              In (Dispatched i to ok) (snd out) ->
              exists task u, In (task, Some u) pending /\ _id task = i
                             /\ email u = to /\ truthy to = true));
    simpl.
  - tauto.
  - intros ? ? ? ? _ IH H.
    destruct (IH H) as (task & u & ? & ?). eauto.
  - intros ? task u ? ? Hm _ IH [H | H].
    + injection H as <- <- _. exists task, u. auto.
    + destruct (IH H) as (task' & u' & ? & ?). eauto.
  - intros ? task u ? ? Hm _ _ [H | [H | []]]; [|discriminate].
    injection H as <- <- _. exists task, u. auto.
  - intros ? task u ? ? Hm _ _ IH [H | [H | H]]; [|discriminate|].
    + injection H as <- <- _. exists task, u. auto.
    + destruct (IH H) as (task' & u' & ? & ?). eauto.
Qed.

(** [save] throws in the run only for a rejected write or an invalid
    task. *)
Lemma notify_abort_cause k pending c i :
  In (Aborted i) (snd (run k pending c)) ->
  (exists j, db_ok j = false)
  \/ exists p, In p pending /\ valid (fst p) = false.
Proof.
  apply (notify_course
           mail_ok db_ok
           (fun _ pending _ out =>
              In (Aborted i) (snd out) ->
              (exists j, db_ok j = false)
              \/ exists p, In p pending /\ valid (fst p) = false)); simpl.
  - tauto.
  - intros ? ? ? ? _ IH H.
    destruct (IH H) as [|(p0 & ? & ?)]; eauto.
  - intros ? ? ? ? ? _ _ IH [H | H]; [discriminate|].
    destruct (IH H) as [|(p0 & ? & ?)]; eauto.
  - intros k0 task u ? ? _ _ Hko _.
    apply andb_false_iff in Hko as [Hko | Hko]; [eauto|].
    right. exists (task, Some u). auto.
  - intros ? ? ? ? ? _ _ _ IH [H | [H | H]]; try discriminate.
    destruct (IH H) as [|(p0 & ? & ?)]; eauto.
Qed.

End Loop.

End RunFacts.

(** X18.  Nothing invalid is stored: in a collection of valid documents
    (title of 1 to 200 characters, description of at most 1000, priority
    among the three, subtask titles of 1 to 200 characters), every
    request and every run of the sweep leaves a collection of valid
    documents; and on such a collection [save] throws in a run of the
    sweep only when the database rejects a write. *)
Theorem stored_documents_stay_valid (c : Task.Collection) :
  (forall x, In x c -> valid x = true) ->
  (forall m x, In x (fst (run m c)) -> valid x = true)
  /\ (forall req taskId owner x,
         In x (fst (handle req taskId owner c)) -> valid x = true)
  /\ (forall mail_ok db_ok now users x,
         In x (fst (NotificationService.checkAndSendNotifications
                      mail_ok db_ok now users c)) ->
         valid x = true)
  /\ (forall mail_ok db_ok now users i,
         In (NotificationService.Aborted i)
            (snd (NotificationService.checkAndSendNotifications
                    mail_ok db_ok now users c)) ->
         exists j, db_ok j = false).
Proof.
  intro Hc.
  assert (forall req taskId owner x,
             In x (fst (handle req taskId owner c)) -> valid x = true) as Hh.
  { intros req taskId owner x Hx.
    destruct (OutcomeFacts.handle_outcome req taskId owner c)
      as [(_ & E & _) | (_ & task & _ & [E | [H | E]])].
    - rewrite E in Hx. auto.
    - rewrite E in Hx. auto.
    - destruct H as (w & _ & _ & Hw & E & _). rewrite E in Hx.
      apply TaskFacts.write_In in Hx as [Hx | ->]; auto.
    - rewrite E in Hx. apply Hc.
      clear - Hx. induction c as [|y l IH]; simpl in *; [tauto|].
      destruct (Task._id y =? taskId); auto.
      destruct Hx as [Hx | Hx]; auto. }
  split; [|split; [exact Hh|split]].
  - intros [now oid owner body | id owner body | oid id owner st cp
           | tid sid owner u | tid sid owner | id owner | tid sid owner] x;
      simpl.
    + unfold TaskController.createTask, Task.create.
      match goal with
      | |- context [Task.validate (Some now) ?d0] => set (doc := d0)
      end.
      destruct (Task.validate (Some now) doc) eqn:Hv; simpl; [|auto].
      intro Hx. apply in_app_or in Hx as [Hx | [<- | []]]; [auto|].
      unfold valid. rewrite SubtaskFacts.validate_pre_save.
      now rewrite (CrudFacts.validate_new_loaded now doc Hv).
    + apply (Hh (UpdateTask body)).
    + apply (Hh (AddSubtaskTo oid st cp)).
    + apply (Hh (UpdateSubtaskOf sid u)).
    + apply (Hh (DeleteSubtaskOf sid)).
    + apply (Hh ToggleCompletion).
    + apply (Hh (ToggleSubtaskOf sid)).
  - intros mail_ok db_ok now users x Hx.
    unfold NotificationService.checkAndSendNotifications in Hx.
    apply RunFacts.notify_written in Hx as [Hx | (p & _ & -> & Hp)];
      [auto|].
    now rewrite RunFacts.valid_flagged.
  - intros mail_ok db_ok now users i Hi.
    unfold NotificationService.checkAndSendNotifications in Hi.
    apply RunFacts.notify_abort_cause in Hi as [H | (p & Hp & Hbad)];
      [exact H|].
    apply SelectionFacts.tasksDueSoon_In in Hp as (Hin & _).
    rewrite (Hc _ Hin) in Hbad. discriminate.
Qed.

Lemma stored_documents_stay_valid_witness :
  (forall x,
      In x (fst (run (ToggleSubtask 3 20 7) [due_b; open_task])) ->
      valid x = true)
  /\ forall i,
      ~ In (NotificationService.Aborted i)
           (snd (NotificationService.checkAndSendNotifications
                   first_fails always 0%Z [ann; bob] [due_b; open_task])).
Proof.
  assert (forall x, In x [due_b; open_task] -> valid x = true) as Hc.
  { intros x [<- | [<- | []]]; reflexivity. }
  destruct (stored_documents_stay_valid [due_b; open_task] Hc)
    as (H1 & _ & _ & H4).
  split; [apply H1|].
  intros i Hi. destruct (H4 _ _ _ _ _ Hi) as (j & Hj). discriminate.
Defined.

(** X19.  A reminder is only ever sent for a task of the collection
    that is not completed, has not been notified, and is due no earlier
    than the time of the run and no later than 24 hours after it; it
    goes to the address, not empty, of the user whose id is the owner of
    the task. *)
Theorem reminder_goes_to_owner_of_due_task
        (mail_ok db_ok : nat -> bool) (now : Date) (users : list User)
        (c : Task.Collection) (i : ObjectId) (to : string) (ok : bool) :
  In (NotificationService.Dispatched i to ok)
     (snd (NotificationService.checkAndSendNotifications
             mail_ok db_ok now users c)) ->
  exists d u,
    In d c /\ Task._id d = i
    /\ Task.is_completed d = false
    /\ Task.notification_sent d = false
    /\ (exists v, Task.due_date d = Some v
                  /\ (now <= v <= now + 86400000)%Z)
    /\ In u users /\ u_id u = Task.user_id d
    /\ email u = to /\ to <> EmptyString.
Proof.
  unfold NotificationService.checkAndSendNotifications. intro H.
  apply RunFacts.notify_mail_sound in H as (task & u & Hp & Hid & Hto & Ht).
  apply SelectionFacts.tasksDueSoon_In in Hp as (Hin & Hdue & Hpop).
  simpl in Hin, Hdue. unfold Task.populate in Hpop.
  injection Hpop as Hu. symmetry in Hu.
  apply find_some in Hu as [Huin Huid]. apply Nat.eqb_eq in Huid.
  exists task, u.
  unfold NotificationService.due_soon in Hdue.
  apply andb_true_iff in Hdue as [Hdue Hns].
  apply andb_true_iff in Hdue as [Hdue Hic].
  apply Bool.eqb_prop in Hns, Hic.
  destruct (Task.due_date task) as [v|]; [|discriminate].
  apply andb_true_iff in Hdue as [H1 H2].
  apply Z.leb_le in H1, H2.
  repeat split; auto.
  - exists v. split; [reflexivity | lia].
  - intros ->. discriminate.
Qed.

Lemma reminder_goes_to_owner_of_due_task_witness :
  exists d u,
    In d [due_a; due_b] /\ Task._id d = 2
    /\ Task.is_completed d = false
    /\ Task.notification_sent d = false
    /\ (exists v, Task.due_date d = Some v
                  /\ (0 <= v <= 0 + 86400000)%Z)
    /\ In u [ann; bob] /\ u_id u = Task.user_id d
    /\ email u = "bob@example.org"%string
    /\ "bob@example.org"%string <> EmptyString.
Proof.
  apply (reminder_goes_to_owner_of_due_task
           always always 0%Z [ann; bob] [due_a; due_b] 2
           "bob@example.org" true).
  simpl. auto.
Defined.

(** X20.  On a collection whose tasks obey the completion rule, a run
    of the sweep changes nothing but [notification_sent], up to the
    timestamps: the documents keep their place and their id, and each
    is as it was or is a task that was due within the day with the flag
    set to [true].  The save that sets the flag also moves [updatedAt],
    which the documents here do not carry. *)
Theorem sweep_changes_only_the_flag
        (mail_ok db_ok : nat -> bool) (now : Date) (users : list User)
        (c : Task.Collection) :
  (forall d, In d c -> completion_rule d) ->
  let out := NotificationService.checkAndSendNotifications
               mail_ok db_ok now users c in
  map Task._id (fst out) = map Task._id c
  /\ forall x, In x (fst out) ->
               In x c
               \/ exists d, In d c
                            /\ NotificationService.due_soon now d = true
                            /\ x = Task.set_notification_sent true d.
Proof.
  intros Hrule out. subst out.
  unfold NotificationService.checkAndSendNotifications.
  split; [apply RunFacts.notify_keeps_ids|].
  intros x Hx.
  apply RunFacts.notify_written in Hx as [Hx | (p & Hp & -> & _)];
    [now left|].
  apply SelectionFacts.tasksDueSoon_In in Hp as (Hin & Hdue & _).
  right. exists (fst p). repeat split; auto.
  unfold flagged.
  destruct (TaskFacts.pre_save_cases
              (Task.set_notification_sent true (fst p)))
    as [[Hall _] | [_ E]]; [|exact E].
  exfalso.
  change (all_subtasks_completed
            (Task.set_notification_sent true (fst p)))
    with (all_subtasks_completed (fst p)) in Hall.
  apply (Hrule _ Hin) in Hall.
  unfold NotificationService.due_soon in Hdue.
  apply andb_true_iff in Hdue as [Hdue _].
  apply andb_true_iff in Hdue as [_ Hic].
  rewrite Hall in Hic. discriminate.
Qed.

Lemma sweep_changes_only_the_flag_witness :
  let out := NotificationService.checkAndSendNotifications
               always always 0%Z [ann; bob] [due_a; finished_task] in
  map Task._id (fst out) = map Task._id [due_a; finished_task]
  /\ forall x, In x (fst out) ->
               In x [due_a; finished_task]
               \/ exists d, In d [due_a; finished_task]
                            /\ NotificationService.due_soon 0%Z d = true
                            /\ x = Task.set_notification_sent true d.
Proof.
  apply (sweep_changes_only_the_flag always always 0%Z [ann; bob]
                                     [due_a; finished_task]).
  intros d [<- | [<- | []]]; intro H; [discriminate | reflexivity].
Defined.

Module PastDueFacts.

Import Task NotificationService.

(** Runs at or after [now] say nothing about a task whose due date is
    missing or before [now], and leave its due date alone. *)
Lemma later_runs_skip_past_due (now : Date) (i : ObjectId)
      (envs : list RunEnv) (c : Collection) :
  (forall x, In x c -> _id x = i ->
             match due_date x with
             | Some v => (v < now)%Z
             | None => True
             end) ->
  (forall env, In env envs -> (now <= env_now env)%Z) ->
  forall log e, In log (later_runs envs c) -> In e log ->
                event_task e <> i.
Proof.
  revert c. induction envs as [|env rest IH];
    cbn [later_runs In]; [tauto|].
  intros c Hpast Hnow log e [<- | Hlog] He.
  - intro Hi. unfold checkAndSendNotifications in He.
    apply NotifyFacts.notify_events_in_run in He. rewrite Hi in He.
    rewrite SelectionFacts.tasksDueSoon_ids in He.
    apply in_map_iff in He as (x & Hid & Hx).
    apply filter_In in Hx as [Hx Hdue].
    specialize (Hpast x Hx Hid).
    specialize (Hnow env (or_introl eq_refl)).
    unfold due_soon in Hdue.
    apply andb_true_iff in Hdue as [Hdue _].
    apply andb_true_iff in Hdue as [Hdue _].
    destruct (due_date x) as [v|]; [|discriminate].
    apply andb_true_iff in Hdue as [H1 _]. apply Z.leb_le in H1. lia.
  - refine (IH _ _ (fun env' H => Hnow env' (or_intror H)) log e Hlog He).
    intros x Hx Hid. unfold checkAndSendNotifications in Hx.
    apply RunFacts.notify_written in Hx as [Hx | (p & Hp & -> & _)];
      [now apply Hpast|].
    apply SelectionFacts.tasksDueSoon_In in Hp as (Hin & _).
    unfold flagged in *.
    rewrite TaskFacts.pre_save_id in Hid.
    destruct (TaskFacts.pre_save_cases
                (set_notification_sent true (fst p)))
      as [[_ ->] | [_ ->]]; apply (Hpast _ Hin Hid).
Qed.

End PastDueFacts.

(** X21.  A task that has no due date, or whose due date has passed
    without a reminder, is never reminded of: no run of the sweep at or
    after that moment mails it or marks it, however many runs follow and
    whatever the mails and the writes do. *)
Theorem past_due_task_is_never_reminded
        (now : Date) (d : Task.t) (envs : list RunEnv)
        (c : Task.Collection) :
  unique_ids c ->
  In d c ->
  match Task.due_date d with
  | Some v => (v < now)%Z
  | None => True
  end ->
  (forall env, In env envs -> (now <= env_now env)%Z) ->
  forall log e, In log (later_runs envs c) -> In e log ->
                event_task e <> Task._id d.
Proof.
  intros Hu Hd Hpast.
  apply PastDueFacts.later_runs_skip_past_due.
  intros x Hx Hid.
  now rewrite (SweepFacts.unique_ids_inj c x d Hu Hx Hd Hid).
Qed.

(** Task 1 was due at 5000; runs at 5001 and at 6000 skip it. *)
Lemma past_due_task_is_never_reminded_witness :
  unique_ids [due_a; due_b]
  /\ ~ In (Task._id due_a)
          (map event_task
               (List.concat
                  (later_runs [mkRunEnv always always 5001%Z [ann; bob];
                               mkRunEnv always always 6000%Z [ann; bob]]
                              [due_a; due_b]))).
Proof.
  assert (unique_ids [due_a; due_b]) as Hu.
  { unfold unique_ids. simpl. repeat constructor; simpl; intuition lia. }
  split; [exact Hu|].
  intro Hin. apply in_map_iff in Hin as (e & He & Hin).
  apply in_concat in Hin as (log & Hlog & Hin).
  refine (past_due_task_is_never_reminded
            5001%Z due_a
            [mkRunEnv always always 5001%Z [ann; bob];
             mkRunEnv always always 6000%Z [ann; bob]]
            [due_a; due_b] Hu (or_introl eq_refl) _ _ log e Hlog Hin He).
  - simpl. lia.
  - intros env [<- | [<- | []]]; simpl; lia.
Defined.
